(** * pybaseball_live: the play-event flattener and the multi-game fetcher

    A shallow embedding of [pybaseball_live/game.py].  The parsed JSON
    document of a game is a tree of Python values; the flattener walks it
    with chained [dict.get] calls and builds one flat dictionary per
    qualifying play event.  Python exceptions are the [Raise] results of a
    small error monad, so that the evaluation order of the source (the
    first failing sub-expression wins) is kept. *)

From Stdlib Require Import ZArith String List Bool Lia Permutation.
From stdpp Require Import base option list gmap pretty.
Import ListNotations.

Set Warnings "-register-all".

Local Open Scope string_scope.
Local Open Scope Z_scope.
Local Open Scope list_scope.

(** ** Python values *)

(** A Python [float]: not-a-number, an infinity, or the finite binary
    value [m * 2^e]. *)
Inductive pyfloat : Type :=
| FNaN
| FInf (negative : bool)
| FFin (m e : Z).

(** What [response.json()] can return, together with [None] and the
    floats that the flattener itself writes.  A [dict] is the list of its
    items in insertion order; a lookup takes the first item of the key. *)
Inductive value : Type :=
| VNone
| VBool (b : bool)
| VInt (n : Z)
| VFloat (f : pyfloat)
| VStr (s : string)
| VList (l : list value)
| VDict (d : list (string * value)).

Definition dict : Type := list (string * value).

(** [np.nan] *)
Definition np_nan : value := VFloat FNaN.

(** The literal [{}] *)
Definition empty_dict : value := VDict [].

(** ** Exceptions and the error monad *)

Inductive exn : Type :=
| AttributeError
| TypeError
| KeyError
| IndexError
| BadResponseCode (url : string) (bad_code : Z)
| OtherException (msg : string).

Inductive result (A : Type) : Type :=
| Ok (a : A)
| Raise (e : exn).
Arguments Ok {A} a.
Arguments Raise {A} e.

Definition bind {A B : Type} (c : result A) (k : A -> result B) : result B :=
  match c with
  | Ok a => k a
  | Raise e => Raise e
  end.

Declare Scope py_scope.
Delimit Scope py_scope with py.
Notation "'let*' x ':=' c 'in' k" := (bind c (fun x => k))
  (at level 10, x name, c at level 100, k at level 200) : py_scope.
Local Open Scope py_scope.

Definition is_ok {A : Type} (c : result A) : bool :=
  match c with Ok _ => true | Raise _ => false end.

(** ** Dictionary primitives *)

Fixpoint dict_get (d : dict) (k : string) : option value :=
  match d with
  | [] => None
  | (k', v) :: d' => if String.eqb k' k then Some v else dict_get d' k
  end.

(** [d[k] = v]: an existing key keeps its position, a new key goes last. *)
Fixpoint dict_set (d : dict) (k : string) (v : value) : dict :=
  match d with
  | [] => [(k, v)]
  | (k', v') :: d' =>
      if String.eqb k' k then (k', v) :: d' else (k', v') :: dict_set d' k v
  end.

(** [d.update(other)] *)
Definition dict_update (d other : dict) : dict :=
  fold_left (fun acc kv => dict_set acc (fst kv) (snd kv)) other d.

Definition keys (d : dict) : list string := List.map fst d.

Definition is_dict (v : value) : bool :=
  match v with VDict _ => true | _ => false end.

(** [v.get(k, dflt)]: only a [dict] has the method. *)
Definition get_or (v : value) (k : string) (dflt : value) : result value :=
  match v with
  | VDict d => Ok (default dflt (dict_get d k))
  | _ => Raise AttributeError
  end.

(** [v.get(k)] *)
Definition get (v : value) (k : string) : result value := get_or v k VNone.

(** [e.get(k, dflt)] and [e.get(k)] on the result of an earlier call, as in
    [matchup.get("batter", {}).get("id")]. *)
Definition rget_or (c : result value) (k : string) (dflt : value) : result value :=
  let* v := c in get_or v k dflt.

Definition rget (c : result value) (k : string) : result value :=
  let* v := c in get v k.

(** ** Truth value, equality, membership, iteration *)

(** [bool(v)] *)
Definition truthy (v : value) : bool :=
  match v with
  | VNone => false
  | VBool b => b
  | VInt n => negb (n =? 0)
  | VFloat (FFin m _) => negb (m =? 0)
  | VFloat _ => true
  | VStr s => negb (String.eqb s EmptyString)
  | VList l => match l with [] => false | _ => true end
  | VDict d => match d with [] => false | _ => true end
  end.

(** [v == z] for an [int] literal [z]: [True == 1] and [4.0 == 4] hold. *)
Definition py_eq_int (v : value) (z : Z) : bool :=
  match v with
  | VBool b => (if b then 1 else 0) =? z
  | VInt n => n =? z
  | VFloat (FFin m e) =>
      if 0 <=? e then m * 2 ^ e =? z else m =? z * 2 ^ (- e)
  | _ => false
  end.

(** [v == s] for a [str] literal [s] *)
Definition py_eq_str (v : value) (s : string) : bool :=
  match v with
  | VStr s' => String.eqb s' s
  | _ => false
  end.

(** [v in l] for a list [l] of [str] literals *)
Definition py_in_strs (v : value) (l : list string) : bool :=
  existsb (py_eq_str v) l.

(** [s in v] for a [str] literal [s]: a key of a dict, an element of a
    list, a substring of a string; anything else is not a container. *)
Definition py_contains (s : string) (v : value) : result bool :=
  match v with
  | VDict d => Ok (bool_decide (is_Some (dict_get d s)))
  | VList l => Ok (existsb (fun x => py_eq_str x s) l)
  | VStr s' => Ok (bool_decide (is_Some (String.index 0 s s')))
  | _ => Raise TypeError
  end.

Fixpoint chars (s : string) : list value :=
  match s with
  | EmptyString => []
  | String c s' => VStr (String c EmptyString) :: chars s'
  end.

(** The items that [for x in v] visits. *)
Definition py_iter (v : value) : result (list value) :=
  match v with
  | VList l => Ok l
  | VDict d => Ok (List.map VStr (keys d))
  | VStr s => Ok (chars s)
  | _ => Raise TypeError
  end.

(** [len(v)] *)
Definition py_len (v : value) : result Z :=
  match v with
  | VList l => Ok (Z.of_nat (length l))
  | VDict d => Ok (Z.of_nat (length d))
  | VStr s => Ok (Z.of_nat (String.length s))
  | _ => Raise TypeError
  end.

(** [v[i]] for an index [i >= 0] *)
Definition py_index (v : value) (i : nat) : result value :=
  match v with
  | VList l =>
      match nth_error l i with Some x => Ok x | None => Raise IndexError end
  | VStr s =>
      match String.get i s with
      | Some c => Ok (VStr (String c EmptyString))
      | None => Raise IndexError
      end
  | VDict _ => Raise KeyError
  | _ => Raise TypeError
  end.

(** ** Dictionary displays

    [{"k": e, **f(), ...}] evaluates its items from left to right and
    stops at the first exception. *)
Inductive item : Type :=
| Field (k : string) (e : result value)
| Splat (e : result dict).

Fixpoint dict_display_from (acc : dict) (items : list item) : result dict :=
  match items with
  | [] => Ok acc
  | Field k e :: rest =>
      let* v := e in dict_display_from (dict_set acc k v) rest
  | Splat e :: rest =>
      let* r := e in dict_display_from (dict_update acc r) rest
  end.

Definition dict_display (items : list item) : result dict :=
  dict_display_from [] items.

(** [{key(k): val(k) for k in ks}] *)
Fixpoint dict_comprehension (ks : list string) (key : string -> string)
    (val : string -> result value) (acc : dict) : result dict :=
  match ks with
  | [] => Ok acc
  | k :: ks' =>
      let* v := val k in dict_comprehension ks' key val (dict_set acc (key k) v)
  end.

(** ** The extraction helpers of [game.py] *)

Definition _get_hit_data (hit_data : value) : result dict :=
  let* coordinates := get_or hit_data "coordinates" empty_dict in
  dict_display [
    Field "launch_speed" (get hit_data "launchSpeed");
    Field "launch_angle" (get hit_data "launchAngle");
    Field "launch_distance" (get hit_data "totalDistance");
    Field "launch_location" (get hit_data "location");
    Field "trajectory" (get hit_data "trajectory");
    Field "hardness" (get hit_data "hardness");
    Field "hit_x" (get coordinates "coordX");
    Field "hit_y" (get coordinates "coordY")
  ].

Definition _get_pitch_data (pitch_data : value) : result dict :=
  let* coordinates := get_or pitch_data "coordinates" empty_dict in
  let* breaks := get_or pitch_data "breaks" empty_dict in
  dict_display [
    Field "start_speed" (get pitch_data "startSpeed");
    Field "end_speed" (get pitch_data "endSpeed");
    Field "sz_top" (get pitch_data "strikeZoneTop");
    Field "sz_bot" (get pitch_data "strikeZoneBottom");
    Field "x" (get coordinates "x");
    Field "y" (get coordinates "y");
    Field "ax" (get coordinates "aX");
    Field "ay" (get coordinates "aY");
    Field "az" (get coordinates "aZ");
    Field "pfxx" (get coordinates "pfxX");
    Field "pfxz" (get coordinates "pfxZ");
    Field "px" (get coordinates "pX");
    Field "pz" (get coordinates "pZ");
    Field "vx0" (get coordinates "vX0");
    Field "vy0" (get coordinates "vY0");
    Field "vz0" (get coordinates "vZ0");
    Field "x0" (get coordinates "x0");
    Field "y0" (get coordinates "y0");
    Field "z0" (get coordinates "z0");
    Field "zone" (get pitch_data "zone");
    Field "type_confidence" (get pitch_data "typeConfidence");
    Field "plate_time" (get pitch_data "plateTime");
    Field "extension" (get pitch_data "extension");
    Field "spin_rate" (get breaks "spinRate");
    Field "spin_direction" (get breaks "spinDirection");
    Field "vb" (get breaks "breakVertical");
    Field "ivb" (get breaks "breakVerticalInduced");
    Field "hb" (get breaks "breakHorizontal")
  ].

Definition _get_ab_result (play : value) (n : Z) (last_event_index : Z)
    : result dict :=
  let* result := get_or play "result" empty_dict in
  if n =? last_event_index then
    dict_display [
      Field "type_ab" (get result "type");
      Field "event" (get result "event");
      Field "event_type" (get result "eventType");
      Field "rbi" (get result "rbi");
      Field "away_score" (get result "awayScore");
      Field "home_score" (get result "homeScore");
      Field "is_out" (get result "isOut")
    ]
  else
    dict_display [
      Field "type_ab" (Ok np_nan);
      Field "event" (Ok np_nan);
      Field "event_type" (Ok np_nan);
      Field "rbi" (Ok np_nan);
      Field "away_score" (Ok np_nan);
      Field "home_score" (Ok np_nan);
      Field "is_out" (Ok np_nan)
    ].

Definition _get_count_data (play event : value) (n : nat) : result dict :=
  let* play_events := get_or play "playEvents" (VList []) in
  let* count := get_or event "count" empty_dict in
  let* prev_count :=
    match n with
    | O =>
        let* outs := get count "outs" in
        Ok (VDict [("strikes", VInt 0); ("balls", VInt 0); ("outs", outs)])
    | S m => rget_or (py_index play_events m) "count" empty_dict
    end in
  dict_display [
    Field "strikes" (get prev_count "strikes");
    Field "balls" (get prev_count "balls");
    Field "outs" (get prev_count "outs");
    Field "strikes_after" (get count "strikes");
    Field "balls_after" (get count "balls");
    Field "outs_after" (get count "outs")
  ].

Definition _get_team_data (about play : value) : result dict :=
  let* game_data := rget_or (get_or play "game" empty_dict) "gameData" empty_dict in
  let* is_top_inning := get about "isTopInning" in
  let batter_team := if truthy is_top_inning then "away" else "home" in
  let pitcher_team := if truthy is_top_inning then "home" else "away" in
  dict_display [
    Field "batter_team"
      (rget (rget_or (get_or game_data "teams" empty_dict) batter_team empty_dict)
            "abbreviation");
    Field "batter_team_id"
      (rget (rget_or (get_or game_data "teams" empty_dict) batter_team empty_dict)
            "id");
    Field "pitcher_team"
      (rget (rget_or (get_or game_data "teams" empty_dict) pitcher_team empty_dict)
            "abbreviation");
    Field "pitcher_team_id"
      (rget (rget_or (get_or game_data "teams" empty_dict) pitcher_team empty_dict)
            "id")
  ].

Definition swing_list : list string := ["X"; "F"; "S"; "D"; "E"; "T"; "W"].
Definition whiff_list : list string := ["S"; "T"; "W"].

(** [details.get("code") in codes if details.get("code") else np.nan] *)
Definition code_in (details : value) (codes : list string) : result value :=
  let* code := get details "code" in
  if truthy code then
    let* code := get details "code" in
    Ok (VBool (py_in_strs code codes))
  else Ok np_nan.

Definition _extract_event_data (play event : value) (n : nat)
    (play_events : value) : result dict :=
  let* matchup := get_or play "matchup" empty_dict in
  let* about := get_or play "about" empty_dict in
  let* details := get_or event "details" empty_dict in
  dict_display [
    Field "batter_id" (rget (get_or matchup "batter" empty_dict) "id");
    Field "batter_name" (rget (get_or matchup "batter" empty_dict) "fullName");
    Field "batter_hand" (rget (get_or matchup "batSide" empty_dict) "code");
    Field "pitcher_id" (rget (get_or matchup "pitcher" empty_dict) "id");
    Field "pitcher_name" (rget (get_or matchup "pitcher" empty_dict) "fullName");
    Field "pitcher_hand" (rget (get_or matchup "pitchHand" empty_dict) "code");
    Splat (_get_team_data about play);
    Splat (_get_count_data play event n);
    Field "play_description" (get details "description");
    Field "play_code" (get details "code");
    Field "in_play" (get details "isInPlay");
    Field "is_strike" (get details "isStrike");
    Field "is_swing" (code_in details swing_list);
    Field "is_whiff" (code_in details whiff_list);
    Field "is_ball" (get details "isBall");
    Field "is_review" (get details "hasReview");
    Field "pitch_type" (rget (get_or details "type" empty_dict) "code");
    Field "pitch_description"
      (rget (get_or details "type" empty_dict) "description");
    Splat (let* pitch_data := get_or event "pitchData" empty_dict in
           _get_pitch_data pitch_data);
    Splat (let* hit_data := get_or event "hitData" empty_dict in
           _get_hit_data hit_data);
    Field "index_play" (get event "index");
    Field "play_id" (get event "playId");
    Field "start_time" (get event "startTime");
    Field "end_time" (get event "endTime");
    Field "is_pitch" (get event "isPitch");
    Field "type_type" (get event "type");
    Splat (let* len := py_len play_events in
           _get_ab_result play (Z.of_nat n) (len - 1))
  ].

Definition remaining_fields : list string := [
  "play_description"; "play_code"; "in_play"; "is_strike"; "is_swing";
  "is_whiff"; "is_ball"; "is_review"; "pitch_type"; "pitch_description";
  "ab_number"; "start_speed"; "end_speed"; "sz_top"; "sz_bot"; "x"; "y";
  "ax"; "ay"; "az"; "pfxx"; "pfxz"; "px"; "pz"; "vx0"; "vy0"; "vz0"; "x0";
  "y0"; "z0"; "zone"; "type_confidence"; "plate_time"; "extension";
  "spin_rate"; "spin_direction"; "vb"; "ivb"; "hb"; "launch_speed";
  "launch_angle"; "launch_distance"; "launch_location"; "trajectory";
  "hardness"; "hit_x"; "hit_y"; "type_ab"; "rbi"; "away_score";
  "home_score"; "is_out"
].

Definition _extract_walk_data (play event game_data : value) : result dict :=
  let* matchup := get_or play "matchup" empty_dict in
  let* about := get_or play "about" empty_dict in
  let* count := get_or event "count" empty_dict in
  let* base_data :=
    dict_display [
      Field "batter_id" (rget (get_or matchup "batter" empty_dict) "id");
      Field "batter_name" (rget (get_or matchup "batter" empty_dict) "fullName");
      Field "batter_hand" (rget (get_or matchup "batSide" empty_dict) "code");
      Field "pitcher_id" (rget (get_or matchup "pitcher" empty_dict) "id");
      Field "pitcher_name"
        (rget (get_or matchup "pitcher" empty_dict) "fullName");
      Field "pitcher_hand" (rget (get_or matchup "pitchHand" empty_dict) "code");
      Splat (_get_team_data about play);
      Splat (dict_comprehension ["strikes"; "balls"; "outs"]
               (fun k => k) (fun k => get count k) []);
      Splat (dict_comprehension ["strikes"; "balls"; "outs"]
               (fun k => String.append k "_after") (fun k => get count k) []);
      Field "index_play" (get event "index");
      Field "play_id" (get event "playId");
      Field "start_time" (get event "startTime");
      Field "end_time" (get event "endTime");
      Field "is_pitch" (get event "isPitch");
      Field "type_type" (get event "type");
      Field "event" (rget (get_or play "result" empty_dict) "event");
      Field "event_type" (rget (get_or play "result" empty_dict) "eventType")
    ] in
  (* Fill remaining fields with np.nan *)
  let* nan_fields :=
    dict_comprehension remaining_fields (fun field => field)
      (fun _ => Ok np_nan) [] in
  Ok (dict_update base_data nan_fields).

(** The test of the [if] / [elif] / [else] chain in the loop of
    [_extract_play_data]. *)
Inductive event_class : Type :=
| PitchCall
| WalkByCount
| Skipped.

Definition classify (event : value) : result event_class :=
  let* is_pitch := get event "isPitch" in
  let* pitch_or_call :=
    if truthy is_pitch then Ok true
    else let* details := get_or event "details" empty_dict in
         py_contains "call" details in
  if pitch_or_call : bool then Ok PitchCall
  else
    let* balls := rget (get_or event "count" empty_dict) "balls" in
    if py_eq_int balls 4 then Ok WalkByCount else Ok Skipped.

(** One iteration of the loop: [None] is the [continue] branch. *)
Definition extract_event (play game_data play_events : value) (n : nat)
    (event : value) : result (option dict) :=
  let* c := classify event in
  match c with
  | PitchCall =>
      let* event_data := _extract_event_data play event n play_events in
      Ok (Some event_data)
  | WalkByCount =>
      let* event_data := _extract_walk_data play event game_data in
      Ok (Some event_data)
  | Skipped => Ok None
  end.

(** [for n, event in enumerate(play_events)], from index [n] on, with the
    list [ab_data] built so far. *)
Fixpoint for_events (play game_data play_events : value) (n : nat)
    (events : list value) (ab_data : list dict) : result (list dict) :=
  match events with
  | [] => Ok ab_data
  | event :: rest =>
      let* o := extract_event play game_data play_events n event in
      for_events play game_data play_events (S n) rest
        (match o with Some event_data => ab_data ++ [event_data]
                    | None => ab_data end)
  end.

Definition _extract_play_data (play game_data : value) : result (list dict) :=
  let* play_events := get_or play "playEvents" (VList []) in
  let* events := py_iter play_events in
  for_events play game_data play_events 0 events [].

(** [{**event_data, "game_id": game_id, "game_date": game_date}] *)
Definition with_game (game_id game_date : value) (event_data : dict) : dict :=
  dict_set (dict_set (dict_update [] event_data) "game_id" game_id)
           "game_date" game_date.

Fixpoint for_plays (game_data game_id game_date : value) (plays : list value)
    : result (list dict) :=
  match plays with
  | [] => Ok []
  | play :: rest =>
      let* ab_data := _extract_play_data play game_data in
      let* more := for_plays game_data game_id game_date rest in
      Ok (List.map (with_game game_id game_date) ab_data ++ more)
  end.

(** The list [flattened_data] that [_game_to_df] builds, from its first
    line to the end of the comprehension: everything but the call of
    [pl.DataFrame]. *)
Definition flattened_data_of (game_data : value) : result (list dict) :=
  let* game_id := get game_data "gamePk" in
  let* game_date :=
    rget (rget_or (get_or game_data "gameData" empty_dict) "datetime" empty_dict)
         "officialDate" in
  let* all_plays :=
    rget_or (rget_or (get_or game_data "liveData" empty_dict) "plays" empty_dict)
            "allPlays" (VList []) in
  let* plays := py_iter all_plays in
  for_plays game_data game_id game_date plays.

(** ** The table library

    [pl.DataFrame] belongs to an external library: what it accepts, what
    it raises and what the table it returns holds are not decided by the
    code of this repository.  The type of its tables and the constructor
    are therefore parameters of everything that follows; the constructor
    may raise (it returns a [result]). *)
Section Table.

Context {DataFrame : Type} (pl_DataFrame : list dict -> result DataFrame).

Definition _game_to_df (game_data : value) : result DataFrame :=
  let* flattened_data := flattened_data_of game_data in
  pl_DataFrame flattened_data.

(** ** The fetch orchestrator [games] *)

Definition ROOT_URL : string := "https://statsapi.mlb.com".

(** [GAME_ENDPOINT_ROOT.format(game_id=game_id)] *)
Definition GAME_ENDPOINT_ROOT (game_id : Z) : string :=
  ROOT_URL +:+ "/api/v1.1/game/" +:+ pretty game_id +:+ "/feed/live".

(** What [requests.get] returns: the status code and the outcome of
    [response.json()]. *)
Record response : Type := { status_code : Z; json : result value }.

Section Games.

(** The HTTP transport is the external fetch collaborator. *)
Variable requests_get : string -> result response.

Definition _game (game_id : Z) : result (Z * DataFrame) :=
  let live_game_url := GAME_ENDPOINT_ROOT game_id in
  let* response := requests_get live_game_url in
  if negb (status_code response =? 200) then
    Raise (BadResponseCode live_game_url (status_code response))
  else
    let* document := json response in
    let* df := _game_to_df document in
    Ok (game_id, df).

(** [executor.submit(_game, game_id) for game_id in game_ids] *)
Definition submit_all (game_ids : list Z) : list (result (Z * DataFrame)) :=
  List.map _game game_ids.

(** The body of the [for future in as_completed(futures)] loop: the
    state is [game_data] and the lines printed so far (each one an
    exception that was caught). *)
Definition collect (state : gmap Z DataFrame * list exn)
    (future : result (Z * DataFrame)) : gmap Z DataFrame * list exn :=
  match future with
  | Ok (game_id, df) => (<[game_id := df]> (fst state), snd state)
  | Raise e => (fst state, snd state ++ [e])
  end.

Definition collect_all (completed : list (result (Z * DataFrame)))
    : gmap Z DataFrame * list exn :=
  fold_left collect completed (∅, []).

(** [games game_ids game_data printed]: a run of [games(game_ids)]
    returns [game_data] after printing [printed].  The thread pool
    completes the futures in any order. *)
Inductive games (game_ids : list Z) : gmap Z DataFrame -> list exn -> Prop :=
| games_as_completed (completed : list (result (Z * DataFrame))) :
    Permutation completed (submit_all game_ids) ->
    games game_ids (fst (collect_all completed)) (snd (collect_all completed)).

End Games.

(** * Reading a document by path *)

(** The value found by following [path] from [v] through nested
    dictionaries; [None] when a key on the way is absent.  This is what a
    chain [v.get(k1, {}).get(k2, {}) ... .get(kn)] returns when it returns. *)
Fixpoint at_path (v : value) (path : list string) : value :=
  match path with
  | [] => v
  | k :: p =>
      match v with
      | VDict d =>
          match dict_get d k with
          | Some v' => at_path v' p
          | None => VNone
          end
      | _ => VNone
      end
  end.

(** Whether every key of [path] is present. *)
Fixpoint has_path (v : value) (path : list string) : bool :=
  match path with
  | [] => true
  | k :: p =>
      match v with
      | VDict d =>
          match dict_get d k with
          | Some v' => has_path v' p
          | None => false
          end
      | _ => false
      end
  end.

(** Whether [v] and every container that is present along [path] is a
    dictionary; no key is required to be there. *)
Fixpoint mappings_along (v : value) (path : list string) : bool :=
  match path with
  | [] => is_dict v
  | k :: p =>
      match v with
      | VDict d =>
          match dict_get d k with
          | Some v' => mappings_along v' p
          | None => true
          end
      | _ => false
      end
  end.

(** A table of output fields and the paths they are read from. *)
Definition leaves (root : value) (fields : list (string * list string)) : dict :=
  List.map (fun fp => (fst fp, at_path root (snd fp))) fields.

(** The same table read one level higher, under the key [k]. *)
Definition under (k : string) (fields : list (string * list string))
    : list (string * list string) :=
  List.map (fun fp => (fst fp, k :: snd fp)) fields.

(** The fields of [_get_hit_data], with their paths from [hit_data]. *)
Definition hit_fields : list (string * list string) := [
  ("launch_speed", ["launchSpeed"]);
  ("launch_angle", ["launchAngle"]);
  ("launch_distance", ["totalDistance"]);
  ("launch_location", ["location"]);
  ("trajectory", ["trajectory"]);
  ("hardness", ["hardness"]);
  ("hit_x", ["coordinates"; "coordX"]);
  ("hit_y", ["coordinates"; "coordY"])
].

(** The fields of [_get_pitch_data], with their paths from [pitch_data]. *)
Definition pitch_fields : list (string * list string) := [
  ("start_speed", ["startSpeed"]);
  ("end_speed", ["endSpeed"]);
  ("sz_top", ["strikeZoneTop"]);
  ("sz_bot", ["strikeZoneBottom"]);
  ("x", ["coordinates"; "x"]);
  ("y", ["coordinates"; "y"]);
  ("ax", ["coordinates"; "aX"]);
  ("ay", ["coordinates"; "aY"]);
  ("az", ["coordinates"; "aZ"]);
  ("pfxx", ["coordinates"; "pfxX"]);
  ("pfxz", ["coordinates"; "pfxZ"]);
  ("px", ["coordinates"; "pX"]);
  ("pz", ["coordinates"; "pZ"]);
  ("vx0", ["coordinates"; "vX0"]);
  ("vy0", ["coordinates"; "vY0"]);
  ("vz0", ["coordinates"; "vZ0"]);
  ("x0", ["coordinates"; "x0"]);
  ("y0", ["coordinates"; "y0"]);
  ("z0", ["coordinates"; "z0"]);
  ("zone", ["zone"]);
  ("type_confidence", ["typeConfidence"]);
  ("plate_time", ["plateTime"]);
  ("extension", ["extension"]);
  ("spin_rate", ["breaks"; "spinRate"]);
  ("spin_direction", ["breaks"; "spinDirection"]);
  ("vb", ["breaks"; "breakVertical"]);
  ("ivb", ["breaks"; "breakVerticalInduced"]);
  ("hb", ["breaks"; "breakHorizontal"])
].

(** The at-bat result fields, with their paths from the play. *)
Definition result_fields : list (string * list string) := [
  ("type_ab", ["result"; "type"]);
  ("event", ["result"; "event"]);
  ("event_type", ["result"; "eventType"]);
  ("rbi", ["result"; "rbi"]);
  ("away_score", ["result"; "awayScore"]);
  ("home_score", ["result"; "homeScore"]);
  ("is_out", ["result"; "isOut"])
].

(** The matchup fields, with their paths from the play. *)
Definition matchup_fields : list (string * list string) := [
  ("batter_id", ["matchup"; "batter"; "id"]);
  ("batter_name", ["matchup"; "batter"; "fullName"]);
  ("batter_hand", ["matchup"; "batSide"; "code"]);
  ("pitcher_id", ["matchup"; "pitcher"; "id"]);
  ("pitcher_name", ["matchup"; "pitcher"; "fullName"]);
  ("pitcher_hand", ["matchup"; "pitchHand"; "code"])
].

(** The fields copied from the event itself. *)
Definition identity_fields : list (string * list string) := [
  ("index_play", ["index"]);
  ("play_id", ["playId"]);
  ("start_time", ["startTime"]);
  ("end_time", ["endTime"]);
  ("is_pitch", ["isPitch"]);
  ("type_type", ["type"])
].

(** The count fields, with their paths from an event. *)
Definition count_after_fields : list (string * list string) := [
  ("strikes_after", ["count"; "strikes"]);
  ("balls_after", ["count"; "balls"]);
  ("outs_after", ["count"; "outs"])
].

Definition count_before_fields : list (string * list string) := [
  ("strikes", ["count"; "strikes"]);
  ("balls", ["count"; "balls"]);
  ("outs", ["count"; "outs"])
].

Definition field_names (fields : list (string * list string)) : list string :=
  List.map fst fields.

(** [nan_row fields]: every field set to [np.nan]. *)
Definition nan_row (fields : list string) : dict :=
  List.map (fun f => (f, np_nan)) fields.

(** What [v.get(k, {})] returns when [v] is a dictionary. *)
Definition sub (v : value) (k : string) : value :=
  match v with
  | VDict d => default empty_dict (dict_get d k)
  | _ => empty_dict
  end.

(** * Rows, shapes and emitted records *)

(** The rows that the items of a display contribute, in order. *)
Fixpoint eval_items (items : list item) : result (list dict) :=
  match items with
  | [] => Ok []
  | Field k e :: rest =>
      let* v := e in let* rows := eval_items rest in Ok ([(k, v)] :: rows)
  | Splat e :: rest =>
      let* r := e in let* rows := eval_items rest in Ok (r :: rows)
  end.

(** The team fields and where [_get_team_data] reads them: the roster under
    the ["game"] key of the play, on the side given by the half-inning flag. *)
Definition team_fields (is_top_inning : bool) : list (string * list string) :=
  let batter_team := if is_top_inning then "away" else "home" in
  let pitcher_team := if is_top_inning then "home" else "away" in
  [ ("batter_team", ["game"; "gameData"; "teams"; batter_team; "abbreviation"]);
    ("batter_team_id", ["game"; "gameData"; "teams"; batter_team; "id"]);
    ("pitcher_team", ["game"; "gameData"; "teams"; pitcher_team; "abbreviation"]);
    ("pitcher_team_id", ["game"; "gameData"; "teams"; pitcher_team; "id"]) ].

(** The count before the first event of a play. *)
Definition first_count (event : value) : dict :=
  [ ("strikes", VInt 0); ("balls", VInt 0);
    ("outs", at_path event ["count"; "outs"]) ].

(** The value of [is_swing] and [is_whiff] for a call code. *)
Definition membership_flag (code : value) (codes : list string) : value :=
  if truthy code then VBool (py_in_strs code codes) else np_nan.

(** The fields that a pitch or call record takes from the details of the
    event. *)
Definition details_row (event : value) : dict :=
  let code := at_path event ["details"; "code"] in
  [ ("play_description", at_path event ["details"; "description"]);
    ("play_code", code);
    ("in_play", at_path event ["details"; "isInPlay"]);
    ("is_strike", at_path event ["details"; "isStrike"]);
    ("is_swing", membership_flag code swing_list);
    ("is_whiff", membership_flag code whiff_list);
    ("is_ball", at_path event ["details"; "isBall"]);
    ("is_review", at_path event ["details"; "hasReview"]);
    ("pitch_type", at_path event ["details"; "type"; "code"]);
    ("pitch_description", at_path event ["details"; "type"; "description"]) ].

(** The row of a pitch or call event, given its count fields and its
    at-bat result fields. *)
Definition event_row (play event : value) (count ab_result : dict) : dict :=
  leaves play matchup_fields
  ++ leaves play (team_fields (truthy (at_path play ["about"; "isTopInning"])))
  ++ count
  ++ details_row event
  ++ leaves event (under "pitchData" pitch_fields)
  ++ leaves event (under "hitData" hit_fields)
  ++ leaves event identity_fields
  ++ ab_result.

(** The containers of a play that the flattener descends into are
    mappings where they are present. *)
Definition play_shape_ok (play : value) : bool :=
  forallb (mappings_along play) [
    ["matchup"; "batter"]; ["matchup"; "batSide"]; ["matchup"; "pitcher"];
    ["matchup"; "pitchHand"]; ["about"];
    ["game"; "gameData"; "teams"; "away"];
    ["game"; "gameData"; "teams"; "home"]; ["result"]
  ].

(** The same for the containers of an event. *)
Definition event_shape_ok (event : value) : bool :=
  forallb (mappings_along event) [
    ["details"; "type"]; ["count"]; ["pitchData"; "coordinates"];
    ["pitchData"; "breaks"]; ["hitData"; "coordinates"]
  ].

(** The row of a walk by count. *)
Definition walk_row (play event : value) : dict :=
  leaves play matchup_fields
  ++ leaves play (team_fields (truthy (at_path play ["about"; "isTopInning"])))
  ++ leaves event count_before_fields
  ++ leaves event count_after_fields
  ++ leaves event identity_fields
  ++ [ ("event", at_path play ["result"; "event"]);
       ("event_type", at_path play ["result"; "eventType"]) ]
  ++ nan_row remaining_fields.

(** What [v.get(k, [])] returns when [v] is a dictionary. *)
Definition sub_list (v : value) (k : string) : value :=
  match v with
  | VDict d => default (VList []) (dict_get d k)
  | _ => VList []
  end.

(** The list under [path], when the key is there at all. *)
Definition list_at (v : value) (path : list string) (ok : value -> bool) : bool :=
  if has_path v path then
    match at_path v path with
    | VList l => forallb ok l
    | _ => false
    end
  else true.

(** No key is required; a container that is present is a mapping, and
    the events, when present, are a list of events of that kind. *)
Definition well_shaped_play (play : value) : bool :=
  play_shape_ok play && list_at play ["playEvents"] event_shape_ok.

(** The same for a document and its plays. *)
Definition well_shaped_document (game_data : value) : bool :=
  mappings_along game_data ["gameData"; "datetime"]
  && mappings_along game_data ["liveData"; "plays"]
  && list_at game_data ["liveData"; "plays"; "allPlays"] well_shaped_play.

(** [reads r root fields]: each field of the table is in [r], with the
    leaf found at its path, or with [None], the value of [dict.get] for a
    key that is not there, when the leaf is absent. *)
Definition reads (r : dict) (root : value)
    (fields : list (string * list string)) : Prop :=
  Forall (fun fp =>
            dict_get r (fst fp) =
              Some (if has_path root (snd fp) then at_path root (snd fp)
                    else VNone))
         fields.

(** The fields that are copied from the details as they are. *)
Definition details_fields : list (string * list string) := [
  ("play_description", ["details"; "description"]);
  ("play_code", ["details"; "code"]);
  ("in_play", ["details"; "isInPlay"]);
  ("is_strike", ["details"; "isStrike"]);
  ("is_ball", ["details"; "isBall"]);
  ("is_review", ["details"; "hasReview"]);
  ("pitch_type", ["details"; "type"; "code"]);
  ("pitch_description", ["details"; "type"; "description"])
].

(** The events of a play: the items of its ["playEvents"] list. *)
Definition events_of (play : value) : list value :=
  match sub_list play "playEvents" with
  | VList events => events
  | _ => []
  end.

(** Whether no field name occurs twice. *)
Fixpoint distinct (names : list string) : bool :=
  match names with
  | [] => true
  | f :: rest => negb (existsb (String.eqb f) rest) && distinct rest
  end.

(** The plays of a document: the items of its ["allPlays"] list. *)
Definition plays_of (game_data : value) : list value :=
  match at_path game_data ["liveData"; "plays"; "allPlays"] with
  | VList plays => plays
  | _ => []
  end.

(** [emits play game_data n event r]: the loop of
    [_extract_play_data play game_data] reaches [event] at index [n], and
    the branch taken for it appends the record [r]. *)
Definition emits (play game_data : value) (n : nat) (event : value) (r : dict)
    : Prop :=
  exists play_events events,
    get_or play "playEvents" (VList []) = Ok play_events /\
    py_iter play_events = Ok events /\
    nth_error events n = Some event /\
    extract_event play game_data play_events n event = Ok (Some r).

(** The records named in the examples below. *)
Definition record_of (play game_data : value) (n : nat) : dict :=
  match nth_error (events_of play) n with
  | Some event =>
      match extract_event play game_data (VList (events_of play)) n event with
      | Ok (Some r) => r
      | _ => []
      end
  | None => []
  end.

(** The futures that returned and the exceptions of those that raised. *)
Definition returned (completed : list (result (Z * DataFrame)))
    : list (Z * DataFrame) :=
  omap (fun future => match future with Ok x => Some x | Raise _ => None end)
       completed.

Definition raised (completed : list (result (Z * DataFrame))) : list exn :=
  omap (fun future => match future with Ok _ => None | Raise e => Some e end)
       completed.

(** [game_data[game_id] = df] *)
Definition store (game_data : gmap Z DataFrame) (x : Z * DataFrame)
    : gmap Z DataFrame :=
  <[fst x := snd x]> game_data.

(** * Fixtures *)

(** The fixture [sample_game_data] of [tests/test_game.py]. *)
Definition sample_event_0 : value :=
  VDict [
    ("details", VDict [("call", VDict [("code", VStr "B")]);
                       ("description", VStr "Ball")]);
    ("count", VDict [("balls", VInt 1); ("strikes", VInt 0); ("outs", VInt 0)]);
    ("pitchData", VDict [("startSpeed", VFloat (FFin 181 (-1)))]);
    ("index", VInt 0);
    ("playId", VStr "play1");
    ("isPitch", VBool true)
  ].

Definition sample_event_1 : value :=
  VDict [
    ("details", VDict [("call", VDict [("code", VStr "S")]);
                       ("description", VStr "Strike")]);
    ("count", VDict [("balls", VInt 1); ("strikes", VInt 1); ("outs", VInt 0)]);
    ("pitchData", VDict [("startSpeed", VFloat (FFin 92 0))]);
    ("index", VInt 1);
    ("playId", VStr "play2");
    ("isPitch", VBool true)
  ].

Definition sample_play_with (events : list value) : value :=
  VDict [
    ("result", VDict [("type", VStr "atBat"); ("event", VStr "Single");
                      ("eventType", VStr "single")]);
    ("about", VDict [("isTopInning", VBool true)]);
    ("matchup", VDict [
       ("batter", VDict [("id", VInt 123); ("fullName", VStr "John Doe")]);
       ("pitcher", VDict [("id", VInt 456); ("fullName", VStr "Jane Smith")]);
       ("batSide", VDict [("code", VStr "R")]);
       ("pitchHand", VDict [("code", VStr "L")])]);
    ("playEvents", VList events)
  ].

Definition sample_play : value :=
  sample_play_with [sample_event_0; sample_event_1].

Definition sample_game_with (plays : list value) : value :=
  VDict [
    ("gamePk", VInt 12345);
    ("gameData", VDict [
       ("datetime", VDict [("officialDate", VStr "2023-07-01")]);
       ("teams", VDict [
          ("away", VDict [("abbreviation", VStr "NYY"); ("id", VInt 1)]);
          ("home", VDict [("abbreviation", VStr "BOS"); ("id", VInt 2)])])]);
    ("liveData", VDict [("plays", VDict [("allPlays", VList plays)])])
  ].

Definition sample_game_data : value := sample_game_with [sample_play].

(** A pitch as the live feed reports it: the call code is also the
    ["code"] entry of the details. *)
Definition swinging_strike : value :=
  VDict [
    ("details", VDict [("call", VDict [("code", VStr "S")]);
                       ("description", VStr "Swinging Strike");
                       ("code", VStr "S"); ("isStrike", VBool true)]);
    ("count", VDict [("balls", VInt 0); ("strikes", VInt 1); ("outs", VInt 1)]);
    ("index", VInt 0);
    ("isPitch", VBool true)
  ].

(** A mound visit: no pitch, no call, no fourth ball. *)
Definition mound_visit : value :=
  VDict [
    ("details", VDict [("description", VStr "Mound Visit")]);
    ("count", VDict [("balls", VInt 3); ("strikes", VInt 1); ("outs", VInt 1)]);
    ("index", VInt 1);
    ("isPitch", VBool false)
  ].

Definition ball_in_play : value :=
  VDict [
    ("details", VDict [("call", VDict [("code", VStr "X")]);
                       ("code", VStr "X"); ("isInPlay", VBool true)]);
    ("count", VDict [("balls", VInt 3); ("strikes", VInt 1); ("outs", VInt 1)]);
    ("index", VInt 2);
    ("isPitch", VBool true)
  ].

(** A walk by count: the fourth ball without a pitch or a call. *)
Definition automatic_ball_four : value :=
  VDict [
    ("details", VDict [("description", VStr "Intentional Walk")]);
    ("count", VDict [("balls", VInt 4); ("strikes", VInt 0); ("outs", VInt 1)]);
    ("index", VInt 0);
    ("isPitch", VBool false)
  ].

Definition at_bat : value :=
  sample_play_with [swinging_strike; mound_visit; ball_in_play].

Definition intentional_walk : value :=
  sample_play_with [automatic_ball_four].

Definition strike_then_walk : value :=
  sample_play_with [swinging_strike; automatic_ball_four].

(** A pitch whose details carry a code and no call. *)
Definition pitch_without_call : value :=
  VDict [
    ("details", VDict [("code", VStr "S"); ("description", VStr "Strike")]);
    ("count", VDict [("balls", VInt 0); ("strikes", VInt 1); ("outs", VInt 0)]);
    ("index", VInt 0);
    ("isPitch", VBool true)
  ].

Definition sample_record_0 : dict := record_of sample_play sample_game_data 0.

Definition sample_record_1 : dict := record_of sample_play sample_game_data 1.

Definition swinging_strike_record : dict := record_of at_bat sample_game_data 0.

Definition ball_in_play_record : dict := record_of at_bat sample_game_data 2.

Definition walk_record : dict := record_of intentional_walk sample_game_data 0.

Definition pitch_without_call_record : dict :=
  record_of (sample_play_with [pitch_without_call]) sample_game_data 0.

Definition late_walk_record : dict :=
  record_of strike_then_walk sample_game_data 1.

(** A transport that serves every game but game 2. *)
Definition flaky_transport (url : string) : result response :=
  if String.eqb url (GAME_ENDPOINT_ROOT 2) then
    Ok {| status_code := 404; json := Raise (OtherException "JSONDecodeError") |}
  else
    Ok {| status_code := 200; json := Ok (VDict [("gamePk", VInt 12345)]) |}.

(** * The records of a play and of a document *)

(** The record that the loop of [_extract_play_data] appends for the
    event at index [n], if it appends one. *)
Definition emitted (play game_data : value) (n : nat) (event : value)
    : option dict :=
  match extract_event play game_data (VList (events_of play)) n event with
  | Ok o => o
  | Raise _ => None
  end.

(** The records of the events of a play, in the order of the events. *)
Definition play_records (play game_data : value) : list dict :=
  omap id (imap (emitted play game_data) (events_of play)).

(** The records that [_game_to_df] hands to the table library; none when
    the flattening raises. *)
Definition records_of (game_data : value) : list dict :=
  match flattened_data_of game_data with
  | Ok flattened_data => flattened_data
  | Raise _ => []
  end.

(** A table library that accepts every list of records and keeps it as
    it is; it stands for the library in the examples only. *)
Definition record_table (flattened_data : list dict) : result (list dict) :=
  Ok flattened_data.

(** A table library that raises on every list of records. *)
Definition refusing_table (flattened_data : list dict) : result (list dict) :=
  Raise (OtherException "ComputeError").

(** The field names of a pitch or call record, in the order in which
    [_extract_event_data] lists them. *)
Definition pitch_columns : list string :=
  field_names matchup_fields
  ++ field_names (team_fields true)
  ++ field_names count_before_fields
  ++ field_names count_after_fields
  ++ ["play_description"; "play_code"; "in_play"; "is_strike"; "is_swing";
      "is_whiff"; "is_ball"; "is_review"; "pitch_type"; "pitch_description"]
  ++ field_names pitch_fields
  ++ field_names hit_fields
  ++ field_names identity_fields
  ++ field_names result_fields.

(** The field names of the record of a walk by count, in the order in
    which [_extract_walk_data] lists them. *)
Definition walk_columns : list string :=
  field_names matchup_fields
  ++ field_names (team_fields true)
  ++ field_names count_before_fields
  ++ field_names count_after_fields
  ++ field_names identity_fields
  ++ ["event"; "event_type"]
  ++ remaining_fields.

(** The fields that [_game_to_df] adds to every record. *)
Definition game_fields (game_data : value) : dict :=
  [ ("game_id", at_path game_data ["gamePk"]);
    ("game_date", at_path game_data ["gameData"; "datetime"; "officialDate"]) ].

(** A document with the plays of the fixture and no roster. *)
Definition sample_game_without_teams : value :=
  VDict [
    ("liveData", VDict [("plays", VDict [("allPlays", VList [sample_play])])]);
    ("gameData", VDict [
       ("datetime", VDict [("officialDate", VStr "2023-07-01")])]);
    ("gamePk", VInt 12345)
  ].

(** The run of [games] in which the futures complete in the order of
    submission. *)
Definition in_submission_order (requests_get : string -> result response)
    (game_ids : list Z) : gmap Z DataFrame * list exn :=
  collect_all (submit_all requests_get game_ids).

(** The tests of the [if] / [elif] chain of [_extract_play_data], on an
    event whose details and count are mappings or absent. *)
Definition is_pitch_or_call (event : value) : bool :=
  truthy (at_path event ["isPitch"]) || has_path event ["details"; "call"].

Definition is_fourth_ball (event : value) : bool :=
  py_eq_int (at_path event ["count"; "balls"]) 4.

(** * The schedule of [schedule.py] *)

(** [ENDPOINT_URL.format(endpoint=endpoint)] *)
Definition ENDPOINT_URL (endpoint : string) : string :=
  ROOT_URL +:+ "/api/v1/" +:+ endpoint.

Definition SCHEDULE_URL : string := ENDPOINT_URL "schedule".

(** [SCHEDULE_FILTER.format(sport_ids=..., game_types=..., years=...)] *)
Definition SCHEDULE_FILTER (sport_ids game_types years : string) : string :=
  SCHEDULE_URL +:+ "?sportId=" +:+ sport_ids +:+ "&gameTypes=" +:+ game_types
  +:+ "&season=" +:+ years +:+ "&hydrate=lineup,players".

(** The dictionary [game_data] that the loop of [schedule] builds for one
    game. *)
Definition schedule_game_data (game : value) : result dict :=
  dict_display [
    Field "game_id" (get game "gamePk");
    Field "time" (get game "gameDate");
    Field "date" (get game "officialDate");
    Field "away"
      (rget (rget_or (rget_or (get_or game "teams" empty_dict)
                        "away" empty_dict) "team" empty_dict) "name");
    Field "home"
      (rget (rget_or (rget_or (get_or game "teams" empty_dict)
                        "home" empty_dict) "team" empty_dict) "name");
    Field "state" (rget (get_or game "status" empty_dict) "codedGameState");
    Field "venue_id" (rget (get_or game "venue" empty_dict) "id");
    Field "venue_name" (rget (get_or game "venue" empty_dict) "name")
  ].

(** [for game in date_entry.get("games", [])], with the list
    [flattened_data] built so far. *)
Fixpoint schedule_for_games (games : list value) (flattened_data : list dict)
    : result (list dict) :=
  match games with
  | [] => Ok flattened_data
  | game :: rest =>
      let* game_data := schedule_game_data game in
      schedule_for_games rest (flattened_data ++ [game_data])
  end.

(** [for date_entry in json.get("dates", [])] *)
Fixpoint schedule_for_dates (dates : list value) (flattened_data : list dict)
    : result (list dict) :=
  match dates with
  | [] => Ok flattened_data
  | date_entry :: rest =>
      let* games := get_or date_entry "games" (VList []) in
      let* games := py_iter games in
      let* flattened_data := schedule_for_games games flattened_data in
      schedule_for_dates rest flattened_data
  end.

Definition schedule_flattened_data (document : value) : result (list dict) :=
  let* dates := get_or document "dates" (VList []) in
  let* dates := py_iter dates in
  schedule_for_dates dates [].

Section Schedule.

(** The HTTP transport, and the operations of the table library on a
    table that is not empty ([with_columns], [unique], [sort]), are
    external collaborators. *)
Variable requests_get : string -> result response.
Variable with_columns_unique_sort : DataFrame -> result DataFrame.

(** [schedule(years, sport_ids, game_types)].  The three [isinstance]
    assertions hold by the types of the arguments; the arguments are
    joined with [","] after [str]; and
    [pl.DataFrame(flattened_data).is_empty()] holds exactly when the loop
    has built no row (the table of no rows is built without an
    exception). *)
Definition schedule (years sport_ids : list Z) (game_types : list string)
    : result (option DataFrame) :=
  let url :=
    SCHEDULE_FILTER (String.concat "," (List.map pretty sport_ids))
      (String.concat "," game_types)
      (String.concat "," (List.map pretty years)) in
  let* response := requests_get url in
  if negb (status_code response =? 200) then
    Raise (BadResponseCode url (status_code response))
  else
    let* document := json response in
    let* flattened_data := schedule_flattened_data document in
    match flattened_data with
    | [] => Ok None
    | _ :: _ =>
        let* game_df := pl_DataFrame flattened_data in
        let* game_df := with_columns_unique_sort game_df in
        Ok (Some game_df)
    end.

End Schedule.

(** The fields of a row of the schedule and where they are read. *)
Definition schedule_fields : list (string * list string) := [
  ("game_id", ["gamePk"]);
  ("time", ["gameDate"]);
  ("date", ["officialDate"]);
  ("away", ["teams"; "away"; "team"; "name"]);
  ("home", ["teams"; "home"; "team"; "name"]);
  ("state", ["status"; "codedGameState"]);
  ("venue_id", ["venue"; "id"]);
  ("venue_name", ["venue"; "name"])
].

(** The containers of a game of the schedule are mappings where they are
    present. *)
Definition game_shape_ok (game : value) : bool :=
  forallb (mappings_along game) [
    ["teams"; "away"; "team"]; ["teams"; "home"; "team"]; ["status"]; ["venue"]
  ].

(** The games of a date entry and the date entries of a document. *)
Definition games_of (date_entry : value) : list value :=
  match sub_list date_entry "games" with
  | VList games => games
  | _ => []
  end.

Definition dates_of (document : value) : list value :=
  match sub_list document "dates" with
  | VList dates => dates
  | _ => []
  end.

Definition date_shape_ok (date_entry : value) : bool :=
  is_dict date_entry && list_at date_entry ["games"] game_shape_ok.

Definition well_shaped_schedule (document : value) : bool :=
  is_dict document && list_at document ["dates"] date_shape_ok.

(** The rows of the schedule: the games of the date entries, date after
    date. *)
Definition schedule_rows (document : value) : list dict :=
  concat
    (List.map
       (fun date_entry =>
          List.map (fun game => leaves game schedule_fields)
            (games_of date_entry))
       (dates_of document)).

(** A schedule with two dates, the second one without games, and a game
    whose venue is not reported. *)
Definition sample_schedule : value :=
  VDict [
    ("dates", VList [
       VDict [("date", VStr "2024-04-01");
              ("games", VList [
                 VDict [("gamePk", VInt 745444);
                        ("gameDate", VStr "2024-04-01T17:05:00Z");
                        ("officialDate", VStr "2024-04-01");
                        ("teams", VDict [
                           ("away", VDict [("team", VDict [("name", VStr "A")])]);
                           ("home", VDict [("team", VDict [("name", VStr "B")])])]);
                        ("status", VDict [("codedGameState", VStr "F")])];
                 VDict [("gamePk", VInt 745445)]])];
       VDict [("date", VStr "2024-04-02")]])
  ].

(** A transport that serves a schedule without dates. *)
Definition quiet_transport (url : string) : result response :=
  Ok {| status_code := 200; json := Ok (VDict [("totalGames", VInt 0)]) |}.

(** Table operations that always fail. *)
Definition failing_frame (df : DataFrame) : result DataFrame :=
  Raise (OtherException "ComputeError").

(** * Lemmas on the primitives *)

Lemma bind_inv {A B} (c : result A) (k : A -> result B) b :
  bind c k = Ok b -> exists a, c = Ok a /\ k a = Ok b.
Proof. destruct c; simpl; [eauto | discriminate]. Qed.

Lemma dict_display_from_rows items : forall acc,
  dict_display_from acc items =
  let* rows := eval_items items in Ok (fold_left dict_update rows acc).
Proof.
  induction items as [|[k e|e] rest IH]; intros acc; simpl.
  - reflexivity.
  - destruct e as [v|]; simpl; [|reflexivity]. rewrite IH.
    destruct (eval_items rest); reflexivity.
  - destruct e as [r|]; simpl; [|reflexivity]. rewrite IH.
    destruct (eval_items rest); reflexivity.
Qed.

Lemma dict_display_rows items r :
  dict_display items = Ok r ->
  exists rows, eval_items items = Ok rows /\ r = fold_left dict_update rows [].
Proof.
  unfold dict_display. rewrite dict_display_from_rows. intros H.
  apply bind_inv in H as (rows & E & [= <-]). eauto.
Qed.

Lemma eval_items_nil rows : eval_items [] = Ok rows -> rows = [].
Proof. simpl. congruence. Qed.

Lemma eval_items_field k e rest rows :
  eval_items (Field k e :: rest) = Ok rows ->
  exists v rows', e = Ok v /\ eval_items rest = Ok rows' /\ rows = [(k, v)] :: rows'.
Proof.
  simpl. intros H. apply bind_inv in H as (v & E & H).
  apply bind_inv in H as (rows' & E' & [= <-]). eauto.
Qed.

Lemma eval_items_splat e rest rows :
  eval_items (Splat e :: rest) = Ok rows ->
  exists r rows', e = Ok r /\ eval_items rest = Ok rows' /\ rows = r :: rows'.
Proof.
  simpl. intros H. apply bind_inv in H as (v & E & H).
  apply bind_inv in H as (rows' & E' & [= <-]). eauto.
Qed.

Lemma eval_items_field_ok k v rest rows :
  eval_items rest = Ok rows ->
  eval_items (Field k (Ok v) :: rest) = Ok ([(k, v)] :: rows).
Proof. simpl. intros ->. reflexivity. Qed.

Lemma eval_items_splat_ok r rest rows :
  eval_items rest = Ok rows ->
  eval_items (Splat (Ok r) :: rest) = Ok (r :: rows).
Proof. simpl. intros ->. reflexivity. Qed.

Lemma dict_display_ok items rows :
  eval_items items = Ok rows ->
  dict_display items = Ok (fold_left dict_update rows []).
Proof.
  intros H. unfold dict_display. rewrite dict_display_from_rows, H. reflexivity.
Qed.

Lemma get_or_inv v k dflt x :
  get_or v k dflt = Ok x ->
  exists d, v = VDict d /\ x = default dflt (dict_get d k).
Proof.
  destruct v; simpl; try discriminate.
  intros [= <-]. eauto.
Qed.

Lemma get_inv v k x : get v k = Ok x -> is_dict v = true /\ x = at_path v [k].
Proof.
  intros H. apply get_or_inv in H as (d & -> & ->). split; [reflexivity|].
  simpl. destruct (dict_get d k); reflexivity.
Qed.

Lemma get_dict v k : is_dict v = true -> get v k = Ok (at_path v [k]).
Proof.
  destruct v; try discriminate. intros _. unfold get. simpl.
  destruct (dict_get d k); reflexivity.
Qed.

Lemma get_not_dict v k dflt :
  is_dict v = false -> get_or v k dflt = Raise AttributeError.
Proof. destruct v; simpl; congruence. Qed.

Lemma container_inv v k c :
  get_or v k empty_dict = Ok c -> is_dict v = true /\ c = sub v k.
Proof. intros H. apply get_or_inv in H as (d & -> & ->). auto. Qed.

Lemma container_dict v k :
  is_dict v = true -> get_or v k empty_dict = Ok (sub v k).
Proof. destruct v; try discriminate. reflexivity. Qed.

(** A container fetched with the default [{}] reads like the path through
    its key. *)
Lemma at_path_sub v k k' p : at_path (sub v k) (k' :: p) = at_path v (k :: k' :: p).
Proof.
  destruct v; try reflexivity. simpl. destruct (dict_get d k); reflexivity.
Qed.

Lemma leaves_sub v k fields :
  forallb (fun fp => match snd fp with [] => false | _ => true end) fields = true ->
  leaves (sub v k) fields = leaves v (under k fields).
Proof.
  induction fields as [|[f p] fields IH]; [reflexivity|].
  destruct p as [|k' p]; [discriminate|]. intros H.
  unfold leaves, under in *. cbn [List.map fst snd forallb andb] in *.
  rewrite at_path_sub. f_equal. apply IH, H.
Qed.

Lemma mappings_along_sub v k p :
  mappings_along v (k :: p) = true -> mappings_along (sub v k) p = true.
Proof.
  destruct v; simpl; try discriminate.
  destruct (dict_get d k); [tauto|]. intros _. destruct p; reflexivity.
Qed.

Lemma mappings_along_dict v p : mappings_along v p = true -> is_dict v = true.
Proof. destruct p, v; simpl; congruence. Qed.

Lemma mappings_along_prefix v p q :
  mappings_along v (p ++ q) = true -> mappings_along v p = true.
Proof.
  revert v. induction p as [|k p IH]; intros v H.
  - simpl. eapply mappings_along_dict, H.
  - destruct v; simpl in *; try discriminate.
    destruct (dict_get d k); [apply IH, H | reflexivity].
Qed.

Lemma at_path_missing v p : has_path v p = false -> at_path v p = VNone.
Proof.
  revert v. induction p as [|k p IH]; intros v; simpl; [discriminate|].
  destruct v; try reflexivity.
  destruct (dict_get d k); [apply IH | reflexivity].
Qed.

(** A chain of two containers raises when one that is present is not a
    mapping. *)
Lemma chain_not_mapping v k1 k2 k dflt :
  mappings_along v [k1; k2] = false ->
  rget_or (rget_or (get_or v k1 empty_dict) k2 empty_dict) k dflt
  = Raise AttributeError.
Proof.
  intros H. destruct v as [| | | | | |d]; try reflexivity.
  simpl in *. destruct (dict_get d k1) as [[| | | | | |d1]|]; simpl in *;
    try reflexivity; try discriminate H.
  destruct (dict_get d1 k2) as [[| | | | | |d2]|]; simpl in *;
    try reflexivity; discriminate H.
Qed.

Lemma chain_not_mapping_get v k1 k2 k :
  mappings_along v [k1; k2] = false ->
  rget (rget_or (get_or v k1 empty_dict) k2 empty_dict) k
  = Raise AttributeError.
Proof. exact (chain_not_mapping v k1 k2 k VNone). Qed.

#[local] Arguments get_or : simpl never.
#[local] Arguments get : simpl never.
#[local] Arguments rget : simpl never.
#[local] Arguments rget_or : simpl never.
#[local] Arguments py_len : simpl never.
#[local] Arguments py_index : simpl never.
#[local] Arguments py_iter : simpl never.
#[local] Arguments at_path : simpl never.
#[local] Arguments sub : simpl never.
#[local] Arguments mappings_along : simpl never.

#[local] Arguments dict_display : simpl never.
#[local] Arguments eval_items : simpl never.

(** Peel a successful run: every bound expression and every item of the
    display that was evaluated gets a name and an equation. *)
Ltac peel_items H :=
  repeat first
    [ apply eval_items_field in H as (? & ? & ? & H & ->)
    | apply eval_items_splat in H as (? & ? & ? & H & ->) ];
  apply eval_items_nil in H; subst.

Ltac peel H :=
  repeat match type of H with
  | bind ?e _ = Ok _ =>
      let E := fresh "E" in
      destruct e eqn:E; [ simpl in H | discriminate H ]
  end;
  try match type of H with
  | dict_display _ = Ok _ =>
      let rows := fresh "rows" in
      apply dict_display_rows in H as (rows & H & ->); peel_items H
  end.

(** Rewrite the values read by [get] and by chains of [get] as paths. *)
Ltac as_paths :=
  repeat match goal with
  | E : rget _ _ = Ok _ |- _ =>
      unfold rget in E; apply bind_inv in E as (? & ? & E)
  | E : rget_or _ _ _ = Ok _ |- _ =>
      unfold rget_or in E; apply bind_inv in E as (? & ? & E)
  | E : get_or _ _ empty_dict = Ok _ |- _ =>
      let D := fresh "D" in apply container_inv in E as [D ->]
  | E : get _ _ = Ok _ |- _ =>
      let D := fresh "D" in apply get_inv in E as [D ->]
  end.

(** Every prefix of a path along which the containers are mappings. *)
Ltac descend :=
  repeat match goal with
  | H : mappings_along ?v (?k :: ?p) = true |- _ =>
      lazymatch goal with
      | _ : mappings_along (sub v k) p = true |- _ => fail
      | _ => pose proof (mappings_along_sub v k p H)
      end
  | H : mappings_along ?v ?p = true |- _ =>
      lazymatch goal with
      | _ : is_dict v = true |- _ => fail
      | _ => pose proof (mappings_along_dict v p H)
      end
  end.

(** Run the chained lookups whose containers are known to be mappings. *)
Ltac run_gets :=
  unfold rget, rget_or;
  repeat first
    [ rewrite container_dict by assumption
    | rewrite get_dict by assumption
    | progress simpl ].

(** Run a display whose items have all been evaluated. *)
Ltac run_display :=
  erewrite dict_display_ok
    by (repeat first [ apply eval_items_field_ok | apply eval_items_splat_ok ];
        reflexivity);
  reflexivity.

(** ** The helpers *)

Lemma _get_hit_data_inv hit_data r :
  _get_hit_data hit_data = Ok r -> r = leaves hit_data hit_fields.
Proof.
  unfold _get_hit_data. intros H. peel H. as_paths.
  rewrite ?at_path_sub. reflexivity.
Qed.

Lemma _get_hit_data_ok hit_data :
  mappings_along hit_data ["coordinates"] = true ->
  _get_hit_data hit_data = Ok (leaves hit_data hit_fields).
Proof.
  intros H. descend. unfold _get_hit_data. run_gets.
  rewrite ?at_path_sub. run_display.
Qed.

Lemma _get_pitch_data_inv pitch_data r :
  _get_pitch_data pitch_data = Ok r -> r = leaves pitch_data pitch_fields.
Proof.
  unfold _get_pitch_data. intros H. peel H. as_paths.
  rewrite ?at_path_sub. reflexivity.
Qed.

Lemma _get_pitch_data_ok pitch_data :
  mappings_along pitch_data ["coordinates"] = true ->
  mappings_along pitch_data ["breaks"] = true ->
  _get_pitch_data pitch_data = Ok (leaves pitch_data pitch_fields).
Proof.
  intros H1 H2. descend. unfold _get_pitch_data. run_gets.
  rewrite ?at_path_sub. run_display.
Qed.

Lemma _get_ab_result_inv play n last r :
  _get_ab_result play n last = Ok r ->
  r = if n =? last then leaves play result_fields
      else nan_row (field_names result_fields).
Proof.
  unfold _get_ab_result. intros H. peel H.
  destruct (n =? last); peel H; as_paths.
  - rewrite ?at_path_sub. reflexivity.
  - repeat match goal with E : Ok _ = Ok _ |- _ => injection E as <- end.
    reflexivity.
Qed.

Lemma _get_ab_result_ok play n last :
  mappings_along play ["result"] = true ->
  _get_ab_result play n last =
    Ok (if n =? last then leaves play result_fields
        else nan_row (field_names result_fields)).
Proof.
  intros H. descend. unfold _get_ab_result. run_gets.
  destruct (n =? last); run_gets; rewrite ?at_path_sub; run_display.
Qed.

Lemma _get_team_data_inv about play r :
  _get_team_data about play = Ok r ->
  r = leaves play (team_fields (truthy (at_path about ["isTopInning"]))).
Proof.
  unfold _get_team_data. intros H. peel H. as_paths.
  rewrite ?at_path_sub. reflexivity.
Qed.

Lemma _get_team_data_ok about play :
  is_dict about = true ->
  mappings_along play ["game"; "gameData"; "teams"; "away"] = true ->
  mappings_along play ["game"; "gameData"; "teams"; "home"] = true ->
  _get_team_data about play =
    Ok (leaves play (team_fields (truthy (at_path about ["isTopInning"])))).
Proof.
  intros Ha H1 H2. descend. unfold _get_team_data. run_gets.
  destruct (truthy (at_path about ["isTopInning"])); run_gets;
    rewrite ?at_path_sub; run_display.
Qed.

Lemma _get_count_data_inv play event n r :
  _get_count_data play event n = Ok r ->
  match n with
  | O => r = first_count event ++ leaves event count_after_fields
  | S m =>
      exists play_events prev,
        get_or play "playEvents" (VList []) = Ok play_events /\
        py_index play_events m = Ok prev /\
        r = leaves prev count_before_fields ++ leaves event count_after_fields
  end.
Proof.
  unfold _get_count_data. intros H.
  destruct (get_or play "playEvents" (VList [])) as [play_events|] eqn:Epe;
    [simpl in H | discriminate].
  apply bind_inv in H as (count & Ec & H).
  apply bind_inv in H as (prev_count & Ep & H). peel H.
  destruct n as [|m].
  - apply bind_inv in Ep as (outs & Eo & [= <-]). as_paths.
    rewrite ?at_path_sub. reflexivity.
  - unfold rget_or in Ep. apply bind_inv in Ep as (prev & Eprev & Ep).
    as_paths. exists play_events, prev.
    rewrite ?at_path_sub. auto.
Qed.

Lemma _get_count_data_first play event :
  is_dict play = true ->
  mappings_along event ["count"] = true ->
  _get_count_data play event 0 =
    Ok (first_count event ++ leaves event count_after_fields).
Proof.
  intros Hp H. descend. unfold _get_count_data.
  destruct play; try discriminate. unfold get_or at 1. simpl. run_gets.
  rewrite ?at_path_sub. run_display.
Qed.

Lemma _get_count_data_next play events event m prev :
  at_path play ["playEvents"] = VList events ->
  nth_error events m = Some prev ->
  mappings_along prev ["count"] = true ->
  mappings_along event ["count"] = true ->
  _get_count_data play event (S m) =
    Ok (leaves prev count_before_fields ++ leaves event count_after_fields).
Proof.
  intros Hp Hm H1 H2. descend. unfold _get_count_data.
  destruct play as [| | | | | |d]; try discriminate.
  unfold at_path in Hp. unfold get_or at 1. simpl.
  destruct (dict_get d "playEvents") as [pe|]; [|discriminate]. subst pe. simpl.
  run_gets. unfold py_index. rewrite Hm. simpl. run_gets.
  rewrite ?at_path_sub. run_display.
Qed.

(** ** Pitch and call events *)

Lemma code_in_inv details codes v :
  code_in details codes = Ok v ->
  v = membership_flag (at_path details ["code"]) codes.
Proof.
  unfold code_in, membership_flag. intros H.
  apply bind_inv in H as (code & E & H). apply get_inv in E as [D ->].
  rewrite (get_dict _ _ D) in H. simpl in H.
  destruct (truthy _); congruence.
Qed.

Lemma code_in_ok details codes :
  is_dict details = true ->
  code_in details codes = Ok (membership_flag (at_path details ["code"]) codes).
Proof.
  intros D. unfold code_in, membership_flag. rewrite (get_dict _ _ D). simpl.
  destruct (truthy _); reflexivity.
Qed.

(** Replace the row of a helper that returned by its table. *)
Ltac helper_rows :=
  repeat match goal with
  | E : bind _ _ = Ok _ |- _ => apply bind_inv in E as (? & ? & E)
  | E : _get_team_data _ _ = Ok _ |- _ => apply _get_team_data_inv in E as ->
  | E : _get_pitch_data _ = Ok _ |- _ => apply _get_pitch_data_inv in E as ->
  | E : _get_hit_data _ = Ok _ |- _ => apply _get_hit_data_inv in E as ->
  | E : _get_ab_result _ _ _ = Ok _ |- _ => apply _get_ab_result_inv in E as ->
  | E : code_in _ _ = Ok _ |- _ => apply code_in_inv in E as ->
  end.

Ltac split_shape H :=
  unfold play_shape_ok, event_shape_ok in H; simpl in H;
  repeat match type of H with
  | _ && _ = true => let H' := fresh "S" in apply andb_prop in H as [H' H]
  end.

Lemma _extract_event_data_inv play event n play_events r :
  _extract_event_data play event n play_events = Ok r ->
  exists count len,
    _get_count_data play event n = Ok count /\
    py_len play_events = Ok len /\
    r = event_row play event count
          (if Z.of_nat n =? len - 1 then leaves play result_fields
           else nan_row (field_names result_fields)).
Proof.
  unfold _extract_event_data. intros H. peel H.
  match goal with E : _get_count_data _ _ _ = Ok ?c |- _ =>
    exists c; pose proof (_get_count_data_inv _ _ _ _ E) as Hc end.
  match goal with E : bind (py_len _) _ = Ok _ |- _ =>
    apply bind_inv in E as (len & Elen & E); exists len end.
  split; [assumption|]. split; [assumption|].
  helper_rows. as_paths.
  destruct n as [|m]; [|destruct Hc as (pe & prev & _ & _ & Hc)]; subst;
    destruct (_ =? _); rewrite ?at_path_sub, !leaves_sub by reflexivity;
    unfold event_row;
    destruct (truthy (at_path play ["about"; "isTopInning"])); reflexivity.
Qed.

Lemma _extract_event_data_ok play event n play_events count len :
  play_shape_ok play = true ->
  event_shape_ok event = true ->
  _get_count_data play event n = Ok count ->
  py_len play_events = Ok len ->
  _extract_event_data play event n play_events =
    Ok (event_row play event count
          (if Z.of_nat n =? len - 1 then leaves play result_fields
           else nan_row (field_names result_fields))).
Proof.
  intros Sp Se Hc Hl. split_shape Sp. split_shape Se. descend.
  unfold _extract_event_data. run_gets.
  rewrite _get_team_data_ok, Hc, !code_in_ok, _get_pitch_data_ok,
    _get_hit_data_ok, Hl by assumption.
  simpl. rewrite _get_ab_result_ok by assumption.
  apply _get_count_data_inv in Hc.
  rewrite ?at_path_sub, ?leaves_sub by reflexivity. unfold event_row.
  destruct n as [|m]; [|destruct Hc as (pe & prev & _ & _ & Hc)]; subst count;
    destruct (_ =? _);
    destruct (truthy (at_path play ["about"; "isTopInning"])); run_display.
Qed.

(** ** Walks by count *)

Lemma nan_fields_ok :
  dict_comprehension remaining_fields (fun field => field)
    (fun _ => Ok np_nan) [] = Ok (nan_row remaining_fields).
Proof. vm_compute. reflexivity. Qed.

Lemma count_comprehension_inv count key r :
  dict_comprehension ["strikes"; "balls"; "outs"] key
    (fun k => get count k) [] = Ok r ->
  is_dict count = true /\
  r = dict_set (dict_set [(key "strikes", at_path count ["strikes"])]
                  (key "balls") (at_path count ["balls"]))
               (key "outs") (at_path count ["outs"]).
Proof.
  simpl. intros H. peel H. as_paths. injection H as <-. auto.
Qed.

Lemma count_comprehension_ok count key :
  is_dict count = true ->
  dict_comprehension ["strikes"; "balls"; "outs"] key
    (fun k => get count k) [] =
  Ok (dict_set (dict_set [(key "strikes", at_path count ["strikes"])]
                  (key "balls") (at_path count ["balls"]))
               (key "outs") (at_path count ["outs"])).
Proof. intros D. simpl. rewrite !get_dict by assumption. reflexivity. Qed.

#[local] Arguments dict_comprehension : simpl never.
#[local] Arguments dict_update : simpl never.
#[local] Arguments dict_set : simpl never.

Lemma _extract_walk_data_inv play event game_data r :
  _extract_walk_data play event game_data = Ok r -> r = walk_row play event.
Proof.
  unfold _extract_walk_data. intros H.
  apply bind_inv in H as (matchup & Em & H).
  apply bind_inv in H as (about & Ea & H).
  apply bind_inv in H as (count & Ec & H).
  apply bind_inv in H as (base_data & Eb & H).
  rewrite nan_fields_ok in H. cbv beta iota delta [bind] in H.
  injection H as <-.
  peel Eb.
  repeat match goal with
  | E : dict_comprehension _ _ _ _ = Ok _ |- _ =>
      apply count_comprehension_inv in E as [_ ->]
  end.
  helper_rows. as_paths. rewrite ?at_path_sub. unfold walk_row.
  destruct (truthy (at_path play ["about"; "isTopInning"])); reflexivity.
Qed.

Lemma _extract_walk_data_ok play event game_data :
  play_shape_ok play = true ->
  mappings_along event ["count"] = true ->
  _extract_walk_data play event game_data = Ok (walk_row play event).
Proof.
  intros Sp Se. split_shape Sp. descend.
  unfold _extract_walk_data. rewrite nan_fields_ok. run_gets.
  rewrite _get_team_data_ok, !count_comprehension_ok by assumption.
  rewrite ?at_path_sub. unfold walk_row.
  destruct (truthy (at_path play ["about"; "isTopInning"]));
    erewrite dict_display_ok
      by (repeat first [ apply eval_items_field_ok | apply eval_items_splat_ok ];
          reflexivity);
    reflexivity.
Qed.

(** ** Classification and the loop over the events of a play *)

#[local] Arguments _get_hit_data : simpl never.
#[local] Arguments _get_pitch_data : simpl never.
#[local] Arguments _get_ab_result : simpl never.
#[local] Arguments _get_count_data : simpl never.
#[local] Arguments _get_team_data : simpl never.
#[local] Arguments code_in : simpl never.
#[local] Arguments _extract_event_data : simpl never.
#[local] Arguments _extract_walk_data : simpl never.
#[local] Arguments classify : simpl never.
#[local] Arguments extract_event : simpl never.
#[local] Arguments walk_row : simpl never.
#[local] Arguments event_row : simpl never.

Lemma classify_dict event c : classify event = Ok c -> is_dict event = true.
Proof.
  unfold classify. intros H. apply bind_inv in H as (p & E & _).
  apply get_inv in E as [D _]. exact D.
Qed.

Lemma classify_ok event :
  mappings_along event ["details"] = true ->
  mappings_along event ["count"] = true ->
  exists c, classify event = Ok c.
Proof.
  intros H1 H2. descend. unfold classify. run_gets.
  destruct (truthy (at_path event ["isPitch"])); simpl.
  - eauto.
  - destruct (sub event "details") as [| | | | | |d] eqn:Ed; try discriminate.
    simpl. destruct (bool_decide _); simpl; [eauto|].
    run_gets. destruct (py_eq_int _ 4); eauto.
Qed.

(** A walk by count: not a pitch, no ["call"] key in the details, and a
    ball count equal to 4. *)
Lemma classify_walk event :
  classify event = Ok WalkByCount ->
  truthy (at_path event ["isPitch"]) = false /\
  has_path event ["details"; "call"] = false /\
  py_eq_int (at_path event ["count"; "balls"]) 4 = true.
Proof.
  unfold classify. intros H.
  apply bind_inv in H as (is_pitch & E1 & H). apply get_inv in E1 as [D ->].
  apply bind_inv in H as (b & E2 & H).
  destruct b; [discriminate|].
  apply bind_inv in H as (balls & E3 & H). as_paths.
  rewrite at_path_sub in H.
  destruct (py_eq_int _ 4) eqn:Eb; [|discriminate].
  destruct (truthy (at_path event ["isPitch"])); [discriminate|].
  apply bind_inv in E2 as (details & E2 & E4). as_paths.
  split; [reflexivity|]. split; [|reflexivity].
  destruct event as [| | | | | |d]; try discriminate.
  unfold sub in E4. simpl in *.
  destruct (dict_get d "details") as [[| | | | | |dd]|]; simpl in *;
    try discriminate; try reflexivity.
  injection E4 as E4. apply bool_decide_eq_false in E4.
  destruct (dict_get dd "call"); [|reflexivity].
  exfalso. apply E4. eauto.
Qed.

Lemma extract_event_pitch play game_data play_events n event o :
  classify event = Ok PitchCall ->
  extract_event play game_data play_events n event = Ok o ->
  exists r, o = Some r /\ _extract_event_data play event n play_events = Ok r.
Proof.
  unfold extract_event. intros -> H. simpl in H.
  apply bind_inv in H as (r & E & [= <-]). eauto.
Qed.

Lemma extract_event_walk play game_data play_events n event o :
  classify event = Ok WalkByCount ->
  extract_event play game_data play_events n event = Ok o ->
  o = Some (walk_row play event).
Proof.
  unfold extract_event. intros -> H. simpl in H.
  apply bind_inv in H as (r & E & [= <-]).
  apply _extract_walk_data_inv in E as ->. reflexivity.
Qed.

(** The events that a successful loop has visited, and what each one
    contributed. *)
Lemma for_events_inv play game_data play_events events :
  forall n ab_data out,
    for_events play game_data play_events n events ab_data = Ok out ->
    (forall i event, nth_error events i = Some event ->
       exists o, extract_event play game_data play_events (n + i) event = Ok o /\
                 forall r, o = Some r -> In r out) /\
    (forall r, In r out ->
       In r ab_data \/
       exists i event, nth_error events i = Some event /\
         extract_event play game_data play_events (n + i) event = Ok (Some r)) /\
    (forall r, In r ab_data -> In r out).
Proof.
  induction events as [|event rest IH]; intros n ab_data out H.
  - injection H as <-. split; [|split].
    + intros [|i] event Hi; discriminate Hi.
    + intros r Hr. left. exact Hr.
    + intros r Hr. exact Hr.
  - simpl in H. apply bind_inv in H as (o & E & H).
    apply IH in H as (H1 & H2 & H3). split; [|split].
    + intros [|i] ev Hi.
      * injection Hi as <-. rewrite Nat.add_0_r. exists o. split; [exact E|].
        intros r ->. apply H3, in_or_app. right. left. reflexivity.
      * destruct (H1 i ev Hi) as (o' & E' & Ho').
        exists o'. rewrite Nat.add_succ_r. split; [exact E' | exact Ho'].
    + intros r Hr. destruct (H2 r Hr) as [Hacc | (i & ev & Hi & Hev)].
      * destruct o as [r0|]; [|left; exact Hacc].
        apply in_app_or in Hacc as [Hacc|[<-|[]]]; [left; exact Hacc|].
        right. exists 0%nat, event. rewrite Nat.add_0_r.
        split; [reflexivity | exact E].
      * right. exists (S i), ev. rewrite Nat.add_succ_r.
        split; [exact Hi | exact Hev].
    + intros r Hr. apply H3.
      destruct o; [apply in_or_app; left|]; exact Hr.
Qed.

Lemma _extract_play_data_inv play game_data out :
  _extract_play_data play game_data = Ok out ->
  exists play_events events,
    get_or play "playEvents" (VList []) = Ok play_events /\
    py_iter play_events = Ok events /\
    (forall i event, nth_error events i = Some event ->
       exists o, extract_event play game_data play_events i event = Ok o /\
                 forall r, o = Some r -> In r out) /\
    (forall r, In r out ->
       exists i event, nth_error events i = Some event /\
         extract_event play game_data play_events i event = Ok (Some r)).
Proof.
  unfold _extract_play_data. intros H.
  apply bind_inv in H as (play_events & E1 & H).
  apply bind_inv in H as (events & E2 & H).
  apply for_events_inv in H as (H1 & H2 & _).
  exists play_events, events.
  split; [exact E1|]. split; [exact E2|]. split; [exact H1|].
  intros r Hr. destruct (H2 r Hr) as [[]|H]. exact H.
Qed.

(** The events of a play whose events can be classified are the items of
    a list. *)
Lemma classified_events play_events events i event c :
  py_iter play_events = Ok events ->
  nth_error events i = Some event ->
  classify event = Ok c ->
  play_events = VList events.
Proof.
  intros Hit Hi Hc. apply classify_dict in Hc.
  destruct play_events as [| | | |s|l|d]; try discriminate.
  - injection Hit as <-. exfalso. revert i Hi.
    induction s as [|a s IH]; intros [|i] Hi; simpl in Hi; try discriminate.
    + injection Hi as <-. discriminate.
    + eapply IH, Hi.
  - injection Hit as <-. reflexivity.
  - injection Hit as <-. exfalso. apply nth_error_In in Hi.
    apply in_map_iff in Hi as (k & <- & _). discriminate.
Qed.

(** ** Documents whose containers have the expected kind *)

Lemma get_or_list_dict v k :
  is_dict v = true -> get_or v k (VList []) = Ok (sub_list v k).
Proof. destruct v; try discriminate. reflexivity. Qed.

Lemma has_path_sub v k k' p :
  has_path (sub v k) (k' :: p) = has_path v (k :: k' :: p).
Proof.
  destruct v; try reflexivity. unfold sub. simpl.
  destruct (dict_get d k); reflexivity.
Qed.

Lemma sub_list_at v k ok :
  list_at v [k] ok = true ->
  exists l, sub_list v k = VList l /\ forallb ok l = true /\
            (l <> [] -> at_path v [k] = VList l).
Proof.
  unfold list_at, sub_list, at_path. simpl.
  destruct v as [| | | | | |d]; try (exists []; repeat split; congruence).
  destruct (dict_get d k) as [[| | | | |l|]|]; simpl; try discriminate.
  - intros H. exists l. auto.
  - intros _. exists []. repeat split; congruence.
Qed.

Lemma list_at_sub v k k' p ok :
  list_at v (k :: k' :: p) ok = list_at (sub v k) (k' :: p) ok.
Proof. unfold list_at. rewrite has_path_sub, at_path_sub. reflexivity. Qed.

Lemma event_shape_count event :
  event_shape_ok event = true -> mappings_along event ["count"] = true.
Proof. intros S. split_shape S. assumption. Qed.

Lemma event_shape_details event :
  event_shape_ok event = true -> mappings_along event ["details"] = true.
Proof.
  intros S. split_shape S.
  apply (mappings_along_prefix event ["details"] ["type"]). assumption.
Qed.

Lemma nth_error_forallb {A} (ok : A -> bool) l i x :
  forallb ok l = true -> nth_error l i = Some x -> ok x = true.
Proof.
  intros H Hi. apply nth_error_In in Hi.
  rewrite forallb_forall in H. apply H, Hi.
Qed.

Lemma _get_count_data_ok play events n event :
  is_dict play = true ->
  (events <> [] -> at_path play ["playEvents"] = VList events) ->
  forallb event_shape_ok events = true ->
  nth_error events n = Some event ->
  exists count, _get_count_data play event n = Ok count.
Proof.
  intros Dp Hp Hall Hn.
  pose proof (event_shape_count _ (nth_error_forallb _ _ _ _ Hall Hn)) as Hc.
  destruct n as [|m].
  - eexists. apply _get_count_data_first; assumption.
  - assert (exists prev, nth_error events m = Some prev) as [prev Hm].
    { destruct (nth_error events m) as [prev|] eqn:Hm; [eauto|].
      apply nth_error_None in Hm.
      assert (nth_error events (S m) <> None) as Hn' by congruence.
      apply nth_error_Some in Hn'. lia. }
    eexists. eapply _get_count_data_next; try eassumption.
    + apply Hp. intros ->. destruct m; discriminate.
    + apply event_shape_count. eapply nth_error_forallb; eassumption.
Qed.

Lemma extract_event_ok play game_data events n event :
  play_shape_ok play = true ->
  (events <> [] -> at_path play ["playEvents"] = VList events) ->
  forallb event_shape_ok events = true ->
  nth_error events n = Some event ->
  exists o, extract_event play game_data (VList events) n event = Ok o.
Proof.
  intros Sp Hp Hall Hn.
  pose proof (nth_error_forallb _ _ _ _ Hall Hn) as Se.
  destruct (classify_ok event (event_shape_details _ Se)
              (event_shape_count _ Se)) as [c Hc].
  unfold extract_event. rewrite Hc. simpl. destruct c.
  - assert (is_dict play = true) as Dp.
    { pose proof Sp as S. split_shape S. eapply mappings_along_dict. eassumption. }
    destruct (_get_count_data_ok play events n event Dp Hp Hall Hn) as [count Hcount].
    erewrite _extract_event_data_ok; try eassumption; [|reflexivity].
    simpl. eexists. reflexivity.
  - rewrite _extract_walk_data_ok;
      [simpl; eexists; reflexivity | assumption | apply event_shape_count, Se].
  - eexists. reflexivity.
Qed.

Lemma for_events_ok play game_data play_events events :
  forall n ab_data,
    (forall i event, nth_error events i = Some event ->
       exists o, extract_event play game_data play_events (n + i) event = Ok o) ->
    exists out, for_events play game_data play_events n events ab_data = Ok out.
Proof.
  induction events as [|event rest IH]; intros n ab_data H.
  - exists ab_data. reflexivity.
  - destruct (H 0%nat event eq_refl) as [o Ho]. rewrite Nat.add_0_r in Ho.
    simpl. rewrite Ho. simpl. apply IH.
    intros i ev Hi. specialize (H (S i) ev Hi).
    rewrite Nat.add_succ_r in H. exact H.
Qed.

Lemma _extract_play_data_ok play game_data :
  well_shaped_play play = true ->
  exists out, _extract_play_data play game_data = Ok out.
Proof.
  unfold well_shaped_play. intros H. apply andb_prop in H as [Sp Hl].
  apply sub_list_at in Hl as (events & Hs & Hall & Hp).
  assert (is_dict play = true) as Dp.
  { pose proof Sp as S. split_shape S. eapply mappings_along_dict. eassumption. }
  unfold _extract_play_data. rewrite get_or_list_dict, Hs by assumption.
  simpl. apply for_events_ok. intros i event Hi.
  apply extract_event_ok; assumption.
Qed.

Lemma for_plays_ok game_data game_id game_date plays :
  forallb well_shaped_play plays = true ->
  exists out, for_plays game_data game_id game_date plays = Ok out.
Proof.
  induction plays as [|play rest IH]; intros H.
  - exists []. reflexivity.
  - simpl in H. apply andb_prop in H as [Hp Hrest].
    destruct (_extract_play_data_ok play game_data Hp) as [ab_data E].
    destruct (IH Hrest) as [more E'].
    simpl. rewrite E. simpl. rewrite E'. simpl. eexists. reflexivity.
Qed.

Lemma flattened_data_ok game_data :
  well_shaped_document game_data = true ->
  exists flattened_data, flattened_data_of game_data = Ok flattened_data.
Proof.
  unfold well_shaped_document. intros H.
  apply andb_prop in H as [H Hl]. apply andb_prop in H as [H1 H2].
  rewrite !list_at_sub in Hl.
  apply sub_list_at in Hl as (plays & Hs & Hall & _).
  descend. unfold flattened_data_of. run_gets.
  rewrite get_or_list_dict, Hs by assumption. simpl.
  destruct (for_plays_ok game_data (at_path game_data ["gamePk"])
              (at_path (sub (sub game_data "gameData") "datetime") ["officialDate"])
              plays Hall) as [out E].
  rewrite E. eexists. reflexivity.
Qed.

(** A document without plays flattens to no record. *)
Lemma flattened_data_no_plays game_data :
  mappings_along game_data ["gameData"; "datetime"] = true ->
  mappings_along game_data ["liveData"; "plays"] = true ->
  has_path game_data ["liveData"; "plays"; "allPlays"] = false \/
  at_path game_data ["liveData"; "plays"; "allPlays"] = VList [] ->
  flattened_data_of game_data = Ok [].
Proof.
  intros H1 H2 Hno. descend. unfold flattened_data_of. run_gets.
  rewrite get_or_list_dict by assumption.
  rewrite <- !has_path_sub, <- !at_path_sub in Hno.
  assert (sub_list (sub (sub game_data "liveData") "plays") "allPlays" = VList [])
    as ->.
  { destruct (sub (sub game_data "liveData") "plays") as [| | | | | |d];
      try reflexivity.
    unfold sub_list, has_path, at_path in *.
    destruct (dict_get d "allPlays"); simpl in *.
    - destruct Hno as [Hno|Hno]; [discriminate | exact Hno].
    - reflexivity. }
  reflexivity.
Qed.

(** The outcome of [_game_to_df] is that of the table library on the
    flattened records, unless the flattening raises. *)
Lemma _game_to_df_flattened game_data flattened_data :
  flattened_data_of game_data = Ok flattened_data ->
  _game_to_df game_data = pl_DataFrame flattened_data.
Proof. intros H. unfold _game_to_df. rewrite H. reflexivity. Qed.

Lemma _game_to_df_flattening_raises game_data e :
  flattened_data_of game_data = Raise e -> _game_to_df game_data = Raise e.
Proof. intros H. unfold _game_to_df. rewrite H. reflexivity. Qed.

(** * Properties of the flattener *)

Lemma reads_intro r root fields :
  Forall (fun fp => dict_get r (fst fp) = Some (at_path root (snd fp))) fields ->
  reads r root fields.
Proof.
  unfold reads. intros H.
  induction H as [|[f p] fields H _ IH]; constructor; [|exact IH].
  cbn [fst snd] in *. destruct (has_path root p) eqn:E; [exact H|].
  rewrite H, (at_path_missing _ _ E). reflexivity.
Qed.

(** The two shapes of the count fields of a pitch or call record. *)
Lemma pitch_record play game_data play_events events n event r :
  py_iter play_events = Ok events ->
  nth_error events n = Some event ->
  classify event = Ok PitchCall ->
  extract_event play game_data play_events n event = Ok (Some r) ->
  exists count,
    r = event_row play event count
          (if Z.of_nat n =? Z.of_nat (length events) - 1
           then leaves play result_fields
           else nan_row (field_names result_fields)) /\
    match n with
    | O => count = first_count event ++ leaves event count_after_fields
    | S m =>
        exists prev,
          (get_or play "playEvents" (VList []) = Ok play_events ->
           nth_error events m = Some prev) /\
          count = leaves prev count_before_fields
                  ++ leaves event count_after_fields
    end.
Proof.
  intros Hit Hn Hc Hr.
  pose proof (classified_events _ _ _ _ _ Hit Hn Hc) as ->.
  destruct (extract_event_pitch _ _ _ _ _ _ Hc Hr) as (r' & [= <-] & E).
  apply _extract_event_data_inv in E as (count & len & Ecount & [= <-] & ->).
  exists count. split; [reflexivity|].
  apply _get_count_data_inv in Ecount. destruct n as [|m]; [exact Ecount|].
  destruct Ecount as (pe & prev & Epe & Eprev & ->).
  exists prev. split; [|reflexivity].
  intros Epe'. rewrite Epe' in Epe. injection Epe as <-.
  unfold py_index in Eprev.
  destruct (nth_error events m); [congruence | discriminate].
Qed.

(** The count after an event is in every record of the event. *)
Lemma record_count_after play game_data play_events n event r :
  extract_event play game_data play_events n event = Ok (Some r) ->
  Forall (fun fp => dict_get r (fst fp) = Some (at_path event (snd fp)))
         count_after_fields.
Proof.
  unfold extract_event. intros H. apply bind_inv in H as (c & Hc & H).
  destruct c; [| |discriminate];
    apply bind_inv in H as (r' & E & [= <-]).
  - apply _extract_event_data_inv in E as (count & len & Ecount & _ & ->).
    apply _get_count_data_inv in Ecount.
    destruct n as [|m]; [|destruct Ecount as (pe & prev & _ & _ & Ecount)];
      subst count; repeat constructor.
  - apply _extract_walk_data_inv in E as ->. repeat constructor.
Qed.

Lemma emits_events play game_data n event r :
  emits play game_data n event r ->
  nth_error (events_of play) n = Some event /\
  extract_event play game_data (VList (events_of play)) n event = Ok (Some r).
Proof.
  intros (play_events & events & Hpe & Hit & Hn & Hr).
  assert (exists c, classify event = Ok c) as [c Hc].
  { unfold extract_event in Hr. apply bind_inv in Hr as (c & Hc & _). eauto. }
  pose proof (classified_events _ _ _ _ _ Hit Hn Hc) as ->.
  apply get_or_inv in Hpe as (d & -> & Hpe).
  unfold events_of, sub_list. rewrite <- Hpe. split; assumption.
Qed.

(** The records of a play are the records that its events emit. *)
Lemma emits_in_output play game_data out :
  _extract_play_data play game_data = Ok out ->
  forall r, In r out <-> exists n event, emits play game_data n event r.
Proof.
  intros H. apply _extract_play_data_inv in H
    as (play_events & events & Hpe & Hit & H1 & H2).
  intros r. split.
  - intros Hr. destruct (H2 r Hr) as (i & event & Hi & Hev).
    exists i, event, play_events, events. repeat split; assumption.
  - intros (n & event & pe & evs & Hpe' & Hit' & Hn & Hr).
    rewrite Hpe' in Hpe. injection Hpe as ->.
    rewrite Hit' in Hit. injection Hit as ->.
    destruct (H1 n event Hn) as (o & Ho & Hin).
    rewrite Ho in Hr. injection Hr as ->. apply Hin. reflexivity.
Qed.

Lemma emits_pitch play game_data n event r :
  emits play game_data n event r ->
  classify event = Ok PitchCall ->
  exists count,
    r = event_row play event count
          (if Z.of_nat n =? Z.of_nat (length (events_of play)) - 1
           then leaves play result_fields
           else nan_row (field_names result_fields)) /\
    match n with
    | O => count = first_count event ++ leaves event count_after_fields
    | S m =>
        exists prev,
          nth_error (events_of play) m = Some prev /\
          count = leaves prev count_before_fields
                  ++ leaves event count_after_fields
    end.
Proof.
  intros He Hc. pose proof (emits_events _ _ _ _ _ He) as [Hn Hr].
  destruct He as (pe & evs & Hpe & Hit & Hn' & Hr').
  assert (pe = VList (events_of play)) as ->.
  { pose proof (classified_events _ _ _ _ _ Hit Hn' Hc) as ->.
    apply get_or_inv in Hpe as (d & -> & Hpe).
    unfold events_of, sub_list. rewrite <- Hpe. reflexivity. }
  destruct (pitch_record play game_data (VList (events_of play)) (events_of play)
              n event r eq_refl Hn Hc Hr) as (count & -> & Hcount).
  exists count. split; [reflexivity|].
  destruct n as [|m]; [exact Hcount|].
  destruct Hcount as (prev & Hprev & ->). exists prev.
  split; [exact (Hprev Hpe) | reflexivity].
Qed.

Lemma emits_walk play game_data n event r :
  emits play game_data n event r ->
  classify event = Ok WalkByCount ->
  r = walk_row play event.
Proof.
  intros (pe & evs & _ & _ & _ & Hr) Hc.
  apply (extract_event_walk _ _ _ _ _ _ Hc) in Hr. congruence.
Qed.

Lemma emits_count_after play game_data n event r :
  emits play game_data n event r ->
  Forall (fun fp => dict_get r (fst fp) = Some (at_path event (snd fp)))
         count_after_fields.
Proof.
  intros (pe & evs & _ & _ & _ & Hr). eapply record_count_after, Hr.
Qed.

Lemma py_in_strs_In code codes :
  py_in_strs code codes = true <-> exists s, code = VStr s /\ In s codes.
Proof.
  unfold py_in_strs. rewrite existsb_exists. split.
  - intros (s & Hin & Heq). destruct code; try discriminate.
    apply String.eqb_eq in Heq as ->. eauto.
  - intros (s & -> & Hin). exists s. split; [exact Hin|].
    apply String.eqb_refl.
Qed.

(** ** The rows of the table *)

Lemma emits_class play game_data n event r :
  emits play game_data n event r ->
  classify event = Ok PitchCall \/ classify event = Ok WalkByCount.
Proof.
  intros (pe & evs & _ & _ & _ & Hr). unfold extract_event in Hr.
  apply bind_inv in Hr as ([| |] & Hc & Hr); [auto | auto | discriminate].
Qed.

Lemma dict_get_set d k v k' :
  dict_get (dict_set d k v) k' =
  if String.eqb k k' then Some v else dict_get d k'.
Proof.
  induction d as [|[k0 v0] d IH]; [reflexivity|].
  change (dict_set ((k0, v0) :: d) k v)
    with (if String.eqb k0 k then (k0, v) :: d
          else (k0, v0) :: dict_set d k v).
  change (dict_get ((k0, v0) :: d) k')
    with (if String.eqb k0 k' then Some v0 else dict_get d k').
  destruct (String.eqb_spec k0 k) as [->|Hk0].
  - change (dict_get ((k, v) :: d) k')
      with (if String.eqb k k' then Some v else dict_get d k').
    destruct (String.eqb k k'); reflexivity.
  - change (dict_get ((k0, v0) :: dict_set d k v) k')
      with (if String.eqb k0 k' then Some v0
            else dict_get (dict_set d k v) k').
    rewrite IH. destruct (String.eqb_spec k0 k') as [->|Hk0']; [|reflexivity].
    destruct (String.eqb_spec k k'); [congruence | reflexivity].
Qed.

Lemma dict_get_absent d k : ~ In k (keys d) -> dict_get d k = None.
Proof.
  induction d as [|[k0 v0] d IH]; intros H; cbn [dict_get]; [reflexivity|].
  destruct (String.eqb_spec k0 k) as [->|_].
  - exfalso. apply H. left. reflexivity.
  - apply IH. intros Hin. apply H. right. exact Hin.
Qed.

Lemma dict_get_update r : forall d k,
  NoDup (keys r) ->
  dict_get (dict_update d r) k =
  match dict_get r k with Some v => Some v | None => dict_get d k end.
Proof.
  unfold dict_update.
  induction r as [|[k0 v0] r IH]; intros d k Hnd; cbn [fold_left dict_get].
  - reflexivity.
  - cbn [keys List.map fst] in Hnd. apply NoDup_cons in Hnd as [Hk0 Hnd].
    rewrite IH by exact Hnd. cbn [fst snd]. rewrite dict_get_set.
    destruct (String.eqb_spec k0 k) as [<-|_]; [|reflexivity].
    rewrite dict_get_absent; [reflexivity|].
    intros Hin. apply Hk0, list_elem_of_In, Hin.
Qed.

(** Adding the game fields leaves the other fields of a record as they
    are. *)
Lemma with_game_get game_id game_date r k :
  NoDup (keys r) ->
  dict_get (with_game game_id game_date r) k =
  if String.eqb "game_date" k then Some game_date
  else if String.eqb "game_id" k then Some game_id
  else dict_get r k.
Proof.
  intros Hnd. unfold with_game. rewrite !dict_get_set, dict_get_update by exact Hnd.
  destruct (dict_get r k); reflexivity.
Qed.

Lemma distinct_NoDup names : distinct names = true -> NoDup names.
Proof.
  induction names as [|f rest IH]; intros H; [apply NoDup_nil_2|].
  simpl in H. apply andb_prop in H as [Hf Hrest].
  apply NoDup_cons_2; [|apply IH, Hrest].
  intros Hin. apply list_elem_of_In in Hin.
  apply negb_true_iff in Hf.
  assert (existsb (String.eqb f) rest = true) as Hex.
  { apply existsb_exists. exists f. split; [exact Hin | apply String.eqb_refl]. }
  congruence.
Qed.

Lemma emits_keys play game_data n event r :
  emits play game_data n event r -> NoDup (keys r).
Proof.
  intros He. destruct (emits_class _ _ _ _ _ He) as [Hc|Hc].
  - destruct (emits_pitch _ _ _ _ _ He Hc) as (count & -> & Hcount).
    destruct n as [|m]; [|destruct Hcount as (prev & _ & Hcount)]; subst count;
      destruct (_ =? _); apply distinct_NoDup; vm_compute; reflexivity.
  - apply (emits_walk _ _ _ _ _ He) in Hc as ->.
    apply distinct_NoDup. vm_compute. reflexivity.
Qed.

Lemma for_plays_inv game_data game_id game_date plays : forall out,
  for_plays game_data game_id game_date plays = Ok out ->
  forall row, In row out <->
    exists play ab_data r,
      In play plays /\ _extract_play_data play game_data = Ok ab_data /\
      In r ab_data /\ row = with_game game_id game_date r.
Proof.
  induction plays as [|play rest IH]; intros out H row.
  - injection H as <-. split; [intros [] | intros (? & ? & ? & [] & _)].
  - simpl in H. apply bind_inv in H as (ab_data & E & H).
    apply bind_inv in H as (more & E' & [= <-]).
    rewrite in_app_iff, in_map_iff, (IH more E' row). split.
    + intros [(r & <- & Hr) | (p & ab & r & Hp & Hab & Hr & ->)].
      * exists play, ab_data, r. repeat split; [left; reflexivity | exact E | exact Hr].
      * exists p, ab, r. repeat split; [right; exact Hp | exact Hab | exact Hr].
    + intros (p & ab & r & [<-|Hp] & Hab & Hr & ->).
      * left. exists r. rewrite E in Hab. injection Hab as <-. auto.
      * right. exists p, ab, r. auto.
Qed.

(** Every flattened record is a record that an event of a play of the
    document emits, with [game_id] and [game_date] of the document added,
    and every such record is in the list. *)
Lemma flattened_data_rows game_data flattened_data :
  flattened_data_of game_data = Ok flattened_data ->
  forall row, In row flattened_data <->
    exists play n event r,
      In play (plays_of game_data) /\ emits play game_data n event r /\
      row = with_game (at_path game_data ["gamePk"])
              (at_path game_data ["gameData"; "datetime"; "officialDate"]) r.
Proof.
  unfold flattened_data_of. intros H. rename flattened_data into out.
  apply bind_inv in H as (game_id & E1 & H).
  apply bind_inv in H as (game_date & E2 & H).
  apply bind_inv in H as (all_plays & E3 & H).
  apply bind_inv in H as (plays & E4 & E5).
  unfold rget_or in E3.
  apply bind_inv in E3 as (c & E3 & E6).
  apply bind_inv in E3 as (c' & E3 & E7). as_paths.
  rewrite !at_path_sub in E5. intros row.
  rewrite (for_plays_inv _ _ _ _ _ E5 row).
  assert (forall play ab_data r,
            In play plays -> _extract_play_data play game_data = Ok ab_data ->
            In r ab_data -> In play (plays_of game_data)) as Hplays.
  { intros play ab_data r Hp Hab Hr.
    assert (is_dict play = true) as Dp.
    { unfold _extract_play_data in Hab. apply bind_inv in Hab as (pe & Epe & _).
      apply get_or_inv in Epe as (d & -> & _). reflexivity. }
    apply get_or_inv in E6 as (d & Ed & ->).
    assert (at_path game_data ["liveData"; "plays"; "allPlays"]
            = match dict_get d "allPlays" with Some v => v | None => VNone end)
      as Hat.
    { rewrite <- !at_path_sub, Ed. reflexivity. }
    unfold plays_of. rewrite Hat.
    destruct (dict_get d "allPlays") as [[| | | |s|l|d']|]; simpl in E4;
      try discriminate; injection E4 as <-.
    - exfalso. clear -Hp Dp. induction s as [|a s IH]; simpl in Hp; [exact Hp|].
      destruct Hp as [<-|Hp]; [discriminate | exact (IH Hp)].
    - exact Hp.
    - exfalso. apply in_map_iff in Hp as (k & <- & _). discriminate.
    - destruct Hp. }
  split.
  - intros (play & ab_data & r & Hp & Hab & Hr & ->).
    apply (emits_in_output _ _ _ Hab) in Hr as Hemit.
    destruct Hemit as (n & event & He).
    exists play, n, event, r. split; [eapply Hplays; eassumption|].
    split; [exact He | reflexivity].
  - intros (play & n & event & r & Hp & He & ->).
    assert (In play plays) as Hp'.
    { apply get_or_inv in E6 as (d & Ed & ->).
      assert (at_path game_data ["liveData"; "plays"; "allPlays"]
              = match dict_get d "allPlays" with Some v => v | None => VNone end)
        as Hat.
      { rewrite <- !at_path_sub, Ed. reflexivity. }
      unfold plays_of in Hp. rewrite Hat in Hp.
      destruct (dict_get d "allPlays") as [[| | | | |l|]|]; simpl in Hp;
        try destruct Hp.
      simpl in E4. injection E4 as <-. exact Hp. }
    assert (exists ab_data, _extract_play_data play game_data = Ok ab_data)
      as [ab_data Hab].
    { clear -E5 Hp'. revert out E5.
      induction plays as [|p rest IH]; intros out E5; [destruct Hp'|].
      simpl in E5. apply bind_inv in E5 as (ab & E & E5).
      apply bind_inv in E5 as (more & E' & _).
      destruct Hp' as [->|Hp']; [eauto | exact (IH Hp' _ E')]. }
    exists play, ab_data, r. split; [exact Hp'|]. split; [exact Hab|].
    split; [|reflexivity].
    apply (emits_in_output _ _ _ Hab). eauto.
Qed.

(** A container that is present but is [null] is not an absent leaf: the
    chained lookup raises. *)
Lemma null_container_raises :
  flattened_data_of
    (sample_game_with
       [VDict [("matchup", VNone); ("playEvents", VList [sample_event_0])]])
  = Raise AttributeError.
Proof. reflexivity. Qed.

(** ** C1: the count before a pitch *)

(** C1. For every play and every event at index [n] that is classified
    as a pitch or call, the count-before fields of the emitted record
    (strikes, balls, outs) are, when [n > 0], the count of the event at
    index [n - 1], whatever that event was (also when it was skipped and
    emitted nothing); any record that the previous event did emit has
    this count as its count-after.  When [n = 0] they are zero strikes,
    zero balls and the outs of the event itself. *)
Theorem count_before_is_previous_count_after play game_data n event r :
  emits play game_data n event r ->
  classify event = Ok PitchCall ->
  match n with
  | O =>
      dict_get r "strikes" = Some (VInt 0) /\
      dict_get r "balls" = Some (VInt 0) /\
      dict_get r "outs" = Some (at_path event ["count"; "outs"])
  | S m =>
      exists prev,
        nth_error (events_of play) m = Some prev /\
        dict_get r "strikes" = Some (at_path prev ["count"; "strikes"]) /\
        dict_get r "balls" = Some (at_path prev ["count"; "balls"]) /\
        dict_get r "outs" = Some (at_path prev ["count"; "outs"]) /\
        forall r', emits play game_data m prev r' ->
          dict_get r' "strikes_after" = dict_get r "strikes" /\
          dict_get r' "balls_after" = dict_get r "balls" /\
          dict_get r' "outs_after" = dict_get r "outs"
  end.
Proof.
  intros He Hc. destruct (emits_pitch _ _ _ _ _ He Hc) as (count & -> & Hcount).
  destruct n as [|m].
  - subst count. repeat split.
  - destruct Hcount as (prev & Hprev & ->). exists prev.
    split; [exact Hprev|]. split; [reflexivity|]. split; [reflexivity|].
    split; [reflexivity|]. intros r' He'.
    pose proof (emits_count_after _ _ _ _ _ He') as Hafter.
    unfold count_after_fields in Hafter.
    inversion_clear Hafter as [|? ? Hs Hafter'].
    inversion_clear Hafter' as [|? ? Hb Hafter].
    inversion_clear Hafter as [|? ? Ho _].
    cbn [fst snd] in *. rewrite Hs, Hb, Ho. repeat split.
Qed.

Lemma count_before_is_previous_count_after_witness :
  emits at_bat sample_game_data 2 ball_in_play ball_in_play_record /\
  classify ball_in_play = Ok PitchCall /\
  classify mound_visit = Ok Skipped /\
  dict_get ball_in_play_record "strikes" = Some (VInt 1) /\
  dict_get ball_in_play_record "balls" = Some (VInt 3) /\
  dict_get ball_in_play_record "outs" = Some (VInt 1).
Proof.
  assert (emits at_bat sample_game_data 2 ball_in_play ball_in_play_record)
    as He.
  { unfold emits. do 2 eexists. repeat split; reflexivity. }
  assert (classify ball_in_play = Ok PitchCall) as Hc by reflexivity.
  split; [exact He|]. split; [exact Hc|]. split; [reflexivity|].
  destruct (count_before_is_previous_count_after _ _ _ _ _ He Hc)
    as (prev & Hprev & Hs & Hb & Ho & _).
  injection Hprev as <-. repeat split; assumption.
Defined.

(** ** C3: the at-bat result fields *)

(** C3. For every event classified as a pitch or call, the seven at-bat
    result fields ([type_ab], [event], [event_type], [rbi], [away_score],
    [home_score], [is_out]) of its record are read from the result of the
    play when the index of the event is the last index of the event
    sequence of the play, and are all [np.nan] on the record of every
    earlier index. *)
Theorem result_fields_on_last_event_only play game_data n event r :
  emits play game_data n event r ->
  classify event = Ok PitchCall ->
  (S n = length (events_of play) -> reads r play result_fields) /\
  ((S n < length (events_of play))%nat ->
   Forall (fun f => dict_get r f = Some np_nan) (field_names result_fields)).
Proof.
  intros He Hc. destruct (emits_pitch _ _ _ _ _ He Hc) as (count & -> & Hcount).
  split; intros Hn.
  - apply reads_intro.
    destruct (Z.eqb_spec (Z.of_nat n) (Z.of_nat (length (events_of play)) - 1));
      [|lia].
    destruct n as [|m]; [|destruct Hcount as (prev & _ & Hcount)]; subst count;
      repeat constructor.
  - destruct (Z.eqb_spec (Z.of_nat n) (Z.of_nat (length (events_of play)) - 1));
      [lia|].
    destruct n as [|m]; [|destruct Hcount as (prev & _ & Hcount)]; subst count;
      repeat constructor.
Qed.

Lemma result_fields_on_last_event_only_witness :
  emits sample_play sample_game_data 0 sample_event_0 sample_record_0 /\
  emits sample_play sample_game_data 1 sample_event_1 sample_record_1 /\
  classify sample_event_0 = Ok PitchCall /\
  classify sample_event_1 = Ok PitchCall /\
  (1 < length (events_of sample_play))%nat /\
  2%nat = length (events_of sample_play) /\
  reads sample_record_1 sample_play result_fields /\
  dict_get sample_record_1 "event" = Some (VStr "Single") /\
  Forall (fun f => dict_get sample_record_0 f = Some np_nan)
         (field_names result_fields).
Proof.
  assert (emits sample_play sample_game_data 0 sample_event_0 sample_record_0)
    as He0.
  { unfold emits. do 2 eexists. repeat split; reflexivity. }
  assert (emits sample_play sample_game_data 1 sample_event_1 sample_record_1)
    as He1.
  { unfold emits. do 2 eexists. repeat split; reflexivity. }
  assert (classify sample_event_0 = Ok PitchCall) as Hc0 by reflexivity.
  assert (classify sample_event_1 = Ok PitchCall) as Hc1 by reflexivity.
  assert (1 < length (events_of sample_play))%nat as Hlt by (simpl; lia).
  assert (2%nat = length (events_of sample_play)) as Hlast by reflexivity.
  repeat (split; [assumption|]).
  split; [|split].
  - exact (proj1 (result_fields_on_last_event_only _ _ _ _ _ He1 Hc1) Hlast).
  - reflexivity.
  - exact (proj2 (result_fields_on_last_event_only _ _ _ _ _ He0 Hc0) Hlt).
Defined.

(** ** C9: the swing and whiff flags *)

(** C9, as amended.  For every record of a pitch or call event, the two
    flags are computed from the ["code"] entry of the details of the
    event (the record carries it as [play_code]), not from the code of
    the call under ["call"], which the flattener never reads: [is_swing]
    is [True] exactly when that code is one of X, F, S, D, E, T, W;
    [is_whiff] is [True] exactly when it is one of S, T, W; both are
    booleans whenever the code is truthy; and both are [np.nan], not
    [False], when the details have no ["code"] entry, and more generally
    when the code is falsy. *)
Theorem swing_and_whiff_flags play game_data n event r :
  emits play game_data n event r ->
  classify event = Ok PitchCall ->
  let code := at_path event ["details"; "code"] in
  dict_get r "play_code" = Some code /\
  (dict_get r "is_swing" = Some (VBool true) <->
   exists s, code = VStr s /\ In s ["X"; "F"; "S"; "D"; "E"; "T"; "W"]) /\
  (dict_get r "is_whiff" = Some (VBool true) <->
   exists s, code = VStr s /\ In s ["S"; "T"; "W"]) /\
  (truthy code = true ->
   dict_get r "is_swing" = Some (VBool (py_in_strs code swing_list)) /\
   dict_get r "is_whiff" = Some (VBool (py_in_strs code whiff_list))) /\
  (has_path event ["details"; "code"] = false ->
   dict_get r "is_swing" = Some np_nan /\ dict_get r "is_whiff" = Some np_nan) /\
  (truthy code = false ->
   dict_get r "is_swing" = Some np_nan /\ dict_get r "is_whiff" = Some np_nan).
Proof.
  intros He Hc code.
  destruct (emits_pitch _ _ _ _ _ He Hc) as (count & -> & Hcount).
  assert (forall codes,
            (forall s, In s codes -> s <> EmptyString) ->
            membership_flag code codes = VBool true <->
            exists s, code = VStr s /\ In s codes) as Hflag.
  { intros codes Hne. unfold membership_flag. split.
    - destruct (truthy code); [|discriminate]. intros [= H].
      apply py_in_strs_In, H.
    - intros (s & Hs & Hin). rewrite Hs. simpl.
      destruct (String.eqb_spec s EmptyString);
        [exfalso; eapply Hne; eassumption|].
      simpl. f_equal. f_equal. apply py_in_strs_In. eauto. }
  assert (dict_get
            (event_row play event count
               (if Z.of_nat n =? Z.of_nat (length (events_of play)) - 1
                then leaves play result_fields
                else nan_row (field_names result_fields))) "is_swing"
          = Some (membership_flag code swing_list) /\
          dict_get
            (event_row play event count
               (if Z.of_nat n =? Z.of_nat (length (events_of play)) - 1
                then leaves play result_fields
                else nan_row (field_names result_fields))) "is_whiff"
          = Some (membership_flag code whiff_list) /\
          dict_get
            (event_row play event count
               (if Z.of_nat n =? Z.of_nat (length (events_of play)) - 1
                then leaves play result_fields
                else nan_row (field_names result_fields))) "play_code"
          = Some code) as (Hs & Hw & Hp).
  { destruct n as [|m]; [|destruct Hcount as (prev & _ & Hcount)]; subst count;
      repeat split. }
  rewrite Hs, Hw, Hp. split; [reflexivity|].
  split; [|split; [|split; [|split]]].
  - rewrite <- (Hflag swing_list).
    + split; congruence.
    + intros s Hin ->. simpl in Hin. intuition discriminate.
  - rewrite <- (Hflag whiff_list).
    + split; congruence.
    + intros s Hin ->. simpl in Hin. intuition discriminate.
  - intros Ht. unfold membership_flag. rewrite Ht. split; reflexivity.
  - intros Hno. unfold membership_flag, code.
    rewrite (at_path_missing _ _ Hno). split; reflexivity.
  - intros Hf. unfold membership_flag. rewrite Hf. split; reflexivity.
Qed.

Lemma swing_and_whiff_flags_witness :
  emits at_bat sample_game_data 0 swinging_strike swinging_strike_record /\
  classify swinging_strike = Ok PitchCall /\
  emits sample_play sample_game_data 1 sample_event_1 sample_record_1 /\
  classify sample_event_1 = Ok PitchCall /\
  has_path sample_event_1 ["details"; "code"] = false /\
  dict_get swinging_strike_record "is_swing" = Some (VBool true) /\
  dict_get swinging_strike_record "is_whiff" = Some (VBool true) /\
  dict_get sample_record_1 "is_swing" = Some np_nan /\
  dict_get sample_record_1 "is_whiff" = Some np_nan.
Proof.
  assert (emits at_bat sample_game_data 0 swinging_strike swinging_strike_record)
    as He.
  { unfold emits. do 2 eexists. repeat split; reflexivity. }
  assert (classify swinging_strike = Ok PitchCall) as Hc by reflexivity.
  assert (emits sample_play sample_game_data 1 sample_event_1 sample_record_1)
    as He'.
  { unfold emits. do 2 eexists. repeat split; reflexivity. }
  assert (classify sample_event_1 = Ok PitchCall) as Hc' by reflexivity.
  assert (has_path sample_event_1 ["details"; "code"] = false) as Hno
    by reflexivity.
  repeat (split; [assumption|]).
  destruct (swing_and_whiff_flags _ _ _ _ _ He Hc) as (_ & Hs & Hw & _ & _).
  destruct (swing_and_whiff_flags _ _ _ _ _ He' Hc')
    as (_ & _ & _ & _ & Hn & _).
  split; [apply Hs; exists "S"; split; [reflexivity | simpl; tauto]|].
  split; [apply Hw; exists "S"; split; [reflexivity | simpl; tauto]|].
  exact (Hn Hno).
Defined.

(** C9, counterexample.  The second event of the fixture of the tests is
    a call whose call code is S, a code of both sets, and its details have
    no ["code"] entry: both flags of its record are [np.nan], not [True].
    A pitch whose details have no ["call"] entry at all but whose
    ["code"] is S has both flags [True]. *)
Lemma call_code_does_not_set_the_flags :
  emits sample_play sample_game_data 1 sample_event_1 sample_record_1 /\
  classify sample_event_1 = Ok PitchCall /\
  at_path sample_event_1 ["details"; "call"; "code"] = VStr "S" /\
  In "S" swing_list /\
  In "S" whiff_list /\
  dict_get sample_record_1 "is_swing" = Some np_nan /\
  dict_get sample_record_1 "is_whiff" = Some np_nan /\
  dict_get sample_record_1 "is_swing" <> Some (VBool true) /\
  emits (sample_play_with [pitch_without_call]) sample_game_data 0
    pitch_without_call pitch_without_call_record /\
  classify pitch_without_call = Ok PitchCall /\
  has_path pitch_without_call ["details"; "call"] = false /\
  dict_get pitch_without_call_record "is_swing" = Some (VBool true) /\
  dict_get pitch_without_call_record "is_whiff" = Some (VBool true).
Proof.
  split; [unfold emits; do 2 eexists; repeat split; reflexivity|].
  split; [reflexivity|]. split; [reflexivity|].
  split; [simpl; tauto|]. split; [simpl; tauto|].
  split; [reflexivity|]. split; [reflexivity|]. split; [discriminate|].
  split; [unfold emits; do 2 eexists; repeat split; reflexivity|].
  repeat split; reflexivity.
Qed.

(** ** C10 and C2: the record of a walk by count *)

(** C10. For every play and every event classified as a walk by count,
    the count-before fields of the emitted record equal its count-after
    fields: strikes, balls and outs are all read from the count of the
    walk event itself, at any index and after any preceding event. *)
Theorem walk_count_before_equals_count_after play game_data n event r :
  emits play game_data n event r ->
  classify event = Ok WalkByCount ->
  Forall (fun k =>
            dict_get r k = Some (at_path event ["count"; k]) /\
            dict_get r (String.append k "_after") = dict_get r k)
         ["strikes"; "balls"; "outs"].
Proof.
  intros He Hc. apply (emits_walk _ _ _ _ _ He) in Hc as ->.
  repeat constructor.
Qed.

Lemma walk_count_before_equals_count_after_witness :
  emits strike_then_walk sample_game_data 1 automatic_ball_four
        late_walk_record /\
  classify automatic_ball_four = Ok WalkByCount /\
  dict_get late_walk_record "balls" = Some (VInt 4) /\
  dict_get late_walk_record "balls_after" = Some (VInt 4) /\
  dict_get late_walk_record "strikes" = Some (VInt 0) /\
  dict_get late_walk_record "outs" = Some (VInt 1).
Proof.
  assert (emits strike_then_walk sample_game_data 1 automatic_ball_four
                late_walk_record) as He.
  { unfold emits. do 2 eexists. repeat split; reflexivity. }
  assert (classify automatic_ball_four = Ok WalkByCount) as Hc by reflexivity.
  split; [exact He|]. split; [exact Hc|].
  pose proof (walk_count_before_equals_count_after _ _ _ _ _ He Hc) as H.
  inversion_clear H as [|? ? [Hs _] H'].
  inversion_clear H' as [|? ? [Hb Hb'] H].
  inversion_clear H as [|? ? [Ho _] _].
  split; [exact Hb|]. split; [exact (eq_trans Hb' Hb)|].
  split; [exact Hs | exact Ho].
Defined.

(** C2, as amended.  For every event classified as a walk by count (not
    a pitch, no ["call"] key, ball count equal to 4) the flattener emits
    exactly one record; its count-before fields are read from the count
    of the walk event itself, like its count-after fields; [event] and
    [event_type] are read from the result of the play; and every field of
    the fixed list [remaining_fields], which holds the pitch, hit and
    details fields and the other five at-bat result fields, is [np.nan]. *)
Theorem walk_record_fields play game_data n event r :
  emits play game_data n event r ->
  classify event = Ok WalkByCount ->
  (forall r', emits play game_data n event r' -> r' = r) /\
  (forall out, _extract_play_data play game_data = Ok out -> In r out) /\
  reads r event count_before_fields /\
  reads r event count_after_fields /\
  dict_get r "event" = Some (at_path play ["result"; "event"]) /\
  dict_get r "event_type" = Some (at_path play ["result"; "eventType"]) /\
  Forall (fun f => dict_get r f = Some np_nan) remaining_fields.
Proof.
  intros He Hc. split; [|split].
  - intros r' He'. apply (emits_walk _ _ _ _ _ He') in Hc as E'.
    apply (emits_walk _ _ _ _ _ He) in Hc as E. congruence.
  - intros out Hout. apply (emits_in_output _ _ _ Hout). eauto.
  - apply (emits_walk _ _ _ _ _ He) in Hc as ->.
    split; [apply reads_intro; repeat constructor|].
    split; [apply reads_intro; repeat constructor|].
    split; [reflexivity|]. split; [reflexivity|].
    repeat constructor.
Qed.

Lemma walk_record_fields_witness :
  emits intentional_walk sample_game_data 0 automatic_ball_four walk_record /\
  classify automatic_ball_four = Ok WalkByCount /\
  _extract_play_data intentional_walk sample_game_data = Ok [walk_record] /\
  dict_get walk_record "event" = Some (VStr "Single") /\
  dict_get walk_record "rbi" = Some np_nan /\
  dict_get walk_record "start_speed" = Some np_nan.
Proof.
  assert (emits intentional_walk sample_game_data 0 automatic_ball_four
                walk_record) as He.
  { unfold emits. do 2 eexists. repeat split; reflexivity. }
  assert (classify automatic_ball_four = Ok WalkByCount) as Hc by reflexivity.
  split; [exact He|]. split; [exact Hc|]. split; [reflexivity|].
  destruct (walk_record_fields _ _ _ _ _ He Hc)
    as (_ & _ & _ & _ & Hev & _ & _).
  split; [exact Hev|]. split; reflexivity.
Defined.

(** C2, counterexample.  The count before a walk at index 0 is not zero
    strikes, zero balls and the current outs: it is the count of the walk
    itself (four balls); and of the at-bat result only [event] and
    [event_type] are filled. *)
Lemma walk_count_before_is_not_the_baseline :
  emits intentional_walk sample_game_data 0 automatic_ball_four walk_record /\
  classify automatic_ball_four = Ok WalkByCount /\
  dict_get walk_record "balls" = Some (VInt 4) /\
  dict_get walk_record "balls" <> Some (VInt 0) /\
  at_path intentional_walk ["result"; "type"] = VStr "atBat" /\
  dict_get walk_record "type_ab" = Some np_nan.
Proof.
  split; [unfold emits; do 2 eexists; repeat split; reflexivity|].
  split; [reflexivity|]. split; [reflexivity|].
  split; [discriminate|]. split; reflexivity.
Qed.

(** ** C4 and C5: errors and missing leaves *)

Lemma flattened_data_not_a_mapping game_data :
  mappings_along game_data ["gameData"; "datetime"]
  && mappings_along game_data ["liveData"; "plays"] = false ->
  flattened_data_of game_data = Raise AttributeError.
Proof.
  intros H. unfold flattened_data_of.
  destruct (is_dict game_data) eqn:D;
    [|unfold get; rewrite get_not_dict by assumption; reflexivity].
  rewrite (get_dict _ _ D). simpl.
  destruct (mappings_along game_data ["gameData"; "datetime"]) eqn:H1.
  - simpl in H.
    assert (rget (rget_or (get_or game_data "gameData" empty_dict)
                    "datetime" empty_dict) "officialDate"
            = Ok (at_path game_data ["gameData"; "datetime"; "officialDate"]))
      as ->.
    { descend. run_gets. rewrite !at_path_sub. reflexivity. }
    simpl. rewrite (chain_not_mapping _ _ _ _ _ H). reflexivity.
  - rewrite (chain_not_mapping_get _ _ _ _ H1). reflexivity.
Qed.

(** C4, as amended.  The flatten operation raises an [AttributeError],
    which reaches its caller before the table library is called,
    whenever the document is not a mapping, and also whenever a container
    that is present on the way to the official date (["gameData"],
    ["datetime"]) or to the plays (["liveData"], ["plays"]) is not a
    mapping.  A mapping that lacks the plays container (any of
    ["liveData"], ["plays"], ["allPlays"]) is not an error, provided the
    containers that are present on those two ways are mappings: the
    flattening yields no record, and flatten gives what the table library
    gives for the empty list. *)
Theorem flatten_raises_on_non_mapping game_data :
  (is_dict game_data = false \/
   mappings_along game_data ["gameData"; "datetime"] = false \/
   mappings_along game_data ["liveData"; "plays"] = false ->
   flattened_data_of game_data = Raise AttributeError /\
   _game_to_df game_data = Raise AttributeError) /\
  (mappings_along game_data ["gameData"; "datetime"] = true ->
   mappings_along game_data ["liveData"; "plays"] = true ->
   has_path game_data ["liveData"; "plays"; "allPlays"] = false ->
   flattened_data_of game_data = Ok [] /\
   _game_to_df game_data = pl_DataFrame []).
Proof.
  split.
  - intros H.
    assert (flattened_data_of game_data = Raise AttributeError) as E.
    { apply flattened_data_not_a_mapping.
      destruct (mappings_along game_data ["gameData"; "datetime"]) eqn:H1;
        [|reflexivity].
      destruct (mappings_along game_data ["liveData"; "plays"]) eqn:H2;
        [|reflexivity].
      pose proof (mappings_along_dict _ _ H1) as D.
      destruct H as [H|[H|H]]; congruence. }
    split; [exact E | exact (_game_to_df_flattening_raises _ _ E)].
  - intros H1 H2 H3.
    assert (flattened_data_of game_data = Ok []) as E
      by (apply flattened_data_no_plays; auto).
    split; [exact E | exact (_game_to_df_flattened _ _ E)].
Qed.


(** The fields that both kinds of record read from the play and from
    the event. *)
Lemma record_leaves play game_data n event r :
  emits play game_data n event r ->
  reads r play matchup_fields /\
  reads r play (team_fields (truthy (at_path play ["about"; "isTopInning"]))) /\
  reads r event count_after_fields /\
  reads r event identity_fields.
Proof.
  intros He. destruct (emits_class _ _ _ _ _ He) as [Hc|Hc].
  - destruct (emits_pitch _ _ _ _ _ He Hc) as (count & -> & Hcount).
    destruct n as [|m]; [|destruct Hcount as (prev & _ & Hcount)]; subst count;
      repeat split; apply reads_intro; repeat constructor.
  - apply (emits_walk _ _ _ _ _ He) in Hc as ->.
    repeat split; apply reads_intro; repeat constructor.
Qed.

Lemma pitch_record_leaves play game_data n event r :
  emits play game_data n event r ->
  classify event = Ok PitchCall ->
  reads r event
    (details_fields ++ under "pitchData" pitch_fields
     ++ under "hitData" hit_fields).
Proof.
  intros He Hc.
  destruct (emits_pitch _ _ _ _ _ He Hc) as (count & -> & Hcount).
  destruct n as [|m]; [|destruct Hcount as (prev & _ & Hcount)]; subst count;
    apply reads_intro; repeat constructor.
Qed.

(** C5. For every document that is a mapping whose present containers
    have the expected kind (no key is required), the flattening does not
    raise: it yields the sequence of records, and flatten then gives what
    the table library gives for that sequence, so that no exception of
    flatten comes from a lookup; a document with no plays yields the empty
    sequence; and every leaf of the matchup, the team roster, the count,
    the details, the pitch data, the hit data and the result that is
    absent from the document is [None] in the record that reads it. *)
Theorem flatten_never_raises_on_missing_leaves game_data :
  well_shaped_document game_data = true ->
  (exists flattened_data,
     flattened_data_of game_data = Ok flattened_data /\
     _game_to_df game_data = pl_DataFrame flattened_data) /\
  (has_path game_data ["liveData"; "plays"; "allPlays"] = false \/
   at_path game_data ["liveData"; "plays"; "allPlays"] = VList [] ->
   flattened_data_of game_data = Ok [] /\
   _game_to_df game_data = pl_DataFrame []) /\
  (forall play n event r,
     emits play game_data n event r ->
     reads r play matchup_fields /\
     reads r play (team_fields (truthy (at_path play ["about"; "isTopInning"]))) /\
     reads r event count_after_fields /\
     reads r event identity_fields /\
     (classify event = Ok PitchCall ->
      reads r event
        (details_fields ++ under "pitchData" pitch_fields
         ++ under "hitData" hit_fields) /\
      (S n = length (events_of play) -> reads r play result_fields)) /\
     (classify event = Ok WalkByCount ->
      reads r play [("event", ["result"; "event"]);
                    ("event_type", ["result"; "eventType"])])).
Proof.
  intros Hw. split; [|split].
  - destruct (flattened_data_ok _ Hw) as [flattened_data E].
    exists flattened_data.
    split; [exact E | exact (_game_to_df_flattened _ _ E)].
  - intros Hno. unfold well_shaped_document in Hw.
    apply andb_prop in Hw as [Hw _]. apply andb_prop in Hw as [H1 H2].
    assert (flattened_data_of game_data = Ok []) as E
      by (apply flattened_data_no_plays; assumption).
    split; [exact E | exact (_game_to_df_flattened _ _ E)].
  - intros play n event r He.
    destruct (record_leaves _ _ _ _ _ He) as (Hm & Ht & Hc & Hi).
    repeat (split; [assumption|]). split.
    + intros Hp. split; [exact (pitch_record_leaves _ _ _ _ _ He Hp)|].
      intros Hlast. apply reads_intro.
      destruct (emits_pitch _ _ _ _ _ He Hp) as (count & -> & Hcount).
      destruct (Z.eqb_spec (Z.of_nat n)
                  (Z.of_nat (length (events_of play)) - 1)); [|lia].
      destruct n as [|m]; [|destruct Hcount as (prev & _ & Hcount)];
        subst count; repeat constructor.
    + intros Hwalk. apply (emits_walk _ _ _ _ _ He) in Hwalk as ->.
      apply reads_intro. repeat constructor.
Qed.


(** ** C6: team attribution *)

(** The game document handed down to [_extract_play_data] is never
    read. *)
Lemma extract_event_ignores_game_data play game_data game_data' play_events
    n event :
  extract_event play game_data play_events n event =
  extract_event play game_data' play_events n event.
Proof. reflexivity. Qed.

Lemma _extract_play_data_ignores_game_data play game_data game_data' :
  _extract_play_data play game_data = _extract_play_data play game_data'.
Proof.
  unfold _extract_play_data.
  destruct (get_or play "playEvents" (VList [])) as [play_events|];
    [simpl | reflexivity].
  destruct (py_iter play_events) as [events|]; [simpl | reflexivity].
  generalize (@nil dict). generalize 0%nat.
  induction events as [|event rest IH]; intros n ab_data; [reflexivity|].
  simpl. rewrite (extract_event_ignores_game_data play game_data game_data').
  destruct (extract_event play game_data' play_events n event); simpl;
    [apply IH | reflexivity].
Qed.

(** C6. The team fields are not resolved from the roster of the game
    document: on the fixture of the tests, whose document names NYY
    (away) and BOS (home) and whose play is in the top of the inning, the
    four team fields of both records are [None].  The side is chosen by
    the half-inning flag and an absent roster gives [None] without an
    exception ([_get_team_data_inv], [_get_team_data_ok]), but the roster
    is read under the ["game"] key of the play, which the document does
    not fill. *)
Theorem team_fields_are_not_read_from_the_document :
  at_path sample_game_data ["gameData"; "teams"; "away"; "abbreviation"]
    = VStr "NYY" /\
  at_path sample_game_data ["gameData"; "teams"; "home"; "id"] = VInt 2 /\
  truthy (at_path sample_play ["about"; "isTopInning"]) = true /\
  exists row_0 row_1,
    flattened_data_of sample_game_data = Ok [row_0; row_1] /\
    _game_to_df sample_game_data = pl_DataFrame [row_0; row_1] /\
    Forall (fun row =>
              Forall (fun f => dict_get row f = Some VNone)
                ["batter_team"; "batter_team_id"; "pitcher_team";
                 "pitcher_team_id"])
           [row_0; row_1].
Proof.
  split; [reflexivity|]. split; [reflexivity|]. split; [reflexivity|].
  eexists. eexists. split; [vm_compute; reflexivity|].
  split; [apply _game_to_df_flattened; vm_compute; reflexivity|].
  repeat constructor.
Qed.

(** ** C7: one key space *)

Lemma all_in (l1 l2 : list string) :
  forallb (fun f => existsb (String.eqb f) l2) l1 = true ->
  forall f, In f l1 -> In f l2.
Proof.
  rewrite forallb_forall. intros H f Hf. apply H in Hf.
  apply existsb_exists in Hf as (x & Hx & E).
  apply String.eqb_eq in E. subst x. exact Hx.
Qed.

(** Whatever the document, [ab_number] is a field of the record of a walk
    and of no record of a pitch or call. *)
Lemma ab_number_only_in_walk_records play game_data n event r :
  emits play game_data n event r ->
  (classify event = Ok WalkByCount -> In "ab_number" (keys r)) /\
  (classify event = Ok PitchCall -> ~ In "ab_number" (keys r)).
Proof.
  intros He. split; intros Hc.
  - apply (emits_walk _ _ _ _ _ He) in Hc as ->. vm_compute. tauto.
  - destruct (emits_pitch _ _ _ _ _ He Hc) as (count & -> & Hcount).
    destruct n as [|m]; [|destruct Hcount as (prev & _ & Hcount)]; subst count;
      destruct (_ =? _); vm_compute; intuition discriminate.
Qed.

(** C7. The records of one flatten call do not all carry the same field
    names: on a document with a pitch and a walk, the walk record has the
    field [ab_number], which the pitch record lacks; every field of the
    pitch record is a field of the walk record. *)
Theorem walk_record_has_a_field_of_its_own :
  exists pitch_row walk_row',
    flattened_data_of (sample_game_with [strike_then_walk])
      = Ok [pitch_row; walk_row'] /\
    _game_to_df (sample_game_with [strike_then_walk])
      = pl_DataFrame [pitch_row; walk_row'] /\
    In "ab_number" (keys walk_row') /\
    ~ In "ab_number" (keys pitch_row) /\
    length (keys pitch_row) = 77%nat /\
    length (keys walk_row') = 78%nat /\
    forall f, In f (keys pitch_row) -> In f (keys walk_row').
Proof.
  eexists. eexists. split; [vm_compute; reflexivity|].
  split; [apply _game_to_df_flattened; vm_compute; reflexivity|].
  split; [vm_compute; tauto|].
  split; [vm_compute; intuition discriminate|].
  split; [reflexivity|]. split; [reflexivity|].
  apply all_in. vm_compute. reflexivity.
Qed.

(** ** C8: one failing game *)

Section GamesProperties.

Variable requests_get : string -> result response.

Lemma collect_fold completed : forall game_data printed,
  fold_left collect completed (game_data, printed) =
  (fold_left store (returned completed) game_data,
   printed ++ raised completed).
Proof.
  induction completed as [|[[game_id df]|e] rest IH]; intros game_data printed.
  - simpl. rewrite app_nil_r. reflexivity.
  - simpl. rewrite IH. reflexivity.
  - simpl. rewrite IH, <- app_assoc. reflexivity.
Qed.

Lemma store_fold_dom (l : list (Z * DataFrame)) : forall game_data,
  dom (fold_left store l game_data) = dom game_data ∪ list_to_set (l.*1).
Proof.
  induction l as [|[i df] l IH]; intros game_data; simpl.
  - rewrite (right_id_L ∅ (∪)). reflexivity.
  - rewrite IH. unfold store. simpl. rewrite dom_insert_L.
    rewrite (comm_L (∪) {[i]} (dom game_data)), (assoc_L (∪)). reflexivity.
Qed.

Lemma store_fold_other (l : list (Z * DataFrame)) i : forall game_data,
  i ∉ l.*1 -> fold_left store l game_data !! i = game_data !! i.
Proof.
  induction l as [|[j df] l IH]; intros game_data Hi; simpl; [reflexivity|].
  simpl in Hi. apply not_elem_of_cons in Hi as [Hij Hi].
  rewrite IH by assumption. unfold store. simpl.
  apply lookup_insert_ne. congruence.
Qed.

Lemma store_fold_lookup (l : list (Z * DataFrame)) i df : forall game_data,
  NoDup (l.*1) -> (i, df) ∈ l ->
  fold_left store l game_data !! i = Some df.
Proof.
  induction l as [|[j df'] l IH]; intros game_data Hnd Hin.
  - apply elem_of_nil in Hin as [].
  - simpl in Hnd. apply NoDup_cons in Hnd as [Hj Hnd].
    apply elem_of_cons in Hin as [[= <- <-]|Hin]; simpl.
    + rewrite store_fold_other by assumption. unfold store. simpl.
      apply lookup_insert_eq.
    + apply IH; assumption.
Qed.

Lemma filter_other_id (ids : list Z) k :
  k ∉ ids -> filter (fun i => i <> k) ids = ids.
Proof.
  induction ids as [|i rest IH]; intros Hk; [reflexivity|].
  apply not_elem_of_cons in Hk as [Hki Hk].
  rewrite filter_cons_True by congruence. f_equal. apply IH, Hk.
Qed.

Lemma length_filter_other (ids : list Z) k :
  NoDup ids -> k ∈ ids ->
  length (filter (fun i => i <> k) ids) = (length ids - 1)%nat.
Proof.
  induction ids as [|i rest IH]; intros Hnd Hk.
  - apply elem_of_nil in Hk as [].
  - apply NoDup_cons in Hnd as [Hi Hnd].
    destruct (decide (i = k)) as [->|Hik].
    + rewrite filter_cons_False by tauto.
      rewrite filter_other_id by exact Hi. simpl. lia.
    + rewrite filter_cons_True by exact Hik.
      apply elem_of_cons in Hk as [->|Hk]; [congruence|].
      simpl. rewrite IH by assumption.
      destruct rest; [apply elem_of_nil in Hk as []|]. simpl. lia.
Qed.

Lemma _game_id game_id x :
  _game requests_get game_id = Ok x -> fst x = game_id.
Proof.
  unfold _game. intros H. apply bind_inv in H as (response & _ & H).
  destruct (negb _); [discriminate|].
  apply bind_inv in H as (document & _ & H).
  apply bind_inv in H as (df & _ & [= <-]). reflexivity.
Qed.

Section OneFailure.

Variables (k : Z) (e : exn).
Hypothesis k_fails : _game requests_get k = Raise e.

Lemma returned_ids game_ids :
  (forall i, In i game_ids -> i <> k ->
             is_ok (_game requests_get i) = true) ->
  (returned (submit_all requests_get game_ids)).*1 =
  filter (fun i => i <> k) game_ids.
Proof.
  induction game_ids as [|i rest IH]; intros Hok; [reflexivity|].
  unfold submit_all, returned in *. simpl. rewrite filter_cons.
  destruct (decide (i <> k)) as [Hik|Hik].
  - specialize (Hok i (or_introl eq_refl) Hik) as Hi.
    destruct (_game requests_get i) as [x|] eqn:E; [|discriminate].
    simpl. rewrite (_game_id _ _ E). f_equal.
    apply IH. intros j Hj. apply Hok. right. exact Hj.
  - assert (i = k) as -> by (destruct (decide (i = k)); tauto).
    rewrite k_fails. apply IH. intros j Hj. apply Hok. right. exact Hj.
Qed.

Lemma raised_once game_ids :
  NoDup game_ids -> In k game_ids ->
  (forall i, In i game_ids -> i <> k ->
             is_ok (_game requests_get i) = true) ->
  raised (submit_all requests_get game_ids) = [e].
Proof.
  assert (forall ids, k ∉ ids ->
            (forall i, In i ids -> i <> k ->
                       is_ok (_game requests_get i) = true) ->
            raised (submit_all requests_get ids) = []) as Hnone.
  { induction ids as [|i rest IH]; intros Hk Hok; [reflexivity|].
    apply not_elem_of_cons in Hk as [Hki Hk].
    unfold submit_all, raised in *. simpl.
    assert (i <> k) as Hik by congruence.
    specialize (Hok i (or_introl eq_refl) Hik) as Hi.
    destruct (_game requests_get i); [|discriminate]. simpl.
    apply IH; [exact Hk|]. intros j Hj. apply Hok. right. exact Hj. }
  induction game_ids as [|i rest IH]; intros Hnd Hin Hok; [destruct Hin|].
  apply NoDup_cons in Hnd as [Hi Hnd].
  unfold submit_all, raised in *. simpl.
  destruct (decide (i = k)) as [->|Hik].
  - rewrite k_fails. simpl. f_equal.
    apply Hnone; [exact Hi|]. intros j Hj. apply Hok. right. exact Hj.
  - specialize (Hok i (or_introl eq_refl) Hik) as Hgi.
    destruct (_game requests_get i); [|discriminate]. simpl.
    destruct Hin as [->|Hin]; [congruence|].
    apply IH; [exact Hnd | exact Hin|].
    intros j Hj. apply Hok. right. exact Hj.
Qed.

End OneFailure.

End GamesProperties.

(** C8. For every list of distinct game identifiers of which exactly one,
    [k], fails (the transport raises, the status is not 200, the body is
    not JSON, or the document does not flatten), every run of [games],
    whatever the order in which the futures complete, returns a mapping
    whose keys are exactly the other identifiers, each with its own
    table; the failure of [k] is printed and is not in the mapping; and
    [games] itself returns: it does not raise. *)
Theorem games_isolates_a_failing_game requests_get game_ids k e :
  NoDup game_ids ->
  In k game_ids ->
  _game requests_get k = Raise e ->
  (forall i, In i game_ids -> i <> k -> is_ok (_game requests_get i) = true) ->
  (exists game_data printed, games requests_get game_ids game_data printed) /\
  forall game_data printed,
    games requests_get game_ids game_data printed ->
    dom game_data = list_to_set game_ids ∖ {[k]} /\
    size game_data = (length game_ids - 1)%nat /\
    game_data !! k = None /\
    (forall i df, In i game_ids -> _game requests_get i = Ok (i, df) ->
                  game_data !! i = Some df) /\
    printed = [e].
Proof.
  intros Hnd Hk Hfail Hok. split.
  - eexists. eexists. apply (games_as_completed _ _ (submit_all requests_get game_ids)).
    reflexivity.
  - intros game_data printed Hrun.
    destruct Hrun as [completed Hperm]. unfold collect_all.
    rewrite collect_fold. cbn [fst snd app].
    assert (returned completed ≡ₚ returned (submit_all requests_get game_ids))
      as Hret by (unfold returned; rewrite Hperm; reflexivity).
    assert (raised completed ≡ₚ raised (submit_all requests_get game_ids))
      as Hrai by (unfold raised; rewrite Hperm; reflexivity).
    rewrite (raised_once requests_get k e Hfail game_ids Hnd Hk Hok) in Hrai.
    apply Permutation_singleton_r in Hrai.
    assert ((returned completed).*1 ≡ₚ filter (fun i => i <> k) game_ids)
      as Hids.
    { rewrite Hret. rewrite (returned_ids requests_get k e Hfail game_ids Hok).
      reflexivity. }
    assert (NoDup (filter (fun i => i <> k) game_ids)) as Hnd'
      by (apply NoDup_filter, Hnd).
    assert (dom (fold_left store (returned completed) ∅)
            = list_to_set game_ids ∖ {[k]}) as Hdom.
    { rewrite store_fold_dom, dom_empty_L, (left_id_L ∅ (∪)).
      rewrite Hids. apply set_eq. intros i.
      rewrite elem_of_list_to_set, list_elem_of_filter, elem_of_difference,
        elem_of_list_to_set, elem_of_singleton. tauto. }
    split; [exact Hdom|]. split; [|split; [|split]].
    + rewrite <- size_dom, store_fold_dom, dom_empty_L, (left_id_L ∅ (∪)).
      rewrite Hids, size_list_to_set by exact Hnd'.
      apply length_filter_other; [exact Hnd | apply list_elem_of_In, Hk].
    + apply not_elem_of_dom. rewrite Hdom.
      rewrite elem_of_difference, elem_of_singleton. tauto.
    + intros i df Hi Hgi. apply store_fold_lookup.
      * rewrite Hids. exact Hnd'.
      * rewrite Hret. unfold returned, submit_all.
        apply list_elem_of_omap. exists (Ok (i, df)). split; [|reflexivity].
        rewrite <- Hgi. apply list_elem_of_In, in_map, Hi.
    + exact Hrai.
Qed.


(** * The helpers as total functions: when they return and what they raise *)

Lemma bind_raise_inv {A B} (c : result A) (k : A -> result B) e :
  bind c k = Raise e -> c = Raise e \/ exists a, c = Ok a /\ k a = Raise e.
Proof. destruct c as [a|e']; simpl; [eauto | intros [= ->]; auto]. Qed.

Lemma get_or_raise v k dflt e : get_or v k dflt = Raise e -> e = AttributeError.
Proof. unfold get_or. destruct v; congruence. Qed.

Lemma eval_items_raise items e :
  eval_items items = Raise e ->
  Exists (fun it => match it with
                    | Field _ c => c = Raise e
                    | Splat c => c = Raise e
                    end) items.
Proof.
  induction items as [|[k c|c] rest IH]; intros H; [discriminate| |].
  - change (eval_items (Field k c :: rest))
      with (let* v := c in let* rows := eval_items rest in
            Ok ([(k, v)] :: rows)) in H.
    apply bind_raise_inv in H as [H|(v & _ & H)]; [left; exact H|].
    apply bind_raise_inv in H as [H|(rows & _ & H)]; [|discriminate].
    right. apply IH, H.
  - change (eval_items (Splat c :: rest))
      with (let* r := c in let* rows := eval_items rest in Ok (r :: rows)) in H.
    apply bind_raise_inv in H as [H|(v & _ & H)]; [left; exact H|].
    apply bind_raise_inv in H as [H|(rows & _ & H)]; [|discriminate].
    right. apply IH, H.
Qed.

(** A display raises what one of its items raises. *)
Lemma dict_display_raise items e :
  dict_display items = Raise e ->
  Exists (fun it => match it with
                    | Field _ c => c = Raise e
                    | Splat c => c = Raise e
                    end) items.
Proof.
  unfold dict_display. rewrite dict_display_from_rows. intros H.
  apply bind_raise_inv in H as [H|(rows & _ & H)]; [|discriminate].
  apply eval_items_raise, H.
Qed.

(** A chain of [get] raises an [AttributeError] only. *)
Ltac attribute_error H :=
  unfold rget, rget_or, get in H;
  repeat match type of H with
  | bind _ _ = Raise _ =>
      apply bind_raise_inv in H as [H|(? & _ & H)]
  end;
  try (eapply get_or_raise, H).

(** One case for each item of a display that raises. *)
Ltac display_raises H :=
  apply dict_display_raise in H;
  repeat match type of H with
  | Exists _ (_ :: _) => apply Exists_cons in H as [H|H]
  | Exists _ [] => apply Exists_nil in H; destruct H
  end.

Lemma mappings_along_cons v k p :
  is_dict v = true -> mappings_along (sub v k) p = true ->
  mappings_along v (k :: p) = true.
Proof.
  destruct v as [| | | | | |d]; try discriminate. intros _.
  unfold sub, mappings_along. simpl. destruct (dict_get d k); [tauto|reflexivity].
Qed.

Lemma mappings_along_nil v : is_dict v = true -> mappings_along v [] = true.
Proof. intros H. exact H. Qed.

(** Assemble [mappings_along] from the mappings met on the way. *)
Ltac along :=
  repeat (apply mappings_along_cons; [assumption|]);
  apply mappings_along_nil; assumption.

(** Chains of more than two containers. *)
Ltac as_paths_deep :=
  repeat first
    [ progress as_paths
    | match goal with
      | E : bind _ _ = Ok _ |- _ => apply bind_inv in E as (? & ? & E)
      end ].

Lemma _get_pitch_data_shape pitch_data r :
  _get_pitch_data pitch_data = Ok r ->
  mappings_along pitch_data ["coordinates"] = true /\
  mappings_along pitch_data ["breaks"] = true.
Proof.
  unfold _get_pitch_data. intros H. peel H. as_paths. split; along.
Qed.

Lemma _get_pitch_data_raises pitch_data e :
  _get_pitch_data pitch_data = Raise e -> e = AttributeError.
Proof.
  unfold _get_pitch_data. intros E.
  apply bind_raise_inv in E as [E|(coordinates & _ & E)];
    [eapply get_or_raise, E|].
  apply bind_raise_inv in E as [E|(breaks & _ & E)];
    [eapply get_or_raise, E|].
  display_raises E; attribute_error E.
Qed.

Lemma _get_hit_data_shape hit_data r :
  _get_hit_data hit_data = Ok r ->
  mappings_along hit_data ["coordinates"] = true.
Proof.
  unfold _get_hit_data. intros H. peel H. as_paths. along.
Qed.

Lemma _get_hit_data_raises hit_data e :
  _get_hit_data hit_data = Raise e -> e = AttributeError.
Proof.
  unfold _get_hit_data. intros E.
  apply bind_raise_inv in E as [E|(coordinates & _ & E)];
    [eapply get_or_raise, E|].
  display_raises E; attribute_error E.
Qed.

Lemma _get_ab_result_raises play n last e :
  _get_ab_result play n last = Raise e -> e = AttributeError.
Proof.
  unfold _get_ab_result. intros E.
  apply bind_raise_inv in E as [E|(result & _ & E)];
    [eapply get_or_raise, E|].
  destruct (n =? last); display_raises E; try discriminate E;
    attribute_error E.
Qed.

Lemma _get_team_data_shape about play r :
  _get_team_data about play = Ok r ->
  is_dict about = true /\
  mappings_along play ["game"; "gameData"; "teams"; "away"] = true /\
  mappings_along play ["game"; "gameData"; "teams"; "home"] = true.
Proof.
  unfold _get_team_data. intros H. peel H. as_paths.
  destruct (truthy (at_path about ["isTopInning"]));
    (split; [assumption|]); split; along.
Qed.

Lemma _get_team_data_raises about play e :
  _get_team_data about play = Raise e -> e = AttributeError.
Proof.
  unfold _get_team_data. intros E.
  apply bind_raise_inv in E as [E|(game_data & _ & E)];
    [attribute_error E|].
  apply bind_raise_inv in E as [E|(is_top_inning & _ & E)];
    [attribute_error E|].
  display_raises E; attribute_error E.
Qed.

(** X1. [_get_pitch_data] returns exactly when [pitch_data] is a mapping
    whose ["coordinates"] and ["breaks"] are mappings or absent; it then
    returns its 28 fields, each the value found in [pitch_data] as it is,
    or [None] when the leaf is absent; otherwise it raises an
    [AttributeError]. *)
Theorem pitch_data_passes_through pitch_data :
  _get_pitch_data pitch_data =
  if mappings_along pitch_data ["coordinates"]
     && mappings_along pitch_data ["breaks"]
  then Ok (leaves pitch_data pitch_fields)
  else Raise AttributeError.
Proof.
  destruct (_get_pitch_data pitch_data) as [r|e] eqn:E.
  - destruct (_get_pitch_data_shape _ _ E) as [-> ->].
    apply _get_pitch_data_inv in E as ->. reflexivity.
  - apply _get_pitch_data_raises in E as Hkind. subst e.
    destruct (mappings_along pitch_data ["coordinates"]) eqn:Hc;
      [|reflexivity].
    destruct (mappings_along pitch_data ["breaks"]) eqn:Hb; [|reflexivity].
    rewrite (_get_pitch_data_ok _ Hc Hb) in E. discriminate E.
Qed.

(** X2. [_get_hit_data] returns exactly when [hit_data] is a mapping
    whose ["coordinates"] is a mapping or absent; it then returns its 8
    fields, each the value found in [hit_data] as it is, or [None] when
    the leaf is absent; otherwise it raises an [AttributeError]. *)
Theorem hit_data_passes_through hit_data :
  _get_hit_data hit_data =
  if mappings_along hit_data ["coordinates"]
  then Ok (leaves hit_data hit_fields)
  else Raise AttributeError.
Proof.
  destruct (_get_hit_data hit_data) as [r|e] eqn:E.
  - rewrite (_get_hit_data_shape _ _ E).
    apply _get_hit_data_inv in E as ->. reflexivity.
  - apply _get_hit_data_raises in E as Hkind. subst e.
    destruct (mappings_along hit_data ["coordinates"]) eqn:Hc; [|reflexivity].
    rewrite (_get_hit_data_ok _ Hc) in E. discriminate E.
Qed.

(** X3. [_get_ab_result] reads the result of the play only for the last
    event: at any other index it returns the seven fields as [np.nan]
    whenever the play is a mapping, whatever its ["result"] holds; at the
    last index it returns the seven leaves of the result ([None] for an
    absent one) when the result is a mapping or absent, and raises an
    [AttributeError] otherwise. *)
Theorem ab_result_reads_the_result_on_the_last_event_only play n last :
  _get_ab_result play n last =
  if is_dict play then
    if n =? last then
      if mappings_along play ["result"]
      then Ok (leaves play result_fields)
      else Raise AttributeError
    else Ok (nan_row (field_names result_fields))
  else Raise AttributeError.
Proof.
  destruct (is_dict play) eqn:Dp.
  - destruct (n =? last) eqn:En.
    + destruct (mappings_along play ["result"]) eqn:Hr.
      * rewrite _get_ab_result_ok, En by assumption. reflexivity.
      * destruct (_get_ab_result play n last) as [r|e] eqn:E.
        -- exfalso. unfold _get_ab_result in E. peel E. rewrite En in E.
           peel E. as_paths.
           assert (mappings_along play ["result"] = true) as H by along.
           congruence.
        -- f_equal. eapply _get_ab_result_raises, E.
    + unfold _get_ab_result. rewrite container_dict by assumption. simpl.
      rewrite En. run_display.
  - unfold _get_ab_result. rewrite get_not_dict by assumption. reflexivity.
Qed.

(** X4. [_get_team_data] returns exactly when [about] is a mapping and the
    roster chain [play["game"]["gameData"]["teams"]] with both its
    ["away"] and ["home"] entries consists of mappings or absent keys;
    otherwise it raises an [AttributeError].  The batter's team is read on
    the away side and the pitcher's on the home side when the
    ["isTopInning"] flag of [about] is truthy, and the other way round
    when it is falsy; an absent flag counts as falsy, so the batter is
    then on the home side. *)
Theorem team_data_sides about play :
  _get_team_data about play =
  (if is_dict about
      && mappings_along play ["game"; "gameData"; "teams"; "away"]
      && mappings_along play ["game"; "gameData"; "teams"; "home"]
   then Ok (leaves play (team_fields (truthy (at_path about ["isTopInning"]))))
   else Raise AttributeError) /\
  (has_path about ["isTopInning"] = false ->
   team_fields (truthy (at_path about ["isTopInning"])) = team_fields false).
Proof.
  split.
  - destruct (_get_team_data about play) as [r|e] eqn:E.
    + destruct (_get_team_data_shape _ _ _ E) as (-> & -> & ->).
      apply _get_team_data_inv in E as ->. reflexivity.
    + apply _get_team_data_raises in E as Hkind. subst e.
      destruct (is_dict about) eqn:Da; [|reflexivity].
      destruct (mappings_along play ["game"; "gameData"; "teams"; "away"])
        eqn:Haway; [|reflexivity].
      destruct (mappings_along play ["game"; "gameData"; "teams"; "home"])
        eqn:Hhome; [|reflexivity].
      rewrite (_get_team_data_ok _ _ Da Haway Hhome) in E. discriminate E.
  - intros H. rewrite (at_path_missing _ _ H). reflexivity.
Qed.

Lemma team_data_sides_witness :
  has_path (VDict []) ["isTopInning"] = false /\
  team_fields (truthy (at_path (VDict []) ["isTopInning"])) = team_fields false.
Proof.
  split; [reflexivity|].
  apply (proj2 (team_data_sides (VDict []) sample_play)). reflexivity.
Defined.

(** X5. [_get_count_data] indexes the events of the play: called with an
    index [n >= 1] for which the play has no event at [n - 1] (also when
    the play has no ["playEvents"] at all), it raises an [IndexError]. *)
Theorem count_data_needs_the_previous_event play event events m :
  is_dict play = true ->
  is_dict event = true ->
  sub_list play "playEvents" = VList events ->
  (length events <= m)%nat ->
  _get_count_data play event (S m) = Raise IndexError.
Proof.
  intros Dp De Hpe Hm. unfold _get_count_data.
  rewrite get_or_list_dict, Hpe by assumption. simpl.
  rewrite container_dict by assumption. simpl.
  unfold rget_or, py_index.
  rewrite (proj2 (nth_error_None events m) Hm). reflexivity.
Qed.

Lemma count_data_needs_the_previous_event_witness :
  is_dict (VDict []) = true /\
  is_dict sample_event_0 = true /\
  sub_list (VDict []) "playEvents" = VList [] /\
  (length (@nil value) <= 0)%nat /\
  _get_count_data (VDict []) sample_event_0 1 = Raise IndexError.
Proof.
  split; [reflexivity|]. split; [reflexivity|]. split; [reflexivity|].
  split; [simpl; lia|].
  apply (count_data_needs_the_previous_event (VDict []) sample_event_0 [] 0);
    [reflexivity | reflexivity | reflexivity | simpl; lia].
Defined.

(** * The order of the records *)

Lemma imap_shift {A B} (F : nat -> A -> B) n x l :
  imap (fun i a => F (n + i)%nat a) (x :: l)
  = F n x :: imap (fun i a => F (S n + i)%nat a) l.
Proof.
  rewrite imap_cons, Nat.add_0_r. f_equal. apply imap_ext.
  intros i a _. simpl. rewrite Nat.add_succ_r. reflexivity.
Qed.

Lemma for_events_records play game_data play_events events :
  forall n ab_data out,
    for_events play game_data play_events n events ab_data = Ok out ->
    out = ab_data ++
          omap id (imap (fun i event =>
                           match extract_event play game_data play_events
                                   (n + i) event with
                           | Ok o => o
                           | Raise _ => None
                           end) events).
Proof.
  induction events as [|event rest IH]; intros n ab_data out H.
  - injection H as <-. simpl. rewrite app_nil_r. reflexivity.
  - simpl in H. apply bind_inv in H as (o & E & H). apply IH in H as ->.
    pose (F := fun k event0 =>
                 match extract_event play game_data play_events k event0 with
                 | Ok o0 => o0
                 | Raise _ => None
                 end).
    change (match o with
            | Some event_data => ab_data ++ [event_data]
            | None => ab_data
            end ++ omap id (imap (fun i e0 => F (S n + i)%nat e0) rest)
            = ab_data
              ++ omap id (imap (fun i e0 => F (n + i)%nat e0) (event :: rest))).
    rewrite (imap_shift F n event rest).
    assert (F n event = o) as -> by (unfold F; rewrite E; reflexivity).
    destruct o as [r|]; simpl; [rewrite <- app_assoc|]; reflexivity.
Qed.

(** The events that a successful loop has iterated over are the items of
    the ["playEvents"] list of the play. *)
Lemma iterated_events play play_events events :
  get_or play "playEvents" (VList []) = Ok play_events ->
  py_iter play_events = Ok events ->
  (forall i event, nth_error events i = Some event ->
     exists c, classify event = Ok c) ->
  events = events_of play /\ (events = [] \/ play_events = VList events).
Proof.
  intros Hpe Hit Hc.
  assert (sub_list play "playEvents" = play_events) as Hs.
  { apply get_or_inv in Hpe as (d & -> & ->). reflexivity. }
  destruct events as [|event rest].
  - split; [|left; reflexivity]. unfold events_of. rewrite Hs.
    destruct play_events as [| | | |s|l|d]; try reflexivity.
    injection Hit as ->. reflexivity.
  - destruct (Hc 0%nat event eq_refl) as [c Hclass].
    pose proof (classified_events _ _ 0%nat _ _ Hit eq_refl Hclass) as ->.
    split; [|right; reflexivity]. unfold events_of. rewrite Hs. reflexivity.
Qed.

Lemma _extract_play_data_records play game_data out :
  _extract_play_data play game_data = Ok out ->
  out = play_records play game_data.
Proof.
  intros H. pose proof H as H'.
  apply _extract_play_data_inv in H' as (pe & events & Hpe & Hit & H1 & _).
  unfold _extract_play_data in H. rewrite Hpe in H. simpl in H.
  rewrite Hit in H. simpl in H.
  apply for_events_records in H as ->. simpl.
  destruct (iterated_events play pe events Hpe Hit) as [Hev Hlist].
  { intros i event Hi. destruct (H1 i event Hi) as (o & Ho & _).
    unfold extract_event in Ho. apply bind_inv in Ho as (c & Hc & _). eauto. }
  unfold play_records. destruct Hlist as [Hnil|Hlist].
  - rewrite <- Hev, Hnil. cbn [imap omap]. reflexivity.
  - rewrite Hlist, Hev. unfold emitted. reflexivity.
Qed.

Lemma length_omap_id {A} (l : list (option A)) :
  (length (omap id l) <= length l)%nat.
Proof.
  induction l as [|[a|] l IH]; [reflexivity| |].
  - change (omap id (Some a :: l)) with (a :: omap id l). simpl. lia.
  - change (omap id (None :: l)) with (omap id l). simpl. lia.
Qed.

(** X6. The records that [_extract_play_data] returns are the records of
    the events of the play in the order of the events: one for each event
    that is a pitch, a call or a walk by count, none for any other event;
    so there are at most as many records as events. *)
Theorem play_records_in_event_order play game_data out :
  _extract_play_data play game_data = Ok out ->
  out = omap id (imap (emitted play game_data) (events_of play)) /\
  (length out <= length (events_of play))%nat.
Proof.
  intros H. apply _extract_play_data_records in H as ->. split; [reflexivity|].
  unfold play_records.
  etransitivity; [apply length_omap_id|]. rewrite length_imap. reflexivity.
Qed.

Lemma play_records_in_event_order_witness :
  _extract_play_data at_bat sample_game_data
    = Ok [swinging_strike_record; ball_in_play_record] /\
  [swinging_strike_record; ball_in_play_record]
    = omap id (imap (emitted at_bat sample_game_data) (events_of at_bat)) /\
  (length [swinging_strike_record; ball_in_play_record]
   <= length (events_of at_bat))%nat.
Proof.
  split; [vm_compute; reflexivity|].
  apply (play_records_in_event_order at_bat sample_game_data).
  vm_compute. reflexivity.
Defined.

Lemma for_plays_rows game_data game_id game_date plays : forall out,
  for_plays game_data game_id game_date plays = Ok out ->
  out = concat (List.map (fun play =>
                            List.map (with_game game_id game_date)
                              (play_records play game_data)) plays).
Proof.
  induction plays as [|play rest IH]; intros out H.
  - injection H as <-. reflexivity.
  - simpl in H. apply bind_inv in H as (ab_data & E & H).
    apply bind_inv in H as (more & E' & [= <-]).
    apply _extract_play_data_records in E as ->.
    rewrite (IH more E'). reflexivity.
Qed.

(** The plays that a successful flattening has iterated over are the
    items of the ["allPlays"] list of the document. *)
Lemma iterated_plays game_data all_plays plays out game_id game_date :
  get_or (sub (sub game_data "liveData") "plays") "allPlays" (VList [])
    = Ok all_plays ->
  py_iter all_plays = Ok plays ->
  for_plays game_data game_id game_date plays = Ok out ->
  plays = plays_of game_data.
Proof.
  intros Hall Hit Hfor.
  apply get_or_inv in Hall as (d & Ed & ->).
  assert (at_path game_data ["liveData"; "plays"; "allPlays"]
          = match dict_get d "allPlays" with Some v => v | None => VNone end)
    as Hat.
  { rewrite <- !at_path_sub, Ed. reflexivity. }
  unfold plays_of. rewrite Hat.
  assert (forall play, In play plays -> is_dict play = true) as Hdict.
  { intros play Hp. clear -Hfor Hp. revert out Hfor.
    induction plays as [|p rest IH]; intros out Hfor; [destruct Hp|].
    simpl in Hfor. apply bind_inv in Hfor as (ab & E & Hfor).
    apply bind_inv in Hfor as (more & E' & _).
    destruct Hp as [->|Hp]; [|exact (IH Hp _ E')].
    unfold _extract_play_data in E. apply bind_inv in E as (pe & Epe & _).
    apply get_or_inv in Epe as (d & -> & _). reflexivity. }
  destruct (dict_get d "allPlays") as [[| | | |s|l|d']|]; simpl in Hit;
    try discriminate; injection Hit as <-; try reflexivity.
  - destruct s as [|a s]; [reflexivity|].
    specialize (Hdict _ (or_introl eq_refl)). discriminate.
  - destruct d' as [|[k v] d']; [reflexivity|].
    specialize (Hdict _ (or_introl eq_refl)). discriminate.
Qed.

(** X7. The records from which [_game_to_df] builds its table, the list
    that it hands to [pl.DataFrame], are the records of the plays of the
    document, play after play in the order of ["allPlays"] and, within a
    play, in the order of its events, each with the [game_id] and the
    [game_date] of the document added. *)
Theorem table_rows_in_document_order game_data flattened_data :
  flattened_data_of game_data = Ok flattened_data ->
  flattened_data =
  concat
    (List.map
       (fun play =>
          List.map
            (with_game (at_path game_data ["gamePk"])
               (at_path game_data ["gameData"; "datetime"; "officialDate"]))
            (omap id (imap (emitted play game_data) (events_of play))))
       (plays_of game_data)).
Proof.
  unfold flattened_data_of. intros H.
  apply bind_inv in H as (game_id & E1 & H).
  apply bind_inv in H as (game_date & E2 & H).
  apply bind_inv in H as (all_plays & E3 & H).
  apply bind_inv in H as (plays & E4 & E5).
  unfold rget_or in E3.
  apply bind_inv in E3 as (c & E3 & E6).
  apply bind_inv in E3 as (c' & E3 & E7). as_paths.
  rewrite !at_path_sub in E5.
  rewrite (iterated_plays _ _ _ _ _ _ E6 E4 E5) in E5.
  apply for_plays_rows in E5 as ->. reflexivity.
Qed.

Lemma table_rows_in_document_order_witness :
  flattened_data_of (sample_game_with [sample_play; at_bat])
    = Ok (records_of (sample_game_with [sample_play; at_bat])) /\
  records_of (sample_game_with [sample_play; at_bat]) =
  concat
    (List.map
       (fun play =>
          List.map
            (with_game (VInt 12345) (VStr "2023-07-01"))
            (omap id (imap (emitted play (sample_game_with [sample_play; at_bat]))
                        (events_of play))))
       [sample_play; at_bat]).
Proof.
  split; [vm_compute; reflexivity|].
  apply (table_rows_in_document_order (sample_game_with [sample_play; at_bat])).
  vm_compute. reflexivity.
Defined.

(** * The columns of the records and of the rows *)

Lemma emits_columns play game_data n event r :
  emits play game_data n event r ->
  (classify event = Ok PitchCall /\ keys r = pitch_columns) \/
  (classify event = Ok WalkByCount /\ keys r = walk_columns).
Proof.
  intros He. destruct (emits_class _ _ _ _ _ He) as [Hc|Hc]; [left|right];
    (split; [exact Hc|]).
  - destruct (emits_pitch _ _ _ _ _ He Hc) as (count & -> & Hcount).
    destruct n as [|m]; [|destruct Hcount as (prev & _ & Hcount)]; subst count;
      destruct (_ =? _); vm_compute; reflexivity.
  - apply (emits_walk _ _ _ _ _ He) in Hc as ->. vm_compute. reflexivity.
Qed.

(** X8. The field names of a record do not depend on the document: every
    record of a pitch or call has the same 75 fields in the same order,
    and every record of a walk by count has the same 76 fields in the same
    order; no name occurs twice in a record; the fields of a walk record
    are those of a pitch record and [ab_number], in another order. *)
Theorem record_columns_are_fixed play game_data n event r :
  emits play game_data n event r ->
  ((classify event = Ok PitchCall /\ keys r = pitch_columns) \/
   (classify event = Ok WalkByCount /\ keys r = walk_columns)) /\
  NoDup (keys r) /\
  length pitch_columns = 75%nat /\
  length walk_columns = 76%nat /\
  walk_columns ≡ₚ "ab_number" :: pitch_columns.
Proof.
  intros He. split; [exact (emits_columns _ _ _ _ _ He)|].
  split; [exact (emits_keys _ _ _ _ _ He)|].
  split; [reflexivity|]. split; [reflexivity|].
  apply NoDup_Permutation.
  - apply distinct_NoDup. vm_compute. reflexivity.
  - apply distinct_NoDup. vm_compute. reflexivity.
  - intros f. rewrite !list_elem_of_In.
    split; apply all_in; vm_compute; reflexivity.
Qed.

Lemma record_columns_are_fixed_witness :
  emits strike_then_walk sample_game_data 1 automatic_ball_four late_walk_record
  /\ keys late_walk_record = walk_columns
  /\ NoDup (keys late_walk_record).
Proof.
  assert (emits strike_then_walk sample_game_data 1 automatic_ball_four
            late_walk_record) as He.
  { unfold emits. do 2 eexists. repeat split; reflexivity. }
  split; [exact He|].
  destruct (record_columns_are_fixed _ _ _ _ _ He)
    as ([[Hc _]|[_ Hk]] & Hnd & _).
  - discriminate Hc.
  - split; [exact Hk | exact Hnd].
Defined.

(** ** The game fields *)

Lemma dict_set_new d k v : ~ In k (keys d) -> dict_set d k v = d ++ [(k, v)].
Proof.
  induction d as [|[k0 v0] d IH]; intros Hk; [reflexivity|].
  change (dict_set ((k0, v0) :: d) k v)
    with (if String.eqb k0 k then (k0, v) :: d
          else (k0, v0) :: dict_set d k v).
  destruct (String.eqb_spec k0 k) as [->|_].
  - exfalso. apply Hk. left. reflexivity.
  - rewrite IH; [reflexivity|]. intros Hin. apply Hk. right. exact Hin.
Qed.

Lemma dict_update_new r : forall d,
  NoDup (keys r) ->
  (forall k, In k (keys r) -> ~ In k (keys d)) ->
  dict_update d r = d ++ r.
Proof.
  induction r as [|[k v] r IH]; intros d Hnd Hnew.
  - unfold dict_update. simpl. rewrite app_nil_r. reflexivity.
  - change (dict_update d ((k, v) :: r)) with (dict_update (dict_set d k v) r).
    cbn [keys List.map fst] in Hnd. apply NoDup_cons in Hnd as [Hk Hnd].
    rewrite dict_set_new by (apply Hnew; left; reflexivity).
    rewrite IH; [rewrite <- app_assoc; reflexivity | exact Hnd |].
    intros k' Hk' Hin. unfold keys in Hin. rewrite List.map_app in Hin.
    apply in_app_or in Hin as [Hin|[<-|[]]].
    + apply (Hnew k' (or_intror Hk')). exact Hin.
    + apply Hk, list_elem_of_In. exact Hk'.
Qed.

(** Adding the game fields to a record that has neither of them appends
    them. *)
Lemma with_game_appends game_id game_date r :
  NoDup (keys r) ->
  ~ In "game_id" (keys r) -> ~ In "game_date" (keys r) ->
  with_game game_id game_date r
  = r ++ [("game_id", game_id); ("game_date", game_date)].
Proof.
  intros Hnd Hid Hdate. unfold with_game.
  rewrite dict_update_new; [|exact Hnd | intros k _ []].
  change ([] ++ r) with r.
  rewrite (dict_set_new r) by exact Hid.
  rewrite dict_set_new; [rewrite <- app_assoc; reflexivity|].
  unfold keys. rewrite List.map_app. intros Hin.
  apply in_app_or in Hin as [Hin|[Hin|[]]]; [exact (Hdate Hin) | discriminate Hin].
Qed.

Lemma emits_no_game_fields play game_data n event r :
  emits play game_data n event r ->
  ~ In "game_id" (keys r) /\ ~ In "game_date" (keys r).
Proof.
  intros He.
  destruct (emits_columns _ _ _ _ _ He) as [[_ ->]|[_ ->]];
    split; intros Hin; vm_compute in Hin; intuition discriminate.
Qed.

(** X9. Every record that [_game_to_df] hands to [pl.DataFrame] is the
    record of an event of a play of the document, unchanged, followed by
    the two game fields: [game_id], the ["gamePk"] of the document, and
    [game_date], its official date ([None] for either one when it is
    absent).  In each of these records the game fields are the last two
    entries, and they overwrite no field of the event's record.  (What
    columns the table of the library then has is the library's affair.) *)
Theorem rows_end_with_the_game_fields game_data flattened_data row :
  flattened_data_of game_data = Ok flattened_data ->
  In row flattened_data ->
  exists play n event r,
    In play (plays_of game_data) /\
    emits play game_data n event r /\
    row = r ++ [ ("game_id", at_path game_data ["gamePk"]);
                 ("game_date",
                  at_path game_data ["gameData"; "datetime"; "officialDate"]) ].
Proof.
  intros H Hrow.
  apply (flattened_data_rows _ _ H) in Hrow
    as (play & n & event & r & Hp & He & ->).
  exists play, n, event, r. split; [exact Hp|]. split; [exact He|].
  destruct (emits_no_game_fields _ _ _ _ _ He) as [Hid Hdate].
  apply with_game_appends; [|exact Hid | exact Hdate].
  exact (emits_keys _ _ _ _ _ He).
Qed.

Lemma rows_end_with_the_game_fields_witness :
  flattened_data_of sample_game_data = Ok (records_of sample_game_data) /\
  In (sample_record_1 ++ game_fields sample_game_data)
     (records_of sample_game_data) /\
  exists play n event r,
    In play (plays_of sample_game_data) /\
    emits play sample_game_data n event r /\
    sample_record_1 ++ game_fields sample_game_data
    = r ++ [ ("game_id", at_path sample_game_data ["gamePk"]);
             ("game_date",
              at_path sample_game_data
                ["gameData"; "datetime"; "officialDate"]) ].
Proof.
  assert (flattened_data_of sample_game_data = Ok (records_of sample_game_data))
    as H by (vm_compute; reflexivity).
  assert (In (sample_record_1 ++ game_fields sample_game_data)
            (records_of sample_game_data)) as Hin
    by (vm_compute; right; left; reflexivity).
  split; [exact H|]. split; [exact Hin|].
  exact (rows_end_with_the_game_fields sample_game_data _ _ H Hin).
Defined.

(** * What the flattener reads of the document *)

Lemma for_plays_ignores_game_data game_data game_data' game_id game_date plays :
  for_plays game_data game_id game_date plays =
  for_plays game_data' game_id game_date plays.
Proof.
  induction plays as [|play rest IH]; [reflexivity|].
  simpl. rewrite (_extract_play_data_ignores_game_data play game_data game_data'), IH.
  reflexivity.
Qed.

Lemma sub_list_eq v v' k :
  is_dict v = true -> is_dict v' = true ->
  has_path v [k] = has_path v' [k] ->
  at_path v [k] = at_path v' [k] ->
  sub_list v k = sub_list v' k.
Proof.
  destruct v as [| | | | | |d]; try discriminate.
  destruct v' as [| | | | | |d']; try discriminate. intros _ _.
  unfold has_path, at_path, sub_list.
  destruct (dict_get d k), (dict_get d' k); simpl; congruence.
Qed.

Lemma flattened_data_reads_three_places game_data game_data' :
  mappings_along game_data ["gameData"; "datetime"] = true ->
  mappings_along game_data' ["gameData"; "datetime"] = true ->
  mappings_along game_data ["liveData"; "plays"] = true ->
  mappings_along game_data' ["liveData"; "plays"] = true ->
  at_path game_data ["gamePk"] = at_path game_data' ["gamePk"] ->
  at_path game_data ["gameData"; "datetime"; "officialDate"]
    = at_path game_data' ["gameData"; "datetime"; "officialDate"] ->
  has_path game_data ["liveData"; "plays"; "allPlays"]
    = has_path game_data' ["liveData"; "plays"; "allPlays"] ->
  at_path game_data ["liveData"; "plays"; "allPlays"]
    = at_path game_data' ["liveData"; "plays"; "allPlays"] ->
  flattened_data_of game_data = flattened_data_of game_data'.
Proof.
  intros H1 H1' H2 H2' Hpk Hdate Hhas Hat. descend.
  unfold flattened_data_of. run_gets.
  rewrite !get_or_list_dict by assumption.
  rewrite !at_path_sub, Hpk, Hdate.
  rewrite <- !has_path_sub in Hhas. rewrite <- !at_path_sub in Hat.
  rewrite (sub_list_eq (sub (sub game_data "liveData") "plays")
             (sub (sub game_data' "liveData") "plays") "allPlays")
    by assumption.
  simpl. destruct (py_iter _) as [plays|e]; [simpl | reflexivity].
  apply for_plays_ignores_game_data.
Qed.

(** X10. Of the whole document, [_game_to_df] reads three places only: the
    ["gamePk"], the official date and the ["allPlays"] list.  Two
    documents whose ["gameData"]["datetime"] and ["liveData"]["plays"]
    chains consist of mappings or absent keys, and that agree on these
    three places, have the same outcome: the same records handed to the
    table library and so the same table, or the same exception, whatever
    else they hold (the roster of the teams included). *)
Theorem flatten_reads_three_places game_data game_data' :
  mappings_along game_data ["gameData"; "datetime"] = true ->
  mappings_along game_data' ["gameData"; "datetime"] = true ->
  mappings_along game_data ["liveData"; "plays"] = true ->
  mappings_along game_data' ["liveData"; "plays"] = true ->
  at_path game_data ["gamePk"] = at_path game_data' ["gamePk"] ->
  at_path game_data ["gameData"; "datetime"; "officialDate"]
    = at_path game_data' ["gameData"; "datetime"; "officialDate"] ->
  has_path game_data ["liveData"; "plays"; "allPlays"]
    = has_path game_data' ["liveData"; "plays"; "allPlays"] ->
  at_path game_data ["liveData"; "plays"; "allPlays"]
    = at_path game_data' ["liveData"; "plays"; "allPlays"] ->
  flattened_data_of game_data = flattened_data_of game_data' /\
  _game_to_df game_data = _game_to_df game_data'.
Proof.
  intros H1 H1' H2 H2' Hpk Hdate Hhas Hat.
  assert (flattened_data_of game_data = flattened_data_of game_data') as E
    by (apply flattened_data_reads_three_places; assumption).
  split; [exact E|]. unfold _game_to_df. rewrite E. reflexivity.
Qed.


(** * A play that fails *)

Lemma at_path_list v k l : at_path v [k] = VList l -> sub_list v k = VList l.
Proof.
  destruct v as [| | | | | |d]; try discriminate.
  unfold at_path, sub_list. destruct (dict_get d k); simpl; congruence.
Qed.

Lemma for_plays_raises game_data game_id game_date good play rest e :
  Forall (fun p => is_ok (_extract_play_data p game_data) = true) good ->
  _extract_play_data play game_data = Raise e ->
  for_plays game_data game_id game_date (good ++ play :: rest) = Raise e.
Proof.
  intros Hgood Hplay. induction Hgood as [|p good Hp _ IH]; simpl.
  - rewrite Hplay. reflexivity.
  - destruct (_extract_play_data p game_data); [simpl | discriminate].
    rewrite IH. reflexivity.
Qed.

(** X11. [_game_to_df] is all or nothing: when a play of the document
    cannot be extracted, the exception of the first such play is the
    outcome of the whole flattening and of [_game_to_df] (the table
    library is not reached), and the records of the plays before it are
    not returned. *)
Theorem a_failing_play_fails_the_table game_data good play rest e :
  mappings_along game_data ["gameData"; "datetime"] = true ->
  mappings_along game_data ["liveData"; "plays"] = true ->
  at_path game_data ["liveData"; "plays"; "allPlays"]
    = VList (good ++ play :: rest) ->
  Forall (fun p => is_ok (_extract_play_data p game_data) = true) good ->
  _extract_play_data play game_data = Raise e ->
  flattened_data_of game_data = Raise e /\
  _game_to_df game_data = Raise e.
Proof.
  intros H1 H2 Hat Hgood Hplay.
  assert (flattened_data_of game_data = Raise e) as E.
  { descend. unfold flattened_data_of. run_gets.
    rewrite get_or_list_dict by assumption.
    rewrite <- !at_path_sub in Hat. rewrite (at_path_list _ _ _ Hat). simpl.
    apply (for_plays_raises _ _ _ _ _ _ _ Hgood Hplay). }
  split; [exact E | exact (_game_to_df_flattening_raises _ _ E)].
Qed.


(** * Which events are recorded *)

#[local] Arguments has_path : simpl never.

Lemma classify_spec event :
  mappings_along event ["details"] = true ->
  mappings_along event ["count"] = true ->
  classify event =
  Ok (if is_pitch_or_call event then PitchCall
      else if is_fourth_ball event then WalkByCount else Skipped).
Proof.
  intros H1 H2. descend.
  unfold classify, is_pitch_or_call, is_fourth_ball. run_gets.
  destruct (truthy (at_path event ["isPitch"])); simpl; [reflexivity|].
  assert (py_contains "call" (sub event "details")
          = Ok (has_path event ["details"; "call"])) as ->.
  { rewrite <- has_path_sub.
    destruct (sub event "details") as [| | | | | |d]; try discriminate.
    unfold py_contains, has_path.
    destruct (dict_get d "call"); [rewrite bool_decide_eq_true_2 by eauto|];
      reflexivity. }
  destruct (has_path event ["details"; "call"]); simpl; [reflexivity|].
  run_gets. rewrite at_path_sub. destruct (py_eq_int _ 4); reflexivity.
Qed.

(** The events of a play whose containers have the expected kind. *)
Lemma well_shaped_events play :
  well_shaped_play play = true ->
  play_shape_ok play = true /\
  is_dict play = true /\
  forallb event_shape_ok (events_of play) = true /\
  get_or play "playEvents" (VList []) = Ok (VList (events_of play)) /\
  (events_of play <> [] ->
   at_path play ["playEvents"] = VList (events_of play)).
Proof.
  unfold well_shaped_play. intros H. apply andb_prop in H as [Sp Hl].
  apply sub_list_at in Hl as (events & Hs & Hall & Hp).
  assert (is_dict play = true) as Dp.
  { pose proof Sp as S. split_shape S. eapply mappings_along_dict. eassumption. }
  assert (events_of play = events) as -> by (unfold events_of; rewrite Hs; reflexivity).
  split; [exact Sp|]. split; [exact Dp|]. split; [exact Hall|].
  split; [|exact Hp]. rewrite get_or_list_dict, Hs by exact Dp. reflexivity.
Qed.

(** X12. Of the events of a play whose containers have the expected
    kind, the ones that give a record are exactly the pitches (a truthy
    ["isPitch"]), the calls (a ["call"] key in the details, whatever its
    value) and the events whose ball count equals 4; the record is that of
    a walk by count exactly when the event is neither a pitch nor a call,
    so a pitch that is the fourth ball gives the record of a pitch. *)
Theorem events_that_are_recorded play game_data n event :
  well_shaped_play play = true ->
  nth_error (events_of play) n = Some event ->
  ((exists r, emits play game_data n event r) <->
   is_pitch_or_call event || is_fourth_ball event = true) /\
  (forall r, emits play game_data n event r ->
     (r = walk_row play event <-> is_pitch_or_call event = false)).
Proof.
  intros Hw Hn.
  destruct (well_shaped_events _ Hw) as (Sp & Dp & Hall & Hpe & Hat).
  pose proof (nth_error_forallb _ _ _ _ Hall Hn) as Se.
  pose proof (classify_spec event (event_shape_details _ Se)
                (event_shape_count _ Se)) as Hc.
  split.
  - split.
    + intros [r He]. destruct (emits_class _ _ _ _ _ He) as [Hc'|Hc'];
        rewrite Hc in Hc'; destruct (is_pitch_or_call event);
        destruct (is_fourth_ball event); try reflexivity; discriminate.
    + intros Hrec.
      destruct (extract_event_ok play game_data _ n event Sp Hat Hall Hn)
        as [o Ho].
      assert (exists r, o = Some r) as [r ->].
      { destruct (is_pitch_or_call event).
        - destruct (extract_event_pitch _ _ _ _ _ _ Hc Ho) as (r & -> & _).
          eauto.
        - destruct (is_fourth_ball event); [|discriminate Hrec].
          rewrite (extract_event_walk _ _ _ _ _ _ Hc Ho). eauto. }
      exists r, (VList (events_of play)), (events_of play).
      split; [exact Hpe|]. split; [reflexivity|]. split; [exact Hn | exact Ho].
  - intros r He. split.
    + intros ->. destruct (emits_columns _ _ _ _ _ He) as [[_ Hk]|[Hw' _]].
      * exfalso. apply (f_equal (@length string)) in Hk.
        vm_compute in Hk. discriminate Hk.
      * rewrite Hc in Hw'. destruct (is_pitch_or_call event);
          [discriminate | reflexivity].
    + intros Hnot. rewrite Hnot in Hc.
      destruct (emits_class _ _ _ _ _ He) as [Hc'|Hc']; rewrite Hc in Hc'.
      * destruct (is_fourth_ball event); discriminate.
      * apply (emits_walk _ _ _ _ _ He). rewrite Hc. exact Hc'.
Qed.

Lemma events_that_are_recorded_witness :
  well_shaped_play at_bat = true /\
  nth_error (events_of at_bat) 1 = Some mound_visit /\
  is_pitch_or_call mound_visit || is_fourth_ball mound_visit = false /\
  ~ (exists r, emits at_bat sample_game_data 1 mound_visit r).
Proof.
  assert (well_shaped_play at_bat = true) as Hw by reflexivity.
  assert (nth_error (events_of at_bat) 1 = Some mound_visit) as Hn
    by reflexivity.
  split; [exact Hw|]. split; [exact Hn|]. split; [reflexivity|].
  intros He.
  apply (proj1 (events_that_are_recorded at_bat sample_game_data 1 mound_visit
                  Hw Hn)) in He.
  discriminate He.
Defined.

(** * What the flattener raises *)

Lemma py_len_raises v e : py_len v = Raise e -> e = TypeError.
Proof. unfold py_len. destruct v; congruence. Qed.

Lemma py_iter_raises v e : py_iter v = Raise e -> e = TypeError.
Proof. unfold py_iter. destruct v; congruence. Qed.

Lemma py_contains_raises s v e : py_contains s v = Raise e -> e = TypeError.
Proof. unfold py_contains. destruct v; congruence. Qed.

Lemma code_in_raises details codes e :
  code_in details codes = Raise e -> e = AttributeError.
Proof.
  unfold code_in. intros E.
  apply bind_raise_inv in E as [E|(code & _ & E)]; [eapply get_or_raise, E|].
  destruct (truthy code); [|discriminate E].
  apply bind_raise_inv in E as [E|(code' & _ & E)];
    [eapply get_or_raise, E | discriminate E].
Qed.

Lemma count_comprehension_raises count key e :
  dict_comprehension ["strikes"; "balls"; "outs"] key
    (fun k => get count k) [] = Raise e ->
  e = AttributeError.
Proof.
  intros H. destruct count; vm_compute in H; congruence.
Qed.

(** The index that [_get_count_data] uses is the only place where it can
    raise anything else than an [AttributeError]. *)
Lemma _get_count_data_raises play event n e :
  _get_count_data play event n = Raise e ->
  e = AttributeError \/
  exists m, n = S m /\ py_index (sub_list play "playEvents") m = Raise e.
Proof.
  unfold _get_count_data. intros E.
  apply bind_raise_inv in E as [E|(play_events & Epe & E)];
    [left; eapply get_or_raise, E|].
  apply bind_raise_inv in E as [E|(count & _ & E)];
    [left; eapply get_or_raise, E|].
  apply bind_raise_inv in E as [E|(prev_count & _ & E)].
  - destruct n as [|m].
    + left. apply bind_raise_inv in E as [E|(outs & _ & E)];
        [eapply get_or_raise, E | discriminate E].
    + unfold rget_or in E. apply bind_raise_inv in E as [E|(prev & _ & E)];
        [|left; eapply get_or_raise, E].
      right. exists m. split; [reflexivity|].
      apply get_or_inv in Epe as (d & -> & ->). exact E.
  - left. display_raises E; attribute_error E.
Qed.

(** What an item of the display of [_extract_event_data] raises. *)
Ltac raise_kind H :=
  unfold rget, rget_or, get in H;
  repeat match type of H with
  | bind _ _ = Raise _ =>
      apply bind_raise_inv in H as [H|(? & _ & H)]
  end;
  first
    [ discriminate H
    | left; eapply get_or_raise, H
    | left; eapply _get_team_data_raises, H
    | left; eapply _get_pitch_data_raises, H
    | left; eapply _get_hit_data_raises, H
    | left; eapply _get_ab_result_raises, H
    | left; eapply code_in_raises, H
    | right; left; eapply py_len_raises, H
    | apply _get_count_data_raises in H as [->|H];
      [left; reflexivity | right; right; exact H] ].

Lemma _extract_event_data_raises play event n play_events e :
  _extract_event_data play event n play_events = Raise e ->
  e = AttributeError \/ e = TypeError \/
  exists m, n = S m /\ py_index (sub_list play "playEvents") m = Raise e.
Proof.
  unfold _extract_event_data. intros E.
  apply bind_raise_inv in E as [E|(matchup & _ & E)];
    [left; eapply get_or_raise, E|].
  apply bind_raise_inv in E as [E|(about & _ & E)];
    [left; eapply get_or_raise, E|].
  apply bind_raise_inv in E as [E|(details & _ & E)];
    [left; eapply get_or_raise, E|].
  display_raises E; raise_kind E.
Qed.

Lemma _extract_walk_data_raises play event game_data e :
  _extract_walk_data play event game_data = Raise e -> e = AttributeError.
Proof.
  unfold _extract_walk_data. intros E.
  apply bind_raise_inv in E as [E|(matchup & _ & E)];
    [eapply get_or_raise, E|].
  apply bind_raise_inv in E as [E|(about & _ & E)];
    [eapply get_or_raise, E|].
  apply bind_raise_inv in E as [E|(count & _ & E)];
    [eapply get_or_raise, E|].
  apply bind_raise_inv in E as [E|(base_data & _ & E)].
  - display_raises E;
      unfold rget, rget_or, get in E;
      repeat match type of E with
      | bind _ _ = Raise _ =>
          apply bind_raise_inv in E as [E|(? & _ & E)]
      end;
      first
        [ eapply get_or_raise, E
        | eapply _get_team_data_raises, E
        | eapply count_comprehension_raises, E ].
  - rewrite nan_fields_ok in E. discriminate E.
Qed.

Lemma classify_raises event e :
  classify event = Raise e -> e = AttributeError \/ e = TypeError.
Proof.
  unfold classify. intros E.
  apply bind_raise_inv in E as [E|(is_pitch & _ & E)];
    [left; eapply get_or_raise, E|].
  apply bind_raise_inv in E as [E|(pitch_or_call & _ & E)].
  - destruct (truthy is_pitch); [discriminate E|].
    apply bind_raise_inv in E as [E|(details & _ & E)];
      [left; eapply get_or_raise, E | right; eapply py_contains_raises, E].
  - destruct pitch_or_call; [discriminate E|].
    apply bind_raise_inv in E as [E|(balls & _ & E)].
    + left. attribute_error E.
    + destruct (py_eq_int balls 4); discriminate E.
Qed.

(** In the loop the index of the previous event is in range. *)
Lemma extract_event_raises play game_data play_events events n event e :
  get_or play "playEvents" (VList []) = Ok play_events ->
  py_iter play_events = Ok events ->
  nth_error events n = Some event ->
  extract_event play game_data play_events n event = Raise e ->
  e = AttributeError \/ e = TypeError.
Proof.
  intros Hpe Hit Hn E. unfold extract_event in E.
  apply bind_raise_inv in E as [E|(c & Hc & E)];
    [eapply classify_raises, E|].
  destruct c.
  - apply bind_raise_inv in E as [E|(r & _ & E)]; [|discriminate E].
    apply _extract_event_data_raises in E as [E|[E|(m & -> & E)]]; auto.
    exfalso.
    pose proof (classified_events _ _ _ _ _ Hit Hn Hc) as ->.
    apply get_or_inv in Hpe as (d & -> & Hpe).
    unfold sub_list in E. rewrite <- Hpe in E. unfold py_index in E.
    destruct (nth_error events m) eqn:Hm; [discriminate E|].
    apply nth_error_None in Hm.
    assert (nth_error events (S m) <> None) as Hn' by congruence.
    apply nth_error_Some in Hn'. lia.
  - apply bind_raise_inv in E as [E|(r & _ & E)]; [|discriminate E].
    left. eapply _extract_walk_data_raises, E.
  - discriminate E.
Qed.

Lemma for_events_raises play game_data play_events all e :
  get_or play "playEvents" (VList []) = Ok play_events ->
  py_iter play_events = Ok all ->
  forall events n ab_data,
    (forall i event, nth_error events i = Some event ->
                     nth_error all (n + i) = Some event) ->
    for_events play game_data play_events n events ab_data = Raise e ->
    e = AttributeError \/ e = TypeError.
Proof.
  intros Hpe Hit. induction events as [|event rest IH];
    intros n ab_data Hall E; [discriminate E|].
  simpl in E. apply bind_raise_inv in E as [E|(o & _ & E)].
  - eapply extract_event_raises; [exact Hpe | exact Hit | | exact E].
    specialize (Hall 0%nat event eq_refl). rewrite Nat.add_0_r in Hall.
    exact Hall.
  - eapply IH; [|exact E]. intros i ev Hi.
    specialize (Hall (S i) ev Hi). rewrite Nat.add_succ_r in Hall. exact Hall.
Qed.

Lemma _extract_play_data_raises play game_data e :
  _extract_play_data play game_data = Raise e ->
  e = AttributeError \/ e = TypeError.
Proof.
  unfold _extract_play_data. intros E.
  apply bind_raise_inv in E as [E|(play_events & Hpe & E)];
    [left; eapply get_or_raise, E|].
  apply bind_raise_inv in E as [E|(events & Hit & E)];
    [right; eapply py_iter_raises, E|].
  eapply for_events_raises; [exact Hpe | exact Hit | | exact E].
  intros i event Hi. exact Hi.
Qed.

Lemma for_plays_raises_kind game_data game_id game_date plays e :
  for_plays game_data game_id game_date plays = Raise e ->
  e = AttributeError \/ e = TypeError.
Proof.
  induction plays as [|play rest IH]; intros E; [discriminate E|].
  simpl in E. apply bind_raise_inv in E as [E|(ab_data & _ & E)];
    [eapply _extract_play_data_raises, E|].
  apply bind_raise_inv in E as [E|(more & _ & E)];
    [exact (IH E) | discriminate E].
Qed.

(** X13. Whatever the document, the flattening of [_game_to_df] (all of
    it but the table constructor, the external sink) raises nothing else
    than an [AttributeError] (a lookup in a value that is not a mapping)
    or a [TypeError] (an iteration, a length or a membership test on a
    value that is not a container): the index of the previous event, the
    only subscript of the flattener, is always in range inside the loop,
    so neither an [IndexError] nor a [KeyError] is raised. *)
Theorem flatten_raises_lookup_errors_only game_data e :
  flattened_data_of game_data = Raise e ->
  e = AttributeError \/ e = TypeError.
Proof.
  unfold flattened_data_of. intros E.
  apply bind_raise_inv in E as [E|(game_id & _ & E)];
    [left; eapply get_or_raise, E|].
  apply bind_raise_inv in E as [E|(game_date & _ & E)];
    [left; attribute_error E|].
  apply bind_raise_inv in E as [E|(all_plays & _ & E)];
    [left; attribute_error E|].
  apply bind_raise_inv in E as [E|(plays & _ & E)];
    [right; eapply py_iter_raises, E|].
  eapply for_plays_raises_kind, E.
Qed.

Lemma flatten_raises_lookup_errors_only_witness :
  flattened_data_of
    (VDict [("liveData", VDict [("plays", VDict [("allPlays", VInt 5)])])])
    = Raise TypeError /\
  (TypeError = AttributeError \/ TypeError = TypeError).
Proof.
  split; [reflexivity|].
  apply (flatten_raises_lookup_errors_only
           (VDict [("liveData",
                    VDict [("plays", VDict [("allPlays", VInt 5)])])])).
  reflexivity.
Defined.

(** * The record of a walk, for any event *)

Lemma _extract_walk_data_shape play event game_data r :
  _extract_walk_data play event game_data = Ok r ->
  play_shape_ok play = true /\ mappings_along event ["count"] = true.
Proof.
  unfold _extract_walk_data. intros H.
  apply bind_inv in H as (matchup & Em & H).
  apply bind_inv in H as (about & Ea & H).
  apply bind_inv in H as (count & Ec & H).
  apply bind_inv in H as (base_data & Eb & _).
  peel Eb.
  repeat match goal with
  | E : dict_comprehension _ _ _ _ = Ok _ |- _ =>
      apply count_comprehension_inv in E as [? _]
  | E : _get_team_data _ _ = Ok _ |- _ =>
      apply _get_team_data_shape in E as (? & ? & ?)
  end.
  as_paths. split; [|along].
  unfold play_shape_ok. simpl.
  repeat (apply andb_true_intro; split); try reflexivity; try assumption; along.
Qed.

(** X20. [_extract_walk_data] returns exactly when the play is a mapping
    whose matchup, ["about"], roster and ["result"] containers are
    mappings or absent and the event is a mapping whose ["count"] is a
    mapping or absent, and raises an [AttributeError] otherwise.  It does
    not test that the event is a walk (it builds the same record for a
    pitch), and it never reads its [game_data] argument. *)
Theorem walk_data_of_any_event play event game_data :
  _extract_walk_data play event game_data =
  (if play_shape_ok play && mappings_along event ["count"]
   then Ok (walk_row play event)
   else Raise AttributeError) /\
  (forall game_data',
     _extract_walk_data play event game_data'
     = _extract_walk_data play event game_data).
Proof.
  split; [|reflexivity].
  destruct (_extract_walk_data play event game_data) as [r|e] eqn:E.
  - destruct (_extract_walk_data_shape _ _ _ _ E) as [-> ->].
    apply _extract_walk_data_inv in E as ->. reflexivity.
  - apply _extract_walk_data_raises in E as Hkind. subst e.
    destruct (play_shape_ok play) eqn:Sp; [|reflexivity].
    destruct (mappings_along event ["count"]) eqn:Se; [|reflexivity].
    rewrite (_extract_walk_data_ok _ _ game_data Sp Se) in E. discriminate E.
Qed.

(** * The swing and whiff flags together *)

Lemma pitch_flags play game_data n event r :
  emits play game_data n event r ->
  classify event = Ok PitchCall ->
  dict_get r "is_swing"
    = Some (membership_flag (at_path event ["details"; "code"]) swing_list) /\
  dict_get r "is_whiff"
    = Some (membership_flag (at_path event ["details"; "code"]) whiff_list).
Proof.
  intros He Hc. destruct (emits_pitch _ _ _ _ _ He Hc) as (count & -> & Hcount).
  destruct n as [|m]; [|destruct Hcount as (prev & _ & Hcount)]; subst count;
    split; reflexivity.
Qed.

Lemma whiff_codes_are_swing_codes code :
  py_in_strs code whiff_list = true -> py_in_strs code swing_list = true.
Proof.
  rewrite !py_in_strs_In. intros (s & -> & Hin). exists s.
  split; [reflexivity|]. simpl in *. tauto.
Qed.

(** X14. On every record of a pitch or call the two flags agree: a whiff
    is a swing ([is_whiff] is [True] only if [is_swing] is [True]); what
    is not a swing is not a whiff; and one flag is [np.nan] exactly when
    the other one is. *)
Theorem a_whiff_is_a_swing play game_data n event r :
  emits play game_data n event r ->
  classify event = Ok PitchCall ->
  (dict_get r "is_whiff" = Some (VBool true) ->
   dict_get r "is_swing" = Some (VBool true)) /\
  (dict_get r "is_swing" = Some (VBool false) ->
   dict_get r "is_whiff" = Some (VBool false)) /\
  (dict_get r "is_swing" = Some np_nan <->
   dict_get r "is_whiff" = Some np_nan).
Proof.
  intros He Hc. destruct (pitch_flags _ _ _ _ _ He Hc) as [-> ->].
  unfold membership_flag.
  pose proof (whiff_codes_are_swing_codes (at_path event ["details"; "code"]))
    as Hsub.
  destruct (truthy (at_path event ["details"; "code"])).
  - destruct (py_in_strs _ whiff_list);
      destruct (py_in_strs _ swing_list);
      try (specialize (Hsub eq_refl); discriminate Hsub);
      repeat split; intros H; try discriminate H; try reflexivity.
  - repeat split; intros H; try discriminate H; reflexivity.
Qed.

Lemma a_whiff_is_a_swing_witness :
  emits at_bat sample_game_data 0 swinging_strike swinging_strike_record /\
  classify swinging_strike = Ok PitchCall /\
  dict_get swinging_strike_record "is_whiff" = Some (VBool true) /\
  dict_get swinging_strike_record "is_swing" = Some (VBool true).
Proof.
  assert (emits at_bat sample_game_data 0 swinging_strike swinging_strike_record)
    as He.
  { unfold emits. do 2 eexists. repeat split; reflexivity. }
  assert (classify swinging_strike = Ok PitchCall) as Hc by reflexivity.
  assert (dict_get swinging_strike_record "is_whiff" = Some (VBool true)) as Hw
    by reflexivity.
  split; [exact He|]. split; [exact Hc|]. split; [exact Hw|].
  exact (proj1 (a_whiff_is_a_swing _ _ _ _ _ He Hc) Hw).
Defined.

(** * More of [games] *)

Section GamesOutcome.

Variable requests_get : string -> result response.

(** What it takes for [_game] to return. *)
Lemma _game_returns game_id x :
  _game requests_get game_id = Ok x <->
  exists response document df,
    requests_get (GAME_ENDPOINT_ROOT game_id) = Ok response /\
    status_code response = 200 /\
    json response = Ok document /\
    _game_to_df document = Ok df /\
    x = (game_id, df).
Proof.
  unfold _game. split.
  - intros H. apply bind_inv in H as (response & E1 & H).
    destruct (Z.eqb_spec (status_code response) 200) as [E2|_];
      [|discriminate]. simpl in H.
    apply bind_inv in H as (document & E3 & H).
    apply bind_inv in H as (df & E4 & [= <-]).
    exists response, document, df. auto.
  - intros (response & document & df & -> & E2 & E3 & E4 & ->). simpl.
    rewrite E2, E3. simpl. rewrite E4. reflexivity.
Qed.

Lemma returned_submitted game_ids x :
  x ∈ returned (submit_all requests_get game_ids) <->
  In (fst x) game_ids /\ _game requests_get (fst x) = Ok x.
Proof.
  unfold returned, submit_all. rewrite list_elem_of_omap. split.
  - intros (future & Hin & Hx). destruct future as [y|]; [|discriminate].
    injection Hx as ->. apply list_elem_of_In, in_map_iff in Hin as (i & E & Hi).
    rewrite (_game_id _ _ _ E). split; [exact Hi | exact E].
  - intros [Hi E]. exists (Ok x). split; [|reflexivity].
    rewrite <- E. apply list_elem_of_In, in_map, Hi.
Qed.

Lemma returned_keys_NoDup game_ids :
  NoDup game_ids -> NoDup (returned (submit_all requests_get game_ids)).*1.
Proof.
  induction game_ids as [|i rest IH]; intros Hnd; [apply NoDup_nil_2|].
  apply NoDup_cons in Hnd as [Hi Hnd]. unfold returned, submit_all in *.
  simpl. destruct (_game requests_get i) as [x|] eqn:E; simpl; [|apply IH, Hnd].
  apply NoDup_cons_2; [|apply IH, Hnd].
  rewrite (_game_id _ _ _ E). intros Hin. apply Hi.
  apply list_elem_of_fmap in Hin as (y & -> & Hy).
  apply returned_submitted in Hy as [Hy _]. apply list_elem_of_In, Hy.
Qed.

Lemma store_fold_lookup_inv (l : list (Z * DataFrame)) i df :
  forall game_data,
    fold_left store l game_data !! i = Some df ->
    (i, df) ∈ l \/ game_data !! i = Some df.
Proof.
  induction l as [|[j df'] l IH]; intros game_data H; [right; exact H|].
  simpl in H. apply IH in H as [H|H].
  - left. apply elem_of_cons. right. exact H.
  - unfold store in H. simpl in H.
    destruct (decide (j = i)) as [->|Hji].
    + rewrite lookup_insert_eq in H. injection H as ->.
      left. apply elem_of_cons. left. reflexivity.
    + rewrite lookup_insert_ne in H by exact Hji. right. exact H.
Qed.

Lemma length_returned_raised (completed : list (result (Z * DataFrame))) :
  (length (returned completed) + length (raised completed)
   = length completed)%nat.
Proof.
  unfold returned, raised.
  induction completed as [|[x|e] rest IH]; unfold omap in *; simpl in *; lia.
Qed.

(** The mapping that a run returns, key by key. *)
Lemma games_lookup game_ids game_data printed :
  NoDup game_ids ->
  games requests_get game_ids game_data printed ->
  forall i df,
    game_data !! i = Some df <->
    In i game_ids /\ _game requests_get i = Ok (i, df).
Proof.
  intros Hnd [completed Hperm] i df. unfold collect_all.
  rewrite collect_fold. cbn [fst].
  assert (returned completed ≡ₚ returned (submit_all requests_get game_ids))
    as Hret by (unfold returned; rewrite Hperm; reflexivity).
  split.
  - intros H. apply store_fold_lookup_inv in H as [H|H].
    + rewrite Hret in H. apply returned_submitted in H. exact H.
    + rewrite lookup_empty in H. discriminate.
  - intros [Hi E]. apply store_fold_lookup.
    + rewrite Hret. apply returned_keys_NoDup, Hnd.
    + rewrite Hret. apply returned_submitted. split; [exact Hi | exact E].
Qed.

Lemma games_counts game_ids game_data printed :
  NoDup game_ids ->
  games requests_get game_ids game_data printed ->
  printed ≡ₚ raised (submit_all requests_get game_ids) /\
  (size game_data + length printed = length game_ids)%nat.
Proof.
  intros Hnd [completed Hperm]. unfold collect_all.
  rewrite collect_fold. cbn [fst snd app].
  assert (returned completed ≡ₚ returned (submit_all requests_get game_ids))
    as Hret by (unfold returned; rewrite Hperm; reflexivity).
  split; [unfold raised; rewrite Hperm; reflexivity|].
  rewrite <- size_dom, store_fold_dom, dom_empty_L, (left_id_L ∅ (∪)).
  rewrite size_list_to_set
    by (rewrite Hret; apply returned_keys_NoDup, Hnd).
  rewrite length_fmap, length_returned_raised, Hperm.
  unfold submit_all. apply length_map.
Qed.

End GamesOutcome.

(** X15. For every list of distinct game identifiers, whatever the number
    of games that fail and the order in which the futures complete, the
    mapping that [games] returns holds a table for a game exactly when
    the game was requested, its URL was served with status 200 and a JSON
    body, and the document flattened; the table is that flattening.  One
    line is printed for every other game, so that tables and lines add up
    to the number of games requested; and any two runs return the same
    mapping and print the same lines, possibly in another order. *)
Theorem games_returns_the_games_that_load requests_get game_ids game_data
    printed :
  NoDup game_ids ->
  games requests_get game_ids game_data printed ->
  (forall i df,
     game_data !! i = Some df <->
     In i game_ids /\
     exists response document,
       requests_get (GAME_ENDPOINT_ROOT i) = Ok response /\
       status_code response = 200 /\
       json response = Ok document /\
       _game_to_df document = Ok df) /\
  printed ≡ₚ raised (submit_all requests_get game_ids) /\
  (size game_data + length printed = length game_ids)%nat /\
  (forall game_data' printed',
     games requests_get game_ids game_data' printed' ->
     game_data' = game_data /\ printed' ≡ₚ printed).
Proof.
  intros Hnd Hrun.
  destruct (games_counts _ _ _ _ Hnd Hrun) as [Hprinted Hsize].
  split; [|split; [exact Hprinted|split; [exact Hsize|]]].
  - intros i df. rewrite (games_lookup _ _ _ _ Hnd Hrun i df).
    rewrite _game_returns. split.
    + intros (Hi & response & document & df' & E1 & E2 & E3 & E4 & [= <-]).
      split; [exact Hi|]. exists response, document. auto.
    + intros (Hi & response & document & E1 & E2 & E3 & E4).
      split; [exact Hi|]. exists response, document, df. auto.
  - intros game_data' printed' Hrun'.
    destruct (games_counts _ _ _ _ Hnd Hrun') as [Hprinted' _].
    split; [|rewrite Hprinted', Hprinted; reflexivity].
    apply map_eq. intros i. apply option_eq. intros df.
    rewrite (games_lookup _ _ _ _ Hnd Hrun i df).
    apply (games_lookup _ _ _ _ Hnd Hrun' i df).
Qed.


(** * The address of a game *)

Lemma string_length_app (s t : string) :
  String.length (s +:+ t) = (String.length s + String.length t)%nat.
Proof.
  induction s as [|c s IH]; [reflexivity|].
  change (S (String.length (s +:+ t)) = S (String.length s + String.length t)).
  rewrite IH. reflexivity.
Qed.

Lemma string_app_inv_tail (s a b : string) : a +:+ s = b +:+ s -> a = b.
Proof.
  revert b. induction a as [|c a IH]; intros [|c' b] H.
  - reflexivity.
  - exfalso. apply (f_equal String.length) in H.
    rewrite !string_length_app in H. simpl in H. lia.
  - exfalso. apply (f_equal String.length) in H.
    rewrite !string_length_app in H. simpl in H. lia.
  - change (String c (a +:+ s) = String c' (b +:+ s)) in H.
    injection H as -> H. f_equal. apply IH, H.
Qed.

(** X16. Distinct games have distinct addresses: the address of the live
    feed of a game determines its identifier. *)
Theorem distinct_games_have_distinct_addresses i j :
  i <> j -> GAME_ENDPOINT_ROOT i <> GAME_ENDPOINT_ROOT j.
Proof.
  unfold GAME_ENDPOINT_ROOT. intros Hij H. apply Hij.
  apply String.app_inj, String.app_inj in H.
  apply string_app_inv_tail in H. apply pretty_Z_inj in H. exact H.
Qed.

Lemma distinct_games_have_distinct_addresses_witness :
  717465 <> 717466 /\
  GAME_ENDPOINT_ROOT 717465
    = "https://statsapi.mlb.com/api/v1.1/game/717465/feed/live" /\
  GAME_ENDPOINT_ROOT 717465 <> GAME_ENDPOINT_ROOT 717466.
Proof.
  split; [lia|]. split; [vm_compute; reflexivity|].
  apply (distinct_games_have_distinct_addresses 717465 717466). lia.
Defined.

(** * The schedule *)

Lemma schedule_game_data_ok game :
  game_shape_ok game = true ->
  schedule_game_data game = Ok (leaves game schedule_fields).
Proof.
  intros S. unfold game_shape_ok in S. simpl in S.
  repeat match type of S with
  | _ && _ = true => let H' := fresh "S" in apply andb_prop in S as [H' S]
  end.
  descend. unfold schedule_game_data. run_gets.
  rewrite ?at_path_sub. run_display.
Qed.

(** X17. [schedule] builds the row of a game exactly when the game is a
    mapping whose ["teams"]["away"]["team"], ["teams"]["home"]["team"],
    ["status"] and ["venue"] chains consist of mappings or absent keys;
    the row then has the eight fields [game_id], [time], [date], [away],
    [home], [state], [venue_id], [venue_name], each the leaf found in the
    game, or [None] when the leaf is absent; otherwise an
    [AttributeError] is raised. *)
Theorem schedule_row_of_a_game game :
  schedule_game_data game =
  if game_shape_ok game then Ok (leaves game schedule_fields)
  else Raise AttributeError.
Proof.
  destruct (game_shape_ok game) eqn:S; [apply schedule_game_data_ok, S|].
  destruct (schedule_game_data game) as [r|e] eqn:E.
  - exfalso. unfold schedule_game_data in E. peel E. as_paths_deep.
    assert (mappings_along game ["teams"; "away"; "team"] = true) as H1 by along.
    assert (mappings_along game ["teams"; "home"; "team"] = true) as H2 by along.
    assert (mappings_along game ["status"] = true) as H3 by along.
    assert (mappings_along game ["venue"] = true) as H4 by along.
    unfold game_shape_ok in S. simpl in S.
    rewrite H1, H2, H3, H4 in S. discriminate S.
  - f_equal. unfold schedule_game_data in E.
    display_raises E; attribute_error E.
Qed.

Lemma schedule_for_games_ok games : forall flattened_data,
  forallb game_shape_ok games = true ->
  schedule_for_games games flattened_data =
  Ok (flattened_data
      ++ List.map (fun game => leaves game schedule_fields) games).
Proof.
  induction games as [|game rest IH]; intros flattened_data H.
  - simpl. rewrite app_nil_r. reflexivity.
  - simpl in H. apply andb_prop in H as [Hg Hrest].
    cbn [schedule_for_games]. rewrite (schedule_game_data_ok _ Hg). simpl.
    rewrite (IH _ Hrest), <- app_assoc. reflexivity.
Qed.

Lemma schedule_for_dates_ok dates : forall flattened_data,
  forallb date_shape_ok dates = true ->
  schedule_for_dates dates flattened_data =
  Ok (flattened_data
      ++ concat (List.map
                   (fun date_entry =>
                      List.map (fun game => leaves game schedule_fields)
                        (games_of date_entry)) dates)).
Proof.
  induction dates as [|date_entry rest IH]; intros flattened_data H.
  - simpl. rewrite app_nil_r. reflexivity.
  - simpl in H. apply andb_prop in H as [Hd Hrest].
    unfold date_shape_ok in Hd. apply andb_prop in Hd as [Dd Hl].
    apply sub_list_at in Hl as (games & Hs & Hall & _).
    cbn [schedule_for_dates]. rewrite get_or_list_dict, Hs by exact Dd. simpl.
    rewrite (schedule_for_games_ok _ _ Hall). simpl.
    rewrite (IH _ Hrest). unfold games_of at 2. rewrite Hs.
    cbn [List.map concat]. rewrite <- app_assoc. reflexivity.
Qed.

Lemma schedule_flattened_data_ok document :
  well_shaped_schedule document = true ->
  schedule_flattened_data document = Ok (schedule_rows document).
Proof.
  unfold well_shaped_schedule. intros H. apply andb_prop in H as [D Hl].
  apply sub_list_at in Hl as (dates & Hs & Hall & _).
  unfold schedule_flattened_data. rewrite get_or_list_dict, Hs by exact D.
  simpl. rewrite (schedule_for_dates_ok _ _ Hall).
  unfold schedule_rows, dates_of. rewrite Hs. reflexivity.
Qed.

(** X18. On a schedule document that is a mapping whose ["dates"], when
    present, is a list of mappings whose ["games"], when present, are
    lists of games with containers of the expected kind, the loop of
    [schedule] does not raise and builds one row for every game, date
    after date and, within a date, in the order of the games; a document
    without ["dates"], and a date without ["games"], contribute no
    row. *)
Theorem schedule_rows_in_document_order document :
  well_shaped_schedule document = true ->
  schedule_flattened_data document =
  Ok (concat
        (List.map
           (fun date_entry =>
              List.map (fun game => leaves game schedule_fields)
                (games_of date_entry))
           (dates_of document))) /\
  (has_path document ["dates"] = false -> dates_of document = []) /\
  (forall date_entry,
     has_path date_entry ["games"] = false -> games_of date_entry = []).
Proof.
  intros H. split; [exact (schedule_flattened_data_ok _ H)|]. split.
  - unfold dates_of, sub_list, has_path.
    destruct document as [| | | | | |d]; try reflexivity.
    destruct (dict_get d "dates"); [discriminate | reflexivity].
  - intros date_entry. unfold games_of, sub_list, has_path.
    destruct date_entry as [| | | | | |d]; try reflexivity.
    destruct (dict_get d "games"); [discriminate | reflexivity].
Qed.

Lemma schedule_rows_in_document_order_witness :
  well_shaped_schedule sample_schedule = true /\
  schedule_flattened_data sample_schedule = Ok (schedule_rows sample_schedule) /\
  length (schedule_rows sample_schedule) = 2%nat.
Proof.
  split; [reflexivity|]. split; [|reflexivity].
  apply (proj1 (schedule_rows_in_document_order sample_schedule eq_refl)).
Defined.

(** X19. [schedule] returns [None] for a schedule without games: when the
    address built from the arguments is served with status 200 and the
    document has the expected shape and holds no game, the result is
    [None], whatever the table operations would do (they are not
    reached); and a status other than 200 raises [BadResponseCode] with
    that address and the status, whatever the body. *)
Theorem schedule_without_games requests_get with_columns_unique_sort
    years sport_ids game_types response :
  requests_get
    (SCHEDULE_FILTER (String.concat "," (List.map pretty sport_ids))
       (String.concat "," game_types)
       (String.concat "," (List.map pretty years))) = Ok response ->
  (status_code response <> 200 ->
   schedule requests_get with_columns_unique_sort years sport_ids game_types
   = Raise (BadResponseCode
              (SCHEDULE_FILTER (String.concat "," (List.map pretty sport_ids))
                 (String.concat "," game_types)
                 (String.concat "," (List.map pretty years)))
              (status_code response))) /\
  (forall document,
     status_code response = 200 ->
     json response = Ok document ->
     well_shaped_schedule document = true ->
     Forall (fun date_entry => games_of date_entry = []) (dates_of document) ->
     schedule requests_get with_columns_unique_sort years sport_ids game_types
     = Ok None).
Proof.
  intros Hget. unfold schedule. rewrite Hget. simpl. split.
  - intros Hcode. destruct (Z.eqb_spec (status_code response) 200);
      [contradiction | reflexivity].
  - intros document Hcode Hjson Hshape Hnone.
    rewrite Hcode, Hjson. simpl.
    rewrite (schedule_flattened_data_ok _ Hshape). simpl.
    assert (schedule_rows document = []) as ->; [|reflexivity].
    unfold schedule_rows.
    induction Hnone as [|date_entry dates Hd _ IH]; [reflexivity|].
    cbn [List.map concat]. rewrite Hd, IH. reflexivity.
Qed.

End Table.

(** * Examples with a table library

    The statements above hold for every table library.  The examples
    below run the code with two of them: [record_table], which keeps the
    records as they are, and [refusing_table], which raises on every
    list. *)

Lemma flatten_raises_on_non_mapping_witness :
  is_dict (VList [sample_play]) = false /\
  flattened_data_of (VList [sample_play]) = Raise AttributeError /\
  _game_to_df record_table (VList [sample_play]) = Raise AttributeError /\
  is_dict (VDict [("gamePk", VInt 1); ("gameData", VNone)]) = true /\
  mappings_along (VDict [("gamePk", VInt 1); ("gameData", VNone)])
    ["gameData"; "datetime"] = false /\
  _game_to_df record_table (VDict [("gamePk", VInt 1); ("gameData", VNone)])
    = Raise AttributeError /\
  mappings_along (VDict [("gamePk", VInt 12345)]) ["gameData"; "datetime"] = true /\
  mappings_along (VDict [("gamePk", VInt 12345)]) ["liveData"; "plays"] = true /\
  has_path (VDict [("gamePk", VInt 12345)]) ["liveData"; "plays"; "allPlays"]
    = false /\
  flattened_data_of (VDict [("gamePk", VInt 12345)]) = Ok [] /\
  _game_to_df record_table (VDict [("gamePk", VInt 12345)]) = Ok [].
Proof.
  split; [reflexivity|].
  split; [apply (proj1 (flatten_raises_on_non_mapping record_table
                          (VList [sample_play])));
          left; reflexivity|].
  split; [apply (proj1 (flatten_raises_on_non_mapping record_table
                          (VList [sample_play])));
          left; reflexivity|].
  split; [reflexivity|]. split; [reflexivity|].
  split; [apply (proj1 (flatten_raises_on_non_mapping record_table
                          (VDict [("gamePk", VInt 1); ("gameData", VNone)])));
          right; left; reflexivity|].
  split; [reflexivity|]. split; [reflexivity|]. split; [reflexivity|].
  split;
    apply (proj2 (flatten_raises_on_non_mapping record_table
                    (VDict [("gamePk", VInt 12345)])));
    reflexivity.
Defined.

(** C4, counterexample.  The document of [test_games], a mapping with no
    plays container, does not raise: the flattening yields no record, and
    [_game_to_df] gives what the table library gives for the empty list
    (a table without rows, for the library that keeps the records). *)
Lemma missing_plays_container_is_not_an_error :
  is_dict (VDict [("gamePk", VInt 12345)]) = true /\
  has_path (VDict [("gamePk", VInt 12345)]) ["liveData"] = false /\
  flattened_data_of (VDict [("gamePk", VInt 12345)]) = Ok [] /\
  (forall e, flattened_data_of (VDict [("gamePk", VInt 12345)]) <> Raise e) /\
  (forall (DataFrame : Type) (pl_DataFrame : list dict -> result DataFrame),
     _game_to_df pl_DataFrame (VDict [("gamePk", VInt 12345)])
     = pl_DataFrame []) /\
  _game_to_df record_table (VDict [("gamePk", VInt 12345)]) = Ok [] /\
  (forall e, _game_to_df record_table (VDict [("gamePk", VInt 12345)])
             <> Raise e).
Proof.
  split; [reflexivity|]. split; [reflexivity|]. split; [reflexivity|].
  split; [intros e; discriminate|]. split; [reflexivity|].
  split; [reflexivity|]. intros e. discriminate.
Qed.

Lemma flatten_never_raises_on_missing_leaves_witness :
  well_shaped_document sample_game_data = true /\
  flattened_data_of sample_game_data = Ok (records_of sample_game_data) /\
  length (records_of sample_game_data) = 2%nat /\
  _game_to_df record_table sample_game_data
    = Ok (records_of sample_game_data) /\
  _game_to_df refusing_table sample_game_data
    = Raise (OtherException "ComputeError") /\
  well_shaped_document (VDict []) = true /\
  flattened_data_of (VDict []) = Ok [] /\
  _game_to_df record_table (VDict []) = Ok [] /\
  has_path sample_event_0 ["hitData"; "launchSpeed"] = false /\
  reads sample_record_0 sample_event_0
    (details_fields ++ under "pitchData" pitch_fields
     ++ under "hitData" hit_fields).
Proof.
  assert (well_shaped_document sample_game_data = true) as Hw by reflexivity.
  assert (well_shaped_document (VDict []) = true) as Hw' by reflexivity.
  assert (flattened_data_of sample_game_data
          = Ok (records_of sample_game_data)) as Hrec
    by (vm_compute; reflexivity).
  destruct (flatten_never_raises_on_missing_leaves record_table _ Hw)
    as ((flattened_data & Hflat & Hok) & _ & Hleaves).
  destruct (flatten_never_raises_on_missing_leaves refusing_table _ Hw)
    as ((flattened_data' & _ & Hrefused) & _ & _).
  destruct (flatten_never_raises_on_missing_leaves record_table _ Hw')
    as (_ & Hnone & _).
  split; [exact Hw|]. split; [exact Hrec|].
  split; [vm_compute; reflexivity|].
  split; [rewrite Hok; rewrite Hflat in Hrec; exact Hrec|].
  split; [rewrite Hrefused; reflexivity|].
  split; [exact Hw'|].
  split; [apply Hnone; left; reflexivity|].
  split; [apply Hnone; left; reflexivity|].
  split; [reflexivity|].
  assert (emits sample_play sample_game_data 0 sample_event_0 sample_record_0)
    as He.
  { unfold emits. do 2 eexists. repeat split; reflexivity. }
  destruct (Hleaves _ _ _ _ He) as (_ & _ & _ & _ & Hpitch & _).
  apply Hpitch. reflexivity.
Defined.

Lemma games_isolates_a_failing_game_witness :
  NoDup [1; 2; 3] /\
  In 2 [1; 2; 3] /\
  _game record_table flaky_transport 2
    = Raise (BadResponseCode (GAME_ENDPOINT_ROOT 2) 404) /\
  (forall game_data printed,
     games record_table flaky_transport [1; 2; 3] game_data printed ->
     dom game_data = {[1; 3]} /\ size game_data = 2%nat /\
     printed = [BadResponseCode (GAME_ENDPOINT_ROOT 2) 404]).
Proof.
  assert (NoDup [1; 2; 3]) as Hnd.
  { repeat (apply NoDup_cons_2; [rewrite ?elem_of_cons, elem_of_nil; lia|]).
    apply NoDup_nil_2. }
  assert (In 2 [1; 2; 3]) as Hin by (simpl; tauto).
  assert (_game record_table flaky_transport 2
          = Raise (BadResponseCode (GAME_ENDPOINT_ROOT 2) 404)) as Hfail
    by (vm_compute; reflexivity).
  assert (forall i, In i [1; 2; 3] -> i <> 2 ->
                    is_ok (_game record_table flaky_transport i) = true) as Hok.
  { intros i [<-|[<-|[<-|[]]]] Hi; try reflexivity. congruence. }
  split; [exact Hnd|]. split; [exact Hin|]. split; [exact Hfail|].
  intros game_data printed Hrun.
  destruct (games_isolates_a_failing_game record_table flaky_transport
              [1; 2; 3] 2 _ Hnd Hin Hfail Hok) as [_ H].
  destruct (H game_data printed Hrun) as (Hdom & Hsize & _ & _ & Hprinted).
  split; [|split; [exact Hsize | exact Hprinted]].
  rewrite Hdom. apply set_eq. intros i.
  rewrite elem_of_difference, elem_of_list_to_set, !elem_of_union,
    !elem_of_singleton, !elem_of_cons, elem_of_nil. lia.
Defined.

Lemma flatten_reads_three_places_witness :
  at_path sample_game_data ["gameData"; "teams"; "away"; "abbreviation"]
    = VStr "NYY" /\
  has_path sample_game_without_teams ["gameData"; "teams"] = false /\
  flattened_data_of sample_game_data
    = flattened_data_of sample_game_without_teams /\
  _game_to_df record_table sample_game_data
    = _game_to_df record_table sample_game_without_teams.
Proof.
  split; [reflexivity|]. split; [reflexivity|].
  apply (flatten_reads_three_places record_table
           sample_game_data sample_game_without_teams);
    reflexivity.
Defined.

Lemma a_failing_play_fails_the_table_witness :
  at_path (sample_game_with [sample_play; VStr "play"])
    ["liveData"; "plays"; "allPlays"] = VList ([sample_play] ++ [VStr "play"]) /\
  is_ok (_extract_play_data sample_play
           (sample_game_with [sample_play; VStr "play"])) = true /\
  _extract_play_data (VStr "play") (sample_game_with [sample_play; VStr "play"])
    = Raise AttributeError /\
  flattened_data_of (sample_game_with [sample_play; VStr "play"])
    = Raise AttributeError /\
  _game_to_df record_table (sample_game_with [sample_play; VStr "play"])
    = Raise AttributeError.
Proof.
  split; [reflexivity|]. split; [vm_compute; reflexivity|].
  split; [reflexivity|].
  apply (a_failing_play_fails_the_table record_table
           (sample_game_with [sample_play; VStr "play"])
           [sample_play] (VStr "play") [] AttributeError);
    [reflexivity | reflexivity | reflexivity | | reflexivity].
  constructor; [vm_compute; reflexivity | constructor].
Defined.

Lemma games_returns_the_games_that_load_witness :
  NoDup [1; 2; 3] /\
  games record_table flaky_transport [1; 2; 3]
    (fst (in_submission_order record_table flaky_transport [1; 2; 3]))
    (snd (in_submission_order record_table flaky_transport [1; 2; 3])) /\
  fst (in_submission_order record_table flaky_transport [1; 2; 3]) !! 2 = None /\
  (size (fst (in_submission_order record_table flaky_transport [1; 2; 3]%Z))
   + length (snd (in_submission_order record_table flaky_transport [1; 2; 3]%Z))
   = 3)%nat.
Proof.
  assert (NoDup [1; 2; 3]) as Hnd.
  { repeat (apply NoDup_cons_2; [rewrite ?elem_of_cons, elem_of_nil; lia|]).
    apply NoDup_nil_2. }
  assert (games record_table flaky_transport [1; 2; 3]
            (fst (in_submission_order record_table flaky_transport [1; 2; 3]))
            (snd (in_submission_order record_table flaky_transport [1; 2; 3])))
    as Hrun.
  { apply (games_as_completed _ _ _
             (submit_all record_table flaky_transport [1; 2; 3])).
    reflexivity. }
  destruct (games_returns_the_games_that_load _ _ _ _ _ Hnd Hrun)
    as (Hlookup & _ & Hsize & _).
  split; [exact Hnd|]. split; [exact Hrun|]. split; [|exact Hsize].
  destruct (fst (in_submission_order record_table flaky_transport [1; 2; 3])
              !! 2)
    as [df|] eqn:E; [|reflexivity].
  apply Hlookup in E as (_ & response & document & E1 & E2 & _).
  exfalso. vm_compute in E1. injection E1 as <-. discriminate E2.
Defined.

Lemma schedule_without_games_witness :
  quiet_transport
    (SCHEDULE_FILTER (String.concat "," (List.map pretty [1]))
       (String.concat "," ["R"])
       (String.concat "," (List.map pretty [2024])))
    = Ok {| status_code := 200; json := Ok (VDict [("totalGames", VInt 0)]) |} /\
  SCHEDULE_FILTER (String.concat "," (List.map pretty [1]))
    (String.concat "," ["R"])
    (String.concat "," (List.map pretty [2024]))
    = "https://statsapi.mlb.com/api/v1/schedule?sportId=1&gameTypes=R&season=2024&hydrate=lineup,players" /\
  schedule record_table quiet_transport failing_frame [2024] [1] ["R"]
    = Ok None.
Proof.
  split; [reflexivity|]. split; [vm_compute; reflexivity|].
  apply (proj2 (schedule_without_games record_table quiet_transport
                  failing_frame [2024] [1] ["R"] _ eq_refl)
           (VDict [("totalGames", VInt 0)]));
    [reflexivity | reflexivity | reflexivity | constructor].
Defined.
